(** * scroll: registration of backends, frontends and middlewares

    A shallow embedding of the registration core of the [scroll] library:

    - [vulcan/location.go]: the builders of a frontend ("location") record,
      its identifier, its route-match expression and the serialisation of
      its options;
    - [vulcand/registry.go]: the etcd v3 backed [Registry] with its
      [NewRegistry], [AddFrontend], [Start] and [Stop];
    - [SingleMasterRegistry] of [package registry]: the registry with a
      single master instance;
    - [handler.go] and [AddHandler] of [package scroll]: the handlers made
      around a handler function, and their registration.

    Go strings are modelled by [string] (a sequence of bytes).  The case
    mapping of [strings.ToLower] is the one Go applies to ASCII text; bytes
    above 127 are left alone by the model, so statements that depend on the
    case mapping are restricted to ASCII where that matters.  A call
    returns or panics; the libraries outside the repository (the etcd
    clients, the JSON encoder, the router) are parameters. *)

From Stdlib Require Import String Ascii List Bool Arith ZArith Lia Permutation.
From Stdlib Require Import DecimalString.
Import ListNotations.

Open Scope string_scope.

(** ** The fragment of Go's [strings] and [fmt] packages the code uses *)

Module GoStrings.

(** The double quote character, and the one-character string made of it. *)
Definition dquote : ascii := "034"%char.
Definition q : string := String dquote EmptyString.

(** [strings.Join(elems, sep)]. *)
Fixpoint Join (elems : list string) (sep : string) : string :=
  match elems with
  | [] => EmptyString
  | [x] => x
  | x :: rest => x ++ sep ++ Join rest sep
  end.

(** ASCII upper-case letters are the bytes 'A' (65) to 'Z' (90); lower-case
    letters are 'a' (97) to 'z' (122). *)
Definition isUpper (c : ascii) : bool :=
  ((65 <=? nat_of_ascii c) && (nat_of_ascii c <=? 90))%nat.

Definition isLower (c : ascii) : bool :=
  ((97 <=? nat_of_ascii c) && (nat_of_ascii c <=? 122))%nat.

Definition isASCII (c : ascii) : bool := (nat_of_ascii c <? 128)%nat.

Definition toLowerByte (c : ascii) : ascii :=
  if isUpper c then ascii_of_nat (nat_of_ascii c + 32)%nat else c.

Definition toUpperByte (c : ascii) : ascii :=
  if isLower c then ascii_of_nat (nat_of_ascii c - 32)%nat else c.

(** Byte-wise map over a string. *)
Fixpoint smap (f : ascii -> ascii) (s : string) : string :=
  match s with
  | EmptyString => EmptyString
  | String c s' => String (f c) (smap f s')
  end.

(** [strings.ToLower(s)] on ASCII text.  Outside ASCII Go lowers further
    letters and replaces invalid UTF-8, which is not modelled: here the
    bytes above 127 are kept. *)
Definition ToLower (s : string) : string := smap toLowerByte s.

(** [strings.Replace(s, old, new, -1)]: every non-overlapping occurrence of
    [old], scanning from the left, is replaced by [new].  [skip] counts the
    bytes of a matched occurrence that remain to be dropped.  For an empty
    [old] Go inserts [new] before every character and at the end. *)
Fixpoint replaceFrom (skip : nat) (s old new : string) : string :=
  match s with
  | EmptyString =>
      match old with
      | EmptyString => new
      | _ => EmptyString
      end
  | String c s' =>
      match skip with
      | S k => replaceFrom k s' old new
      | O =>
          if prefix old s
          then new ++ (match old with
                       | EmptyString => String c (replaceFrom 0 s' old new)
                       | _ => replaceFrom (String.length old - 1)%nat s' old new
                       end)
          else String c (replaceFrom 0 s' old new)
      end
  end.

Definition Replace (s old new : string) : string := replaceFrom 0 s old new.

(** [fmt.Sprintf(format, args...)] for string arguments and the verbs the
    code uses, [%v] and [%s] (and the literal [%%]).  A verb without an
    argument prints Go's [%!v(MISSING)]; arguments left over are reported
    in a trailing [%!(EXTRA ...)].  No other verb occurs in the formats of
    the code. *)
Fixpoint extraArgs (args : list string) : string :=
  match args with
  | [] => EmptyString
  | [a] => "string=" ++ a
  | a :: rest => "string=" ++ a ++ ", " ++ extraArgs rest
  end.

Fixpoint Sprintf (format : string) (args : list string) : string :=
  match format with
  | EmptyString =>
      match args with
      | [] => EmptyString
      | _ => "%!(EXTRA " ++ extraArgs args ++ ")"
      end
  | String "%" (String "v" rest) =>
      match args with
      | a :: args' => a ++ Sprintf rest args'
      | [] => "%!v(MISSING)" ++ Sprintf rest []
      end
  | String "%" (String "s" rest) =>
      match args with
      | a :: args' => a ++ Sprintf rest args'
      | [] => "%!s(MISSING)" ++ Sprintf rest []
      end
  | String "%" (String "%" rest) => String "%" (Sprintf rest args)
  | String c rest => String c (Sprintf rest args)
  end.

(** [strings.Contains(s, sub)]. *)
Fixpoint Contains (s sub : string) : bool :=
  prefix sub s ||
  match s with
  | EmptyString => false
  | String _ s' => Contains s' sub
  end.

(** Does the byte [c] occur in [s]? *)
Fixpoint occurs (c : ascii) (s : string) : bool :=
  match s with
  | EmptyString => false
  | String d s' => Ascii.eqb c d || occurs c s'
  end.

(** The number of occurrences of the byte [c] in [s]. *)
Fixpoint countByte (c : ascii) (s : string) : nat :=
  match s with
  | EmptyString => 0
  | String d s' => (if Ascii.eqb c d then 1 else 0) + countByte c s'
  end.

(** The 256 bytes. *)
Definition allBytes : list ascii := List.map ascii_of_nat (seq 0 256).

Fixpoint sforall (p : ascii -> bool) (s : string) : bool :=
  match s with
  | EmptyString => true
  | String c s' => p c && sforall p s'
  end.

End GoStrings.

Import GoStrings.

(** ** Go errors and [github.com/pkg/errors] *)

Module GoErrors.

(** An error value is a base error or an error wrapped with a message;
    Go's [nil] error is [None] of [option error]. *)
Inductive error : Type :=
| errorString (msg : string)
| withMessage (cause : error) (msg : string).

(** [err.Error()]. *)
Fixpoint Error (e : error) : string :=
  match e with
  | errorString msg => msg
  | withMessage cause msg => msg ++ ": " ++ Error cause
  end.

(** [errors.Cause(err)]. *)
Fixpoint Cause (e : error) : error :=
  match e with
  | errorString _ => e
  | withMessage cause _ => Cause cause
  end.

(** [errors.Wrap(err, message)] and [errors.Wrapf(err, format, args...)]:
    both return [nil] when [err] is [nil]. *)
Definition Wrap (err : option error) (message : string) : option error :=
  match err with
  | None => None
  | Some e => Some (withMessage e message)
  end.

Definition Wrapf (err : option error) (format : string) (args : list string)
  : option error :=
  match err with
  | None => None
  | Some e => Some (withMessage e (Sprintf format args))
  end.

(** What the call of a function comes to: it returns a value, or it panics.
    A panic that nothing recovers ends the program, so no statement after
    the call is run.  The call of a nil function value panics, and so does
    the read of a field through a nil pointer. *)
Inductive outcome (A : Type) : Type :=
| Returns (a : A)
| Panics.

Arguments Returns {A} a.
Arguments Panics {A}.

End GoErrors.

Import GoErrors.

(** ** [vulcan/location.go] *)

Module Vulcan.

Definition defaultFailoverPredicate : string :=
  "(IsNetworkError() || ResponseCode() == 503) && Attempts() <= 2".

(** Modelled from the spec: the [Middleware] struct, whose declaration is
    not part of [location.go].  It has an [ID], a [Priority] (an int) and a
    middleware-specific configuration, here its [Type] name and an opaque
    [Spec] payload. *)
Record Middleware : Type := mkMiddleware {
  mwID : string;
  mwPriority : Z;
  mwType : string;
  mwSpec : string
}.

Record LocationOptions : Type := mkLocationOptions {
  FailoverPredicate : string
}.

Record Location : Type := mkLocation {
  ID : string;
  Host : string;
  Path : string;
  Upstream : string;
  Options : LocationOptions;
  Middlewares : list Middleware
}.

(** The format string of [MarshalJSON], a Go raw string with four double
    quotes in it. *)
Definition optionsFmt : string :=
  "{" ++ q ++ "FailoverPredicate" ++ q ++ ": " ++ q ++ "%v" ++ q ++ "}".

(** [func (o LocationOptions) MarshalJSON() ([]byte, error)] *)
Definition MarshalJSON (o : LocationOptions) : string * option error :=
  (Sprintf optionsFmt [FailoverPredicate o], None).

(** [func makeLocationID(methods []string, path string) string] *)
Definition makeLocationID (methods : list string) (path : string) : string :=
  ToLower (Replace (Sprintf "%v%v" [Join methods "."; path]) "/" ".").

(** The format string of [makeLocationPath]. *)
Definition trieRouteFmt : string :=
  "TrieRoute(" ++ q ++ "%v" ++ q ++ ", " ++ q ++ "%v" ++ q ++ ")".

(** [func makeLocationPath(methods []string, path string) string] *)
Definition makeLocationPath (methods : list string) (path : string) : string :=
  Sprintf trieRouteFmt [Join methods (q ++ ", " ++ q); path].

(** [func convertPath(path string) string] *)
Definition convertPath (path : string) : string :=
  Replace (Replace path "{" "<") "}" ">".

(** [func NewLocation(host, methods, path, upstream, middlewares) *Location] *)
Definition NewLocation (host : string) (methods : list string)
           (path upstream : string) (middlewares : list Middleware) : Location :=
  let path := convertPath path in
  {| ID := makeLocationID methods path;
     Host := host;
     Path := makeLocationPath methods path;
     Upstream := upstream;
     Options := {| FailoverPredicate := defaultFailoverPredicate |};
     Middlewares := middlewares |}.

(** *** The identifier and the route expression as the specification words them *)

Definition braceToAngle (c : ascii) : ascii :=
  if Ascii.eqb c "{" then "<"%char
  else if Ascii.eqb c "}" then ">"%char else c.

Definition slashToDot (c : ascii) : ascii :=
  if Ascii.eqb c "/" then "."%char else c.

(** The path with curly braces rewritten to angle brackets, then every
    slash replaced by a dot. *)
Definition specPathWithDots (path : string) : string :=
  smap slashToDot (smap braceToAngle path).

(** [lowercase(join(methods, ".") + path-with-dots)]. *)
Definition specLocationID (methods : list string) (path : string) : string :=
  ToLower (Join methods "." ++ specPathWithDots path).

Definition quoted (s : string) : string := q ++ s ++ q.

(** [TrieRoute("M1", "M2", ..., "/path")]: the methods, double-quoted, in
    the order given, followed by the double-quoted converted path. *)
Definition specRouteExpr (methods : list string) (path : string) : string :=
  "TrieRoute("
    ++ Join (List.map quoted (methods ++ [smap braceToAngle path])%list) ", "
    ++ ")".

(** A method name that the identifier derivation keeps apart from its
    neighbours in the list: made of ASCII bytes, none of them the ['.'] that
    joins the methods or the ['/'] that is turned into one. *)
Definition idSafeByte (c : ascii) : bool :=
  isASCII c && negb (Ascii.eqb c ".") && negb (Ascii.eqb c "/").

Definition idSafe (m : string) : bool := sforall idSafeByte m.

End Vulcan.

(** ** [vulcand/registry.go] *)

Module Vulcand.

Definition localEtcdProxy : string := "127.0.0.1:2379".
Definition frontendFmt : string := "%s/frontends/%s.%s/frontend".
Definition middlewareFmt : string := "%s/frontends/%s.%s/middlewares/%s".
Definition backendFmt : string := "%s/backends/%s/backend".
Definition serverFmt : string := "%s/backends/%s/servers/%s".

(** A [time.Duration] is a number of nanoseconds. *)
Definition Second : Z := 1000000000.
Definition defaultRegistrationTTL : Z := 30 * Second.

(** A finite [float64] is a whole number of units of 2^-1074, the least
    positive one.  A [float64] that is not negative is kept as that number
    of units: [unity] is the [float64] 1. *)
Definition unity : Z := (2 ^ 1074)%Z.

(** The integer nearest to [n / d], the even one of two equally near. *)
Definition roundEven (n d : Z) : Z :=
  let q := (n / d)%Z in
  match (2 * (n mod d) ?= d)%Z with
  | Lt => q
  | Gt => (q + 1)%Z
  | Eq => if Z.even q then q else (q + 1)%Z
  end.

(** The [float64] nearest to the rational [n / d], for [0 <= n] and
    [0 < d], ties going to the even significand.  A significand has 53
    bits: the [float64]s from 2^l units up to 2^(l+1) units are the
    multiples of 2^(l-52) units, and those below 2^52 units (the
    subnormal ones) are the multiples of one unit.  The overflow to
    infinity is left out: no duration in seconds comes near it. *)
Definition round64 (n d : Z) : Z :=
  let x := (n * unity)%Z in
  let s := Z.max (Z.log2 (x / d) - 52) 0 in
  (roundEven x (d * 2 ^ s) * 2 ^ s)%Z.

(** [func (d Duration) Seconds() float64] of Go's [time] package, for
    [0 <= d]: with [sec := d / Second] and [nsec := d % Second] it returns
    [float64(sec) + float64(nsec)/1e9].  The conversions of [sec], [nsec]
    and [1e9] are exact (all are below 2^53); the quotient and the sum are
    rounded. *)
Definition Seconds (d : Z) : Z :=
  round64 (d / Second * unity + round64 (d mod Second) Second) unity.

(** [int64(d.Seconds())]: the conversion to [int64] drops the fraction.  A
    negative duration gives the opposite of what its absolute value gives,
    Go's division, remainder, rounding and conversion all being
    symmetric. *)
Definition wholeSeconds (d : Z) : Z :=
  (Z.sgn d * (Seconds (Z.abs d) / unity))%Z.

(** The part of [etcd.Config] the registry fills in. *)
Record EtcdConfig : Type := mkEtcdConfig {
  Endpoints : list string;
  Username : string;
  Password : string
}.

(** [type Config struct]; the pointer [Etcd] may be [nil]. *)
Record Config : Type := mkConfig {
  Etcd : option EtcdConfig;
  Chroot : string;
  TTL : Z
}.

Definition LeaseID : Type := Z.

(** Modelled from the spec: [backendSpec], declared outside [registry.go].
    One running instance of an application: [AppName], [ID], [IP], [Port]. *)
Record backendSpec : Type := mkBackendSpec {
  AppName : string;
  ID : string;
  IP : string;
  Port : Z
}.

Definition Middleware : Type := Vulcan.Middleware.

(** Modelled from the spec: [frontendSpec], declared outside [registry.go].
    It has the attributes of a location: [ID], [Host], [Path], [Upstream],
    [Options] and the ordered [Middlewares]. *)
Definition frontendSpec : Type := Vulcan.Location.

(** Modelled from the spec: [newFrontendSpec], defined outside
    [registry.go]: the path is rewritten to the angle-bracket syntax and the
    identifier is derived from the method list and the path, as
    [NewLocation] does, with the application name as upstream. *)
Definition newFrontendSpec (appName host path : string) (methods : list string)
           (middlewares : list Middleware) : frontendSpec :=
  Vulcan.NewLocation host methods path appName middlewares.

(** The options of a [Put]: [etcd.WithLease(id)], or the literal [nil] that
    [registerFrontend] passes. *)
Inductive OpOption : Type :=
| WithLease (id : LeaseID)
| nilOption.

Record PutReq : Type := mkPut {
  putKey : string;
  putVal : string;
  putOpts : list OpOption
}.

(** Is the literal [nil] among the options? *)
Definition nilOptionIn (opts : list OpOption) : bool :=
  existsb (fun o => match o with nilOption => true | WithLease _ => false end)
          opts.

(** The etcd v3 client, which is outside the repository.  What each of its
    calls comes to is given by the environment: [etcdPut n req] is, for the
    [Put] issued after [n] others, the error it returns ([None] for [nil]),
    which covers every way a write can fail, or the panic it ends in. *)
Class EtcdClient : Type := {
  etcdNew : EtcdConfig -> option error;
  etcdGrant : Z -> error + LeaseID;
  etcdKeepAlive : LeaseID -> option error;
  etcdPut : nat -> PutReq -> outcome (option error);
  etcdRevoke : LeaseID -> option error
}.

(** The client that [etcd.New] returns, the only one [NewRegistry] builds:
    its [Put] makes the operation with [OpPut], which calls every option on
    it.  An option is a function value, so the literal [nil] is a nil
    function: the [Put] panics on it, before any request is sent. *)
Definition callsOptions (client : EtcdClient) : Prop :=
  forall (n : nat) (req : PutReq),
    In nilOption (putOpts req) -> etcdPut n req = Panics.

(** The spec builders and serialisers that live outside [registry.go]:
    [newBackendSpec], the methods [typeSpec], [serverSpec] and [spec], Go's
    [json.Marshal] on a middleware, and the [%v] rendering of the values
    that appear in error messages. *)
Class SpecCodec : Type := {
  newBackendSpec : string -> string -> Z -> error + backendSpec;
  typeSpec : backendSpec -> string;
  serverSpec : backendSpec -> string;
  spec : frontendSpec -> string;
  jsonMarshal : Middleware -> error + string;
  fmtMiddleware : Middleware -> string;
  fmtEtcdConfig : EtcdConfig -> string
}.

(** [type Registry struct]: the fields fixed at construction and the list
    [AddFrontend] grows.  The client handle is the [EtcdClient] instance;
    the context and the wait group are in [Runtime]. *)
Record Registry : Type := mkRegistry {
  cfg : Config;
  backendSpecOf : backendSpec;
  frontendSpecs : list frontendSpec;
  leaseID : LeaseID
}.

(** A goroutine started by [Start]: blocked in its [select] on
    [r.ctx.Done()], holding the lease it will revoke, or returned. *)
Inductive watcher : Type :=
| blocked (lease : LeaseID)
| exited.

(** What changes while the registry runs: the [Put] calls that returned,
    with their errors, whether [r.ctx] is cancelled, the counter of
    [r.wg], the goroutines started and the [Revoke] calls issued. *)
Record Runtime : Type := mkRuntime {
  trace : list (PutReq * option error);
  ctxDone : bool;
  wg : nat;
  watchers : list watcher;
  revokes : list LeaseID
}.

(** A registry as [NewRegistry] leaves it: nothing written, a live context,
    the zero [sync.WaitGroup], no goroutine. *)
Definition freshRuntime : Runtime :=
  {| trace := []; ctxDone := false; wg := 0; watchers := []; revokes := [] |}.

(** Statements run in the state monad over [Runtime]; a statement that
    panics ends the run, with the runtime as the panic found it. *)
Definition M (A : Type) : Type := Runtime -> outcome A * Runtime.

Definition ret {A : Type} (a : A) : M A := fun w => (Returns a, w).

Definition bind {A B : Type} (m : M A) (k : A -> M B) : M B :=
  fun w =>
    match m w with
    | (Returns a, w') => k a w'
    | (Panics, w') => (Panics, w')
    end.

Notation "x <- m ;; k" := (bind m (fun x => k))
  (at level 61, m at next level, right associativity).

(** [r.client.Put(r.ctx, key, val, opts...)]: the error the client returns,
    with the call put on the trace, or the panic it ends in. *)
Definition Put {client : EtcdClient} (key val : string) (opts : list OpOption)
  : M (option error) :=
  fun w =>
    let req := mkPut key val opts in
    match etcdPut (List.length (trace w)) req with
    | Returns err =>
        (Returns err,
         {| trace := (trace w ++ [(req, err)])%list; ctxDone := ctxDone w;
            wg := wg w; watchers := watchers w; revokes := revokes w |})
    | Panics => (Panics, w)
    end.

(** [r.cancelFunc()] *)
Definition cancelFunc : M unit :=
  fun w => (Returns tt, {| trace := trace w; ctxDone := true; wg := wg w;
                           watchers := watchers w; revokes := revokes w |}).

(** The [go func() { ... }()] of [Start]: a new goroutine, blocked on the
    context.  The statement does not touch [r.wg]. *)
Definition goWatcher (lease : LeaseID) : M unit :=
  fun w => (Returns tt, {| trace := trace w; ctxDone := ctxDone w; wg := wg w;
                           watchers := (watchers w ++ [blocked lease])%list;
                           revokes := revokes w |}).

Definition withPriority (mw : Middleware) (i : nat) : Middleware :=
  {| Vulcan.mwID := Vulcan.mwID mw;
     Vulcan.mwPriority := Z.of_nat i;
     Vulcan.mwType := Vulcan.mwType mw;
     Vulcan.mwSpec := Vulcan.mwSpec mw |}.

Section Operations.
Context {client : EtcdClient} {codec : SpecCodec}.

(** [func NewRegistry(cfg Config, appName, ip string, port int)], which
    returns a [Registry] or an error. *)
Definition NewRegistry (cfg : Config) (appName ip : string) (port : Z)
  : error + Registry :=
  match newBackendSpec appName ip port with
  | inl err => inl (withMessage err "failed to create backend")
  | inr backendSpec =>
      let ttl := if (TTL cfg <=? 0)%Z then defaultRegistrationTTL else TTL cfg in
      let etcd :=
        match Etcd cfg with
        | None => {| Endpoints := [localEtcdProxy];
                     Username := EmptyString; Password := EmptyString |}
        | Some e => e
        end in
      let cfg := {| Etcd := Some etcd; Chroot := Chroot cfg; TTL := ttl |} in
      match etcdNew etcd with
      | Some err =>
          inl (withMessage err
                 (Sprintf "failed to create Etcd client, cfg=%v" [fmtEtcdConfig etcd]))
      | None =>
          match etcdGrant (wholeSeconds (TTL cfg)) with
          | inl err =>
              inl (withMessage err
                     (Sprintf "failed to grant a new lease, cfg=%v" [fmtEtcdConfig etcd]))
          | inr respID =>
              match etcdKeepAlive respID with
              | Some err =>
                  inl (withMessage err
                         (Sprintf "failed to start keep alive, cfg=%v" [fmtEtcdConfig etcd]))
              | None =>
                  inr {| cfg := cfg; backendSpecOf := backendSpec;
                         frontendSpecs := []; leaseID := respID |}
              end
          end
      end
  end.

(** [func (r *Registry) AddFrontend(host, path, methods, middlewares)] *)
Definition AddFrontend (r : Registry) (host path : string)
           (methods : list string) (middlewares : list Middleware) : Registry :=
  {| cfg := cfg r; backendSpecOf := backendSpecOf r;
     frontendSpecs :=
       (frontendSpecs r
          ++ [newFrontendSpec (AppName (backendSpecOf r)) host path methods middlewares])%list;
     leaseID := leaseID r |}.

(** [func (r *Registry) registerBackend(bes *backendSpec) error] *)
Definition registerBackend (r : Registry) (bes : backendSpec) : M (option error) :=
  let betKey := Sprintf backendFmt [Chroot (cfg r); AppName bes] in
  let betVal := typeSpec bes in
  err <- Put betKey betVal [] ;;
  match err with
  | Some _ => ret (Wrapf err "failed to set backend type, %s" [betKey])
  | None =>
      let besKey := Sprintf serverFmt [Chroot (cfg r); AppName bes; ID bes] in
      let besVar := serverSpec bes in
      err <- Put besKey besVar [WithLease (leaseID r)] ;;
      ret (Wrapf err "failed to set backend spec, %s" [besKey])
  end.

(** The loop [for i, mw := range fes.Middlewares] of [registerFrontend],
    from index [i] on. *)
Fixpoint registerMiddlewares (r : Registry) (fes : frontendSpec) (i : nat)
         (mws : list Middleware) : M (option error) :=
  match mws with
  | [] => ret None
  | mw :: rest =>
      let mw := withPriority mw i in
      let mwKey :=
        Sprintf middlewareFmt
                [Chroot (cfg r); Vulcan.Host fes; Vulcan.ID fes; Vulcan.mwID mw] in
      match jsonMarshal mw with
      | inl err =>
          ret (Wrapf (Some err) "failed to JSON middleware, %v" [fmtMiddleware mw])
      | inr mwVal =>
          err <- Put mwKey mwVal [] ;;
          match err with
          | Some _ => ret (Wrapf err "failed to set middleware, %s" [mwKey])
          | None => registerMiddlewares r fes (S i) rest
          end
      end
  end.

(** [func (r *Registry) registerFrontend(fes *frontendSpec) error] *)
Definition registerFrontend (r : Registry) (fes : frontendSpec) : M (option error) :=
  let fesKey := Sprintf frontendFmt [Chroot (cfg r); Vulcan.Host fes; Vulcan.ID fes] in
  let fesVal := spec fes in
  err <- Put fesKey fesVal [nilOption] ;;
  match err with
  | Some _ => ret (Wrapf err "failed to set frontend spec, %s" [fesKey])
  | None => registerMiddlewares r fes 0 (Vulcan.Middlewares fes)
  end.

(** The loop [for _, fes := range r.frontendSpecs] of [Start]. *)
Fixpoint registerFrontends (r : Registry) (fess : list frontendSpec)
  : M (option error) :=
  match fess with
  | [] => ret None
  | fes :: rest =>
      err <- registerFrontend r fes ;;
      match err with
      | Some _ =>
          _ <- cancelFunc ;;
          ret (Wrapf err "failed to register frontend, %s" [Vulcan.ID fes])
      | None => registerFrontends r rest
      end
  end.

(** [func (r *Registry) Start() error] *)
Definition Start (r : Registry) : M (option error) :=
  err <- registerBackend r (backendSpecOf r) ;;
  match err with
  | Some _ => ret (Wrapf err "failed to register backend, %s" [ID (backendSpecOf r)])
  | None =>
      let key :=
        Sprintf serverFmt
                [Chroot (cfg r); AppName (backendSpecOf r); ID (backendSpecOf r)] in
      err <- Put key (serverSpec (backendSpecOf r)) [WithLease (leaseID r)] ;;
      match err with
      | Some _ => ret (Wrap err "failed to write backend spec")
      | None =>
          _ <- goWatcher (leaseID r) ;;
          registerFrontends r (frontendSpecs r)
      end
  end.

End Operations.

(** *** [Stop] and the goroutine of [Start], statement by statement

    [Stop] is [r.cancelFunc(); r.wg.Wait()].  The caller of [Stop] is at one
    of its two statements or has returned; [Wait] can be passed only when
    the counter of the wait group is zero.  A watcher goroutine can take its
    [case <-r.ctx.Done()] once the context is cancelled: it issues the
    [Revoke] and returns. *)

Inductive StopPc : Type := atCancel | atWait | stopReturned.

Record Sys : Type := mkSys {
  rt : Runtime;
  stopPc : StopPc
}.

Inductive Event : Type :=
| evStop
| evWatcher (n : nat).

Fixpoint setNth {A : Type} (n : nat) (a : A) (l : list A) : list A :=
  match l, n with
  | [], _ => []
  | _ :: t, O => a :: t
  | x :: t, S k => x :: setNth k a t
  end.

Definition stepStop (s : Sys) : option Sys :=
  match stopPc s with
  | atCancel => Some {| rt := snd (cancelFunc (rt s)); stopPc := atWait |}
  | atWait =>
      if Nat.eqb (wg (rt s)) 0
      then Some {| rt := rt s; stopPc := stopReturned |}
      else None
  | stopReturned => None
  end.

Definition stepWatcher (n : nat) (s : Sys) : option Sys :=
  let w := rt s in
  match nth_error (watchers w) n with
  | Some (blocked lease) =>
      if ctxDone w
      then Some {| rt := {| trace := trace w; ctxDone := ctxDone w; wg := wg w;
                            watchers := setNth n exited (watchers w);
                            revokes := (revokes w ++ [lease])%list |};
                   stopPc := stopPc s |}
      else None
  | _ => None
  end.

Definition step (e : Event) (s : Sys) : option Sys :=
  match e with
  | evStop => stepStop s
  | evWatcher n => stepWatcher n s
  end.

(** A schedule is the order in which the caller of [Stop] and the
    goroutines take their steps; [None] when an event is not enabled. *)
Fixpoint run (sched : list Event) (s : Sys) : option Sys :=
  match sched with
  | [] => Some s
  | e :: rest =>
      match step e s with
      | Some s' => run rest s'
      | None => None
      end
  end.

(** The system at the moment [Stop] is called. *)
Definition callStop (w : Runtime) : Sys := {| rt := w; stopPc := atCancel |}.

(** *** Vocabulary for the statements about [Start] *)

(** The runtime [w] after the [Put] calls [new], a call of the cancel
    function when [cancelled], and the start of the goroutines [started]. *)
Definition after (w : Runtime) (new : list (PutReq * option error))
           (cancelled : bool) (started : list watcher) : Runtime :=
  {| trace := (trace w ++ new)%list; ctxDone := ctxDone w || cancelled;
     wg := wg w; watchers := (watchers w ++ started)%list;
     revokes := revokes w |}.

(** Calls that all succeeded. *)
Definition ok (reqs : list PutReq) : list (PutReq * option error) :=
  List.map (fun req => (req, None)) reqs.

(** The [Put] calls issued between two runtimes. *)
Definition newPuts (w w' : Runtime) : list (PutReq * option error) :=
  skipn (List.length (trace w)) (trace w').

(** Is the request written under a lease? *)
Definition leased (req : PutReq) : bool :=
  existsb (fun o => match o with WithLease _ => true | nilOption => false end)
          (putOpts req).

Section Requests.
Context {codec : SpecCodec}.

(** The requests [Start] builds for the backend-type record, for the
    server record and for a frontend record. *)
Definition backendTypePut (r : Registry) : PutReq :=
  mkPut (Sprintf backendFmt [Chroot (cfg r); AppName (backendSpecOf r)])
        (typeSpec (backendSpecOf r)) [].

Definition serverPut (r : Registry) : PutReq :=
  mkPut (Sprintf serverFmt [Chroot (cfg r); AppName (backendSpecOf r);
                            ID (backendSpecOf r)])
        (serverSpec (backendSpecOf r)) [WithLease (leaseID r)].

Definition frontendPut (r : Registry) (fes : frontendSpec) : PutReq :=
  mkPut (Sprintf frontendFmt [Chroot (cfg r); Vulcan.Host fes; Vulcan.ID fes])
        (spec fes) [nilOption].

(** [req] writes the middleware [mw] of [fes] with priority [i]: under
    the middleware key, without lease, the JSON of [mw] with [Priority]
    set to [i]. *)
Definition mwWritten (r : Registry) (fes : frontendSpec) (i : nat)
           (mw : Middleware) (req : PutReq) : Prop :=
  putKey req = Sprintf middlewareFmt [Chroot (cfg r); Vulcan.Host fes;
                                      Vulcan.ID fes; Vulcan.mwID mw]
  /\ jsonMarshal (withPriority mw i) = inr (putVal req)
  /\ putOpts req = [].

(** [reqs] write the middlewares [mws] of [fes], one request each, in
    order, with priorities [i], [i+1], ... *)
Fixpoint mwsWritten (r : Registry) (fes : frontendSpec) (i : nat)
         (mws : list Middleware) (reqs : list PutReq) : Prop :=
  match mws, reqs with
  | [], [] => True
  | mw :: mws', req :: reqs' =>
      mwWritten r fes i mw req /\ mwsWritten r fes (S i) mws' reqs'
  | _, _ => False
  end.

(** [reqs] are the requests of a frontend registered in full: its
    frontend record, then its middlewares with priorities 0, 1, ... *)
Definition frontendWritten (r : Registry) (fes : frontendSpec)
           (reqs : list PutReq) : Prop :=
  exists mwreqs,
    reqs = frontendPut r fes :: mwreqs
    /\ mwsWritten r fes 0 (Vulcan.Middlewares fes) mwreqs.

(** [req] is a write of a frontend of the registry or of one of its
    middlewares, and [msg] the message [registerFrontend] wraps its
    failure with. *)
Definition frontendWrite (r : Registry) (fes : frontendSpec) (req : PutReq)
           (msg : string) : Prop :=
  (req = frontendPut r fes
   /\ msg = Sprintf "failed to set frontend spec, %s" [putKey req])
  \/ (exists i mw, nth_error (Vulcan.Middlewares fes) i = Some mw
                   /\ mwWritten r fes i mw req
                   /\ msg = Sprintf "failed to set middleware, %s" [putKey req]).

End Requests.

(** *** Vocabulary for further statements *)

(** The leases held by the goroutines that are still blocked. *)
Fixpoint blockedLeases (ws : list watcher) : list LeaseID :=
  match ws with
  | [] => []
  | blocked lease :: rest => lease :: blockedLeases rest
  | exited :: rest => blockedLeases rest
  end.

(** The schedule in which every blocked goroutine of [ws], the first of
    which has index [k], takes its step, in order. *)
Fixpoint wakeAll (k : nat) (ws : list watcher) : list Event :=
  match ws with
  | [] => []
  | blocked _ :: rest => evWatcher k :: wakeAll (S k) rest
  | exited :: rest => wakeAll (S k) rest
  end.

(** The statement [m] touches the runtime only by [Put] calls whose requests
    satisfy [P], by cancelling the context and by starting goroutines. *)
Definition confined {A : Type} (P : PutReq -> Prop) (m : M A) : Prop :=
  forall w, exists new c st,
      snd (m w) = after w new c st /\ Forall (fun p => P (fst p)) new.

End Vulcand.

(** ** The single-master registry ([package registry]) *)

Module SingleMaster.

Definition frontendKey : string := "%s/frontends/%s.%s/frontend".
Definition middlewareKey : string := "%s/frontends/%s.%s/middlewares/%s".
Definition backendKey : string := "%s/backends/%s/backend".
Definition serverKey : string := "%s/backends/%s/servers/%s".
Definition masterNodeID : string := "master".

(** Modelled from the spec: [AppRegistration] and [vulcan.Endpoint], both
    declared outside this file; the fields are those the file reads. *)
Record AppRegistration : Type := mkAppRegistration {
  Name : string;
  Host : string;
  Port : Z
}.

Record Endpoint : Type := mkEndpoint {
  epID : string;
  epName : string
}.

(** [vulcan.NewEndpointWithID], the methods [BackendSpec] and [ServerSpec] of
    an endpoint and [json.Marshal] on a middleware are defined outside this
    file; each returns a value or an error. *)
Class EndpointCodec : Type := {
  NewEndpointWithID : string -> string -> string -> Z -> error + Endpoint;
  BackendSpec : Endpoint -> error + string;
  ServerSpec : Endpoint -> error + string;
  marshalMiddleware : Vulcan.Middleware -> error + string
}.

(** The calls of the etcd v2 client the registry makes: [s.Client.Set],
    [s.Client.Create] and [s.Client.CompareAndSwap]. *)
Inductive ClientCall : Type :=
| clientSet (key value : string) (ttl : Z)
| clientCreate (key value : string) (ttl : Z)
| clientCompareAndSwap (key value : string) (ttl : Z) (prevValue : string) (prevIndex : Z).

(** [clientCall n c] is the error of the [n]-th call issued. *)
Class Client : Type := {
  clientCall : nat -> ClientCall -> option error
}.

(** [type SingleMasterRegistry struct], and the calls issued through its
    [Client] so far with their outcomes. *)
Record SingleMasterRegistry : Type := mkSingleMasterRegistry {
  Key : string;
  TTL : Z;
  IsMaster : bool;
  issued : list (ClientCall * option error)
}.

Definition SM (A : Type) : Type := SingleMasterRegistry -> A * SingleMasterRegistry.

Definition call {client : Client} (c : ClientCall) : SM (option error) :=
  fun s =>
    let err := clientCall (List.length (issued s)) c in
    (err, {| Key := Key s; TTL := TTL s; IsMaster := IsMaster s;
             issued := (issued s ++ [(c, err)])%list |}).

Definition setIsMaster (b : bool) : SM unit :=
  fun s => (tt, {| Key := Key s; TTL := TTL s; IsMaster := b; issued := issued s |}).

Section Operations.
Context {client : Client} {codec : EndpointCodec}.

(** [func (s *SingleMasterRegistry) registerBackend(endpoint) error] *)
Definition registerBackend (endpoint : Endpoint) : SM (option error) :=
  fun s =>
    let key := Sprintf backendKey [Key s; epName endpoint] in
    match BackendSpec endpoint with
    | inl err => (Some err, s)
    | inr backend => call (clientSet key backend 0) s
    end.

(** [func (s *SingleMasterRegistry) assumeMasterRole(endpoint) error] *)
Definition assumeMasterRole (endpoint : Endpoint) : SM (option error) :=
  fun s =>
    let key := Sprintf serverKey [Key s; epName endpoint; epID endpoint] in
    match ServerSpec endpoint with
    | inl _ => (None, s)
    | inr server =>
        let (err, s1) := call (clientCreate key server (TTL s)) s in
        match err with
        | Some _ => (err, s1)
        | None => (None, snd (setIsMaster true s1))
        end
    end.

(** [func (s *SingleMasterRegistry) maintainMasterRole(endpoint) error] *)
Definition maintainMasterRole (endpoint : Endpoint) : SM (option error) :=
  fun s =>
    let key := Sprintf serverKey [Key s; epName endpoint; epID endpoint] in
    match ServerSpec endpoint with
    | inl _ => (None, s)
    | inr server =>
        let (err, s1) := call (clientCompareAndSwap key server (TTL s) server 0) s in
        match err with
        | Some _ => (err, snd (setIsMaster false s1))
        | None => (None, snd (setIsMaster true s1))
        end
    end.

(** [func (s *SingleMasterRegistry) registerServer(endpoint) error] *)
Definition registerServer (endpoint : Endpoint) : SM (option error) :=
  fun s =>
    if IsMaster s then maintainMasterRole endpoint s
    else assumeMasterRole endpoint s.

(** [func (s *SingleMasterRegistry) RegisterApp(registration) error] *)
Definition RegisterApp (registration : AppRegistration) : SM (option error) :=
  fun s =>
    match NewEndpointWithID masterNodeID (Name registration)
                            (Host registration) (Port registration) with
    | inl _ => (None, s)
    | inr endpoint =>
        let (err, s1) := registerBackend endpoint s in
        match err with
        | Some _ => (err, s1)
        | None =>
            let (err, s2) := registerServer endpoint s1 in
            match err with
            | Some _ => (err, s2)
            | None => (None, s2)
            end
        end
    end.

(** The loop of [registerMiddleware], from index [i] on. *)
Fixpoint registerMiddlewareFrom (location : Vulcan.Location) (i : nat)
         (ms : list Vulcan.Middleware) : SM (option error) :=
  fun s =>
    match ms with
    | [] => (None, s)
    | m :: rest =>
        let m := Vulcand.withPriority m i in
        let key :=
          Sprintf middlewareKey
                  [Key s; Vulcan.Host location; Vulcan.ID location; Vulcan.mwID m] in
        match marshalMiddleware m with
        | inl err => (Some err, s)
        | inr middleware =>
            let (err, s1) := call (clientSet key middleware 0) s in
            match err with
            | Some _ => (err, s1)
            | None => registerMiddlewareFrom location (S i) rest s1
            end
        end
    end.

(** [func (s *SingleMasterRegistry) registerMiddleware(location) error] *)
Definition registerMiddleware (location : Vulcan.Location) : SM (option error) :=
  registerMiddlewareFrom location 0 (Vulcan.Middlewares location).

(** [calls] set the middlewares [ms] of [location], one call each, in order,
    with priorities [i], [i+1], ... *)
Fixpoint middlewaresSet (key : string) (location : Vulcan.Location) (i : nat)
         (ms : list Vulcan.Middleware) (calls : list ClientCall) : Prop :=
  match ms, calls with
  | [], [] => True
  | m :: ms', c :: calls' =>
      (exists middleware,
          marshalMiddleware (Vulcand.withPriority m i) = inr middleware
          /\ c = clientSet (Sprintf middlewareKey
                                     [key; Vulcan.Host location;
                                      Vulcan.ID location; Vulcan.mwID m])
                            middleware 0)
      /\ middlewaresSet key location (S i) ms' calls'
  | _, _ => False
  end.

End Operations.

(** [func NewSingleMasterRegistry(key string, ttl uint64) *SingleMasterRegistry];
    the client it creates has issued no call. *)
Definition NewSingleMasterRegistry (key : string) (ttl : Z) : SingleMasterRegistry :=
  {| Key := key; TTL := ttl; IsMaster := false; issued := [] |}.

(** Modelled from the spec: [HandlerRegistration], declared outside this
    file; the fields are those [RegisterHandler] reads. *)
Record HandlerRegistration : Type := mkHandlerRegistration {
  hrName : string;
  hrHost : string;
  hrPath : string;
  hrMethods : list string;
  hrMiddlewares : list Vulcan.Middleware
}.

(** The method [Spec] of a location, defined outside this file. *)
Class LocationCodec : Type := {
  LocationSpec : Vulcan.Location -> error + string
}.

Section HandlerOperations.
Context {client : Client} {codec : EndpointCodec} {lcodec : LocationCodec}.

(** [func (s *SingleMasterRegistry) registerFrontend(location) error] *)
Definition registerFrontend (location : Vulcan.Location) : SM (option error) :=
  fun s =>
    let key := Sprintf frontendKey [Key s; Vulcan.Host location; Vulcan.ID location] in
    match LocationSpec location with
    | inl err => (Some err, s)
    | inr frontend =>
        let (err, s1) := call (clientSet key frontend 0) s in
        match err with
        | Some _ => (err, s1)
        | None => (None, s1)
        end
    end.

(** [func (s *SingleMasterRegistry) RegisterHandler(registration) error] *)
Definition RegisterHandler (registration : HandlerRegistration) : SM (option error) :=
  fun s =>
    let location :=
      Vulcan.NewLocation (hrHost registration) (hrMethods registration)
                         (hrPath registration) (hrName registration)
                         (hrMiddlewares registration) in
    let (err, s1) := registerFrontend location s in
    match err with
    | Some _ => (err, s1)
    | None =>
        let (err, s2) := registerMiddleware location s1 in
        match err with
        | Some _ => (err, s2)
        | None => (None, s2)
        end
    end.

End HandlerOperations.

(** *** Vocabulary for the statements about the single-master registry *)

(** The registry [s] after further calls. *)
Definition withCalls (s : SingleMasterRegistry)
           (new : list (ClientCall * option error)) : SingleMasterRegistry :=
  {| Key := Key s; TTL := TTL s; IsMaster := IsMaster s;
     issued := (issued s ++ new)%list |}.

(** The registry [s] in the role [b]. *)
Definition inRole (s : SingleMasterRegistry) (b : bool) : SingleMasterRegistry :=
  {| Key := Key s; TTL := TTL s; IsMaster := b; issued := issued s |}.

(** The call by which a registry in role [master] claims or keeps the
    server key. *)
Definition serverCall (master : bool) (key server : string) (ttl : Z) : ClientCall :=
  if master then clientCompareAndSwap key server ttl server 0
  else clientCreate key server ttl.

(** A [Set] with TTL 0, that is, of a key that does not expire. *)
Definition isPermanentSet (c : ClientCall) : Prop :=
  exists key value, c = clientSet key value 0.

End SingleMaster.

(** ** [handler.go] and the application ([package scroll]) *)

Module Scroll.

(** *** [net/url.QueryUnescape] *)

Definition between (lo hi : nat) (c : ascii) : bool :=
  ((lo <=? nat_of_ascii c) && (nat_of_ascii c <=? hi))%nat.

(** [ishex]: a digit, or a letter from a to f in either case. *)
Definition ishex (c : ascii) : bool :=
  between 48 57 c || between 97 102 c || between 65 70 c.

Definition unhex (c : ascii) : nat :=
  if between 48 57 c then nat_of_ascii c - 48
  else if between 97 102 c then nat_of_ascii c - 97 + 10
  else if between 65 70 c then nat_of_ascii c - 65 + 10
  else 0.

(** The first pass of [unescape]: the first ['%'] that is not followed by
    two hex digits, with the at most two bytes after it. *)
Fixpoint firstBadEscape (s : string) : option string :=
  match s with
  | EmptyString => None
  | String "%" rest =>
      match rest with
      | String a (String b rest') =>
          if ishex a && ishex b then firstBadEscape rest'
          else Some (String "%" (String a (String b EmptyString)))
      | _ => Some s
      end
  | String _ rest => firstBadEscape rest
  end.

(** The second pass: [%XX] becomes the byte XX and ['+'] a space. *)
Fixpoint unescapeQuery (s : string) : string :=
  match s with
  | EmptyString => EmptyString
  | String "%" (String a (String b rest)) =>
      String (ascii_of_nat (unhex a * 16 + unhex b)) (unescapeQuery rest)
  | String "+" rest => String " " (unescapeQuery rest)
  | String c rest => String c (unescapeQuery rest)
  end.

(** [url.QueryUnescape(s)]: the decoded string, or the bytes of the escape
    its [EscapeError] reports. *)
Definition QueryUnescape (s : string) : string + string :=
  match firstBadEscape s with
  | Some bad => inl bad
  | None => inr (unescapeQuery s)
  end.

(** *** [handler.go] *)

(** A [map[string]string], read by key. *)
Definition GoMap : Type := list (string * string).

Fixpoint mapGet (key : string) (m : GoMap) : option string :=
  match m with
  | [] => None
  | (k, v) :: rest => if String.eqb key k then Some v else mapGet key rest
  end.

(** [func DecodeParams(src map[string]string) map[string]string] *)
Definition DecodeParams (src : GoMap) : GoMap :=
  List.map (fun kv =>
              let param := snd kv in
              (fst kv,
               match QueryUnescape param with
               | inr encoded => encoded
               | inl _ => param
               end)) src.

(** What a handler hands to [Reply]: nil, a [Response] with the one key
    [message], or another value, known by its description. *)
Inductive response : Type :=
| nilResponse
| messageResponse (message : string)
| valueResponse (description : string).

(** The part of an [http.Request] the file reads: the Content-Type header
    and the path variables of the router. *)
Record Request : Type := mkRequest {
  contentType : string;
  pathVars : GoMap
}.

(** What a handler does to the outside, in order: the calls of the function
    in [LogRequest] and of [TrackRequest], and on the response writer the
    header set, the status written and the body written.  Elapsed times are
    left out. *)
Inductive Effect : Type :=
| effLogRequest (r : option Request) (status : Z) (err : option error)
| effTrackRequest (metricName : string) (status : Z)
| effSetHeader (key value : string)
| effWriteHeader (status : Z)
| effWrite (body : string).

(** What running a piece of a handler comes to: the calls made, and a
    return or a panic. *)
Definition Run : Type := list Effect * outcome unit.

(** A function of the type of [LogRequest], known by whether its call
    returns.  It takes a request, which may be nil, a status, an elapsed
    time and an error. *)
Definition LogFunc : Type := option Request -> Z -> option error -> outcome unit.

(** What the file calls outside itself: the form parsers and the body
    reader of the request, [responseAndStatusFor], the JSON encoder with
    HTML escaping off, and the [%v] rendering of a response; and the
    package variable [LogRequest], which is nil ([None]) until a function is
    stored in it. *)
Class HttpEnv : Type := {
  ParseMultipartForm : Request -> option error;
  ParseForm : Request -> option error;
  ReadAll : Request -> error + string;
  responseAndStatusFor : error -> response * Z;
  encodeJSON : response -> error + string;
  fmtResponse : response -> string;
  LogRequest : option LogFunc
}.

(** [type HandlerFunc] and [type HandlerWithBodyFunc]: a handler function is
    given the response writer and the request, so it may make calls of its
    own before it returns its response and error, or panics. *)
Definition HandlerFunc : Type :=
  Request -> GoMap -> list Effect * outcome (response * option error).
Definition HandlerWithBodyFunc : Type :=
  Request -> GoMap -> string -> list Effect * outcome (response * option error).

(** An [http.HandlerFunc], applied to a request. *)
Definition HttpHandler : Type := Request -> Run.

Definition StatusOK : Z := 200.
Definition StatusInternalServerError : Z := 500.

(** The format of the body [Reply] writes when the response cannot be
    marshalled. *)
Definition marshalFailedFmt : string :=
  "{" ++ q ++ "message" ++ q ++ ": " ++ q
      ++ "Failed to marshal response: %v %v" ++ q ++ "}".

(** [func logRequest(r *http.Request, status int, elapsedTime time.Duration,
    err error)], the one function of the type of [LogRequest] in the file:
    it reads [r.Method], [r.URL] and [r.Form] for its log line, which is a
    panic when [r] is nil. *)
Definition logRequest : LogFunc :=
  fun r _ _ =>
    match r with
    | Some _ => Returns tt
    | None => Panics
    end.

(** One piece after another: the second is not run when the first ends in a
    panic. *)
Definition andThen (a b : Run) : Run :=
  match a with
  | (done, Returns _) => ((done ++ fst b)%list, snd b)
  | (done, Panics) => (done, Panics)
  end.

(** Calls that return. *)
Definition calls (effects : list Effect) : Run := (effects, Returns tt).

Section Handlers.
Context {env : HttpEnv}.

(** [func isMultipart(r *http.Request) bool] *)
Definition isMultipart (r : Request) : bool :=
  prefix "multipart/form-data" (contentType r).

(** [func parseForm(r *http.Request) error] *)
Definition parseForm (r : Request) : option error :=
  if isMultipart r then ParseMultipartForm r else ParseForm r.

(** The statement [LogRequest(r, status, elapsed, err)]: the call of a nil
    function panics; the call of a function is made, and returns or
    panics. *)
Definition callLogRequest (r : option Request) (status : Z) (err : option error)
  : Run :=
  match LogRequest with
  | None => ([], Panics)
  | Some f => ([effLogRequest r status err], f r status err)
  end.

(** [func Reply(w http.ResponseWriter, response interface{}, status int)] *)
Definition Reply (resp : response) (status : Z) : Run :=
  match encodeJSON resp with
  | inr marshalledResponse =>
      calls [effSetHeader "Content-Type" "application/json; charset=utf-8";
             effWriteHeader status;
             effWrite marshalledResponse]
  | inl err =>
      let marshalledResponse := Sprintf marshalFailedFmt [fmtResponse resp; Error err] in
      let status := StatusInternalServerError in
      andThen (callLogRequest None status (Some err))
        (calls [effSetHeader "Content-Type" "application/json; charset=utf-8";
                effWriteHeader status;
                effWrite marshalledResponse])
  end.

(** [func ReplyError(w http.ResponseWriter, err error)] *)
Definition ReplyError (err : error) : Run :=
  let (resp, status) := responseAndStatusFor err in
  Reply resp status.

(** [func ReplyInternalError(w http.ResponseWriter, message string)] *)
Definition ReplyInternalError (message : string) : Run :=
  andThen (callLogRequest None 500 (Some (errorString message)))
          (Reply (messageResponse message) StatusInternalServerError).

(** The end of both handlers, from [elapsedTime := time.Since(start)] on. *)
Definition finish (metricName : string) (r : Request) (resp : response)
           (status : Z) (err : option error) : Run :=
  andThen (callLogRequest (Some r) status err)
          (andThen (calls [effTrackRequest metricName status])
                   (Reply resp status)).

(** The handler [MakeHandler(app, fn, spec)] returns, applied to a request;
    of the spec it reads the metric name. *)
Definition MakeHandler (metricName : string) (fn : HandlerFunc) : HttpHandler :=
  fun r =>
    match parseForm r with
    | Some e =>
        let err := errorString (Sprintf "Failed to parse request form: %v" [Error e]) in
        finish metricName r (messageResponse (Error err))
               StatusInternalServerError (Some err)
    | None =>
        match fn r (DecodeParams (pathVars r)) with
        | (done, Panics) => (done, Panics)
        | (done, Returns (resp, err)) =>
            andThen (calls done)
              match err with
              | Some e =>
                  let (resp, status) := responseAndStatusFor e in
                  finish metricName r resp status err
              | None => finish metricName r resp StatusOK err
              end
        end
    end.

(** The handler [MakeHandlerWithBody(app, fn, spec)] returns. *)
Definition MakeHandlerWithBody (metricName : string) (fn : HandlerWithBodyFunc)
  : HttpHandler :=
  fun r =>
    match parseForm r with
    | Some e =>
        let err := errorString (Sprintf "Failed to parse request form: %v" [Error e]) in
        finish metricName r (messageResponse (Error err))
               StatusInternalServerError (Some err)
    | None =>
        match ReadAll r with
        | inl e =>
            let err :=
              errorString (Sprintf "Failed to read request body: %v" [Error e]) in
            finish metricName r (messageResponse (Error err))
                   StatusInternalServerError (Some err)
        | inr body =>
            match fn r (pathVars r) body with
            | (done, Panics) => (done, Panics)
            | (done, Returns (resp, err)) =>
                andThen (calls done)
                  match err with
                  | Some e =>
                      let (resp, status) := responseAndStatusFor e in
                      finish metricName r resp status err
                  | None => finish metricName r resp StatusOK err
                  end
            end
        end
    end.

End Handlers.

(** *** Vocabulary for the statements about the handlers *)

(** [effects] are the calls [Reply] makes for [resp] and [status] when it
    returns: the header, the status and the body when [resp] can be
    marshalled; when it cannot, a call of the function in [LogRequest]
    without request, then the header, the status 500 and the body that
    reports the failure. *)
Definition replied {env : HttpEnv} (resp : response) (status : Z)
           (effects : list Effect) : Prop :=
  match encodeJSON resp with
  | inr body =>
      effects = [effSetHeader "Content-Type" "application/json; charset=utf-8";
                 effWriteHeader status; effWrite body]
  | inl e =>
      effects = [effLogRequest None 500 (Some e);
                 effSetHeader "Content-Type" "application/json; charset=utf-8";
                 effWriteHeader 500;
                 effWrite (Sprintf marshalFailedFmt [fmtResponse resp; Error e])]
  end.

(** *** The application: [AddHandler] *)

(** [type Spec struct], with the fields [AddHandler] reads; a handler field
    that is nil is [None]. *)
Record Spec : Type := mkSpec {
  Methods : list string;
  Path : string;
  Headers : list string;
  RawHandler : option HttpHandler;
  Handler : option HandlerFunc;
  HandlerWithBody : option HandlerWithBodyFunc;
  MetricName : string;
  Register : bool
}.

(** A route of the router: [HandleFunc(path, handler).Methods(...)], with
    the headers when the spec has some. *)
Record Route : Type := mkRoute {
  routePath : string;
  routeHandler : HttpHandler;
  routeMethods : list string;
  routeHeaders : list string
}.

(** [registry.NewLocation(host, methods, path, upstream)] is defined outside
    the file: a location is kept as these four arguments. *)
Record LocationReq : Type := mkLocationReq {
  locHost : string;
  locMethods : list string;
  locPath : string;
  locUpstream : string
}.

(** [type App struct]: the configuration read by [AddHandler], the routes
    of the router, whether there is a registry, and the locations handed to
    it so far. *)
Record App : Type := mkApp {
  appName : string;
  apiHost : string;
  routes : list Route;
  hasRegistry : bool;
  registered : list LocationReq
}.

(** [RegisterLocation] of the registry and the [%v] renderings of a spec
    and of a location, all outside the file. *)
Class AppEnv : Type := {
  RegisterLocation : LocationReq -> option error;
  fmtSpec : Spec -> string;
  fmtLocation : LocationReq -> string
}.

Section Application.
Context {env : HttpEnv} {aenv : AppEnv}.



End Application.

End Scroll.

(** ** Environments and registries used as examples *)

Module Examples.
Import Vulcand.

Definition requestTimedOut : error := errorString "etcdserver: request timed out".

Definition showZ (z : Z) : string := NilZero.string_of_int (Z.to_int z).

(** Builders and serialisers that always succeed. *)
Definition exampleCodec : SpecCodec :=
  {| newBackendSpec := fun appName ip port =>
       inr {| AppName := appName; ID := ip ++ "_" ++ showZ port;
              IP := ip; Port := port |};
     typeSpec := fun _ => "{Type: http}";
     serverSpec := fun bes => "{URL: http://" ++ IP bes ++ ":" ++ showZ (Port bes) ++ "}";
     spec := fun fes => "{Host: " ++ Vulcan.Host fes ++ ", Route: " ++ Vulcan.Path fes ++ "}";
     jsonMarshal := fun mw =>
       inr ("{ID: " ++ Vulcan.mwID mw ++ ", Priority: "
                    ++ showZ (Vulcan.mwPriority mw) ++ "}");
     fmtMiddleware := Vulcan.mwID;
     fmtEtcdConfig := fun c => Join (Endpoints c) "," |}.

(** A client as [etcd.New] returns it, whose [Put] panics on a nil option,
    and all of whose other calls succeed; the lease granted is 7. *)
Definition okClient : EtcdClient :=
  {| etcdNew := fun _ => None;
     etcdGrant := fun _ => inr 7%Z;
     etcdKeepAlive := fun _ => None;
     etcdPut := fun _ req =>
       if nilOptionIn (putOpts req) then Panics else Returns None;
     etcdRevoke := fun _ => None |}.

(** Such a client, with a store whose [n]-th [Put] times out. *)
Definition failingClient (n : nat) : EtcdClient :=
  {| etcdNew := fun _ => None;
     etcdGrant := fun _ => inr 7%Z;
     etcdKeepAlive := fun _ => None;
     etcdPut := fun k req =>
       if nilOptionIn (putOpts req) then Panics
       else Returns (if Nat.eqb k n then Some requestTimedOut else None);
     etcdRevoke := fun _ => None |}.

(** A test double for the client whose [Put] does not look at the options,
    and whose [n]-th [Put] times out. *)
Definition stubClient (n : nat) : EtcdClient :=
  {| etcdNew := fun _ => None;
     etcdGrant := fun _ => inr 7%Z;
     etcdKeepAlive := fun _ => None;
     etcdPut := fun k _ => Returns (if Nat.eqb k n then Some requestTimedOut else None);
     etcdRevoke := fun _ => None |}.

(** A client that cannot be opened on a configuration without endpoint. *)
Definition noEndpoint : error :=
  errorString "at least one Endpoint must is required in client config".

Definition strictClient : EtcdClient :=
  {| etcdNew := fun c => match Endpoints c with
                         | [] => Some noEndpoint
                         | _ => None
                         end;
     etcdGrant := fun _ => inr 7%Z;
     etcdKeepAlive := fun _ => None;
     etcdPut := fun _ req =>
       if nilOptionIn (putOpts req) then Panics else Returns None;
     etcdRevoke := fun _ => None |}.

Definition unsetConfig : Config :=
  {| Etcd := None; Chroot := "/vulcand"; TTL := 0%Z |}.

(** A configuration that supplies an etcd configuration without endpoint. *)
Definition noEndpointConfig : Config :=
  {| Etcd := Some {| Endpoints := []; Username := EmptyString;
                     Password := EmptyString |};
     Chroot := "/vulcand"; TTL := 0%Z |}.

Definition exampleBackend : backendSpec :=
  {| AppName := "app"; ID := "10.0.0.1_8080"; IP := "10.0.0.1"; Port := 8080%Z |}.

Definition rateLimit : Middleware :=
  {| Vulcan.mwID := "rl1"; Vulcan.mwPriority := 5%Z;
     Vulcan.mwType := "ratelimit"; Vulcan.mwSpec := "{}" |}.

Definition auth : Middleware :=
  {| Vulcan.mwID := "auth1"; Vulcan.mwPriority := 0%Z;
     Vulcan.mwType := "auth"; Vulcan.mwSpec := "{}" |}.

(** One backend, no frontend yet. *)
Definition bareRegistry : Registry :=
  {| cfg := {| Etcd := Some {| Endpoints := [localEtcdProxy];
                               Username := EmptyString; Password := EmptyString |};
               Chroot := "/vulcand"; TTL := defaultRegistrationTTL |};
     backendSpecOf := exampleBackend;
     frontendSpecs := [];
     leaseID := 7%Z |}.

(** One backend and two frontends, the first with two middlewares and the
    second with one. *)
Definition exampleRegistry : Registry :=
  AddFrontend
    (AddFrontend bareRegistry "api.example.com" "/resources/{id}"
                 ["GET"; "POST"] [rateLimit; auth])
    "api.example.com" "/hello" ["GET"] [auth].

(** The sixth [Put] that the registration of [exampleRegistry] builds: the
    second middleware of the first frontend. *)
Definition sixthPut : PutReq :=
  mkPut "/vulcand/frontends/api.example.com.get.post.resources.<id>/middlewares/auth1"
        "{ID: auth1, Priority: 1}" [].

(** A configuration with a TTL of half a second, and one with a TTL of 90
    seconds and a half. *)
Definition halfSecondConfig : Config :=
  {| Etcd := None; Chroot := "/vulcand"; TTL := 500000000%Z |}.

Definition ninetySecondsConfig : Config :=
  {| Etcd := None; Chroot := "/vulcand"; TTL := 90500000000%Z |}.

(** A client that names each lease by the seconds it is asked for. *)
Definition echoClient : EtcdClient :=
  {| etcdNew := fun _ => None;
     etcdGrant := fun seconds => inr seconds;
     etcdKeepAlive := fun _ => None;
     etcdPut := fun _ req =>
       if nilOptionIn (putOpts req) then Panics else Returns None;
     etcdRevoke := fun _ => None |}.

(** For the single-master registry: a codec none of whose builders
    succeeds, and a client whose calls succeed. *)
Definition invalidEndpoint : error := errorString "invalid endpoint".

Definition failingEndpointCodec : SingleMaster.EndpointCodec :=
  {| SingleMaster.NewEndpointWithID := fun _ _ _ _ => inl invalidEndpoint;
     SingleMaster.BackendSpec := fun _ => inl invalidEndpoint;
     SingleMaster.ServerSpec := fun _ => inl invalidEndpoint;
     SingleMaster.marshalMiddleware := fun _ => inl invalidEndpoint |}.

Definition okV2Client : SingleMaster.Client :=
  {| SingleMaster.clientCall := fun _ _ => None |}.

Definition exampleSingleMaster : SingleMaster.SingleMasterRegistry :=
  {| SingleMaster.Key := "/vulcand"; SingleMaster.TTL := 15%Z;
     SingleMaster.IsMaster := false; SingleMaster.issued := [] |}.

Definition exampleEndpoint : SingleMaster.Endpoint :=
  {| SingleMaster.epID := "master"; SingleMaster.epName := "app" |}.

(** A codec whose builders succeed. *)
Definition okEndpointCodec : SingleMaster.EndpointCodec :=
  {| SingleMaster.NewEndpointWithID := fun id name host port =>
       inr {| SingleMaster.epID := id; SingleMaster.epName := name |};
     SingleMaster.BackendSpec := fun _ => inr "{Type: http}";
     SingleMaster.ServerSpec := fun ep => inr ("{URL: " ++ SingleMaster.epName ep ++ "}");
     SingleMaster.marshalMiddleware := fun m =>
       inr ("{ID: " ++ Vulcan.mwID m ++ ", Priority: "
                    ++ showZ (Vulcan.mwPriority m) ++ "}") |}.

Definition okLocationCodec : SingleMaster.LocationCodec :=
  {| SingleMaster.LocationSpec := fun l => inr (Vulcan.Path l) |}.

(** A client that refuses every [Create] and [CompareAndSwap]: the server
    key is held by another instance. *)
Definition keyExists : error := errorString "Key already exists".

Definition slaveClient : SingleMaster.Client :=
  {| SingleMaster.clientCall := fun _ c =>
       match c with
       | SingleMaster.clientSet _ _ _ => None
       | _ => Some keyExists
       end |}.

Definition exampleHandler : SingleMaster.HandlerRegistration :=
  {| SingleMaster.hrName := "app"; SingleMaster.hrHost := "api.example.com";
     SingleMaster.hrPath := "/resources/{id}";
     SingleMaster.hrMethods := ["GET"; "POST"];
     SingleMaster.hrMiddlewares := [rateLimit; auth] |}.

(** For the handlers: an environment in which forms parse and bodies are
    read, only the response described as [channel] cannot be marshalled,
    and [LogRequest] holds the function given. *)
Definition unsupportedValue : error := errorString "json: unsupported type: chan int".

Definition exampleHttpEnv (log : option Scroll.LogFunc) : Scroll.HttpEnv :=
  {| Scroll.ParseMultipartForm := fun _ => None;
     Scroll.ParseForm := fun _ => None;
     Scroll.ReadAll := fun _ => inr "body";
     Scroll.responseAndStatusFor := fun e =>
       (Scroll.messageResponse (Error e), 400%Z);
     Scroll.encodeJSON := fun resp =>
       match resp with
       | Scroll.nilResponse => inr "null"
       | Scroll.messageResponse m => inr ("{message: " ++ m ++ "}")
       | Scroll.valueResponse d =>
           if String.eqb d "channel" then inl unsupportedValue else inr d
       end;
     Scroll.fmtResponse := fun resp =>
       match resp with
       | Scroll.nilResponse => "<nil>"
       | Scroll.messageResponse m => "map[message:" ++ m ++ "]"
       | Scroll.valueResponse d => d
       end;
     Scroll.LogRequest := log |}.

(** A function for [LogRequest] that returns whatever it is given. *)
Definition quietLog : Scroll.LogFunc := fun _ _ _ => Returns tt.

(** A registry that refuses every location. *)
Definition refusingAppEnv : Scroll.AppEnv :=
  {| Scroll.RegisterLocation := fun _ => Some requestTimedOut;
     Scroll.fmtSpec := Scroll.Path;
     Scroll.fmtLocation := Scroll.locPath |}.

Definition exampleRequest : Scroll.Request :=
  {| Scroll.contentType := "application/json";
     Scroll.pathVars := [("resourceID", "a%20b+c"); ("broken", "100%")] |}.

(** A handler whose response cannot be marshalled. *)
Definition channelHandler : Scroll.HandlerFunc :=
  fun _ _ => ([], Returns (Scroll.valueResponse "channel", None)).

Definition exampleScrollApp : Scroll.App :=
  {| Scroll.appName := "app"; Scroll.apiHost := "api.example.com";
     Scroll.routes := []; Scroll.hasRegistry := true; Scroll.registered := [] |}.

Definition exampleSpec : Scroll.Spec :=
  {| Scroll.Methods := ["GET"]; Scroll.Path := "/resources/{resourceID}";
     Scroll.Headers := []; Scroll.RawHandler := None;
     Scroll.Handler := Some channelHandler; Scroll.HandlerWithBody := None;
     Scroll.MetricName := "resources.get"; Scroll.Register := true |}.

Definition exampleApp : SingleMaster.AppRegistration :=
  {| SingleMaster.Name := "app"; SingleMaster.Host := "not an address";
     SingleMaster.Port := 8080%Z |}.

End Examples.

(** * Properties *)

(** ** Strings *)

Section StringFacts.

Lemma append_nil_r (s : string) : s ++ EmptyString = s.
Proof. induction s as [|c s IH]; simpl; [reflexivity | now rewrite IH]. Qed.

Lemma append_assoc (a b c : string) : (a ++ b) ++ c = a ++ b ++ c.
Proof. induction a as [|x a IH]; simpl; [reflexivity | now rewrite IH]. Qed.

Lemma length_append (a b : string) :
  String.length (a ++ b) = (String.length a + String.length b)%nat.
Proof. induction a as [|x a IH]; simpl; [reflexivity | now rewrite IH]. Qed.

Lemma append_inv_head (a x y : string) : a ++ x = a ++ y -> x = y.
Proof.
  induction a as [|c a IH]; simpl; intros E; [exact E |].
  injection E as E. now apply IH.
Qed.

Lemma append_inv_tail (x a b : string) : a ++ x = b ++ x -> a = b.
Proof.
  revert b. induction a as [|c a IH]; intros [|d b] E; simpl in E.
  - reflexivity.
  - apply (f_equal String.length) in E. simpl in E.
    rewrite length_append in E. lia.
  - apply (f_equal String.length) in E. simpl in E.
    rewrite length_append in E. lia.
  - injection E as -> E. f_equal. now apply IH.
Qed.

Lemma smap_append (f : ascii -> ascii) (a b : string) :
  smap f (a ++ b) = smap f a ++ smap f b.
Proof. induction a as [|c a IH]; simpl; [reflexivity | now rewrite IH]. Qed.

Lemma smap_smap (f g : ascii -> ascii) (s : string) :
  smap f (smap g s) = smap (fun c => f (g c)) s.
Proof. induction s as [|c s IH]; simpl; [reflexivity | now rewrite IH]. Qed.

Lemma smap_ext (f g : ascii -> ascii) (s : string) :
  (forall c, f c = g c) -> smap f s = smap g s.
Proof.
  intros E. induction s as [|c s IH]; simpl; [reflexivity | now rewrite E, IH].
Qed.

(** Replacing a one-byte string by a one-byte string is a byte-wise map. *)
Lemma Replace_byte (c d : ascii) (s : string) :
  Replace s (String c EmptyString) (String d EmptyString)
  = smap (fun x => if Ascii.eqb x c then d else x) s.
Proof.
  unfold Replace. induction s as [|a s IH]; [reflexivity |].
  cbn [replaceFrom prefix smap String.length Nat.sub].
  destruct (ascii_dec c a) as [->|Hne].
  - rewrite Ascii.eqb_refl.
    replace (prefix EmptyString s) with true by (now destruct s).
    cbn. now rewrite IH.
  - replace (Ascii.eqb a c) with false
      by (symmetry; apply Ascii.eqb_neq; congruence).
    now rewrite IH.
Qed.

Lemma countByte_append (c : ascii) (a b : string) :
  countByte c (a ++ b) = (countByte c a + countByte c b)%nat.
Proof.
  induction a as [|x a IH]; cbn [append countByte]; [reflexivity |].
  rewrite IH. lia.
Qed.

Lemma occurs_append (c : ascii) (a b : string) :
  occurs c (a ++ b) = occurs c a || occurs c b.
Proof.
  induction a as [|x a IH]; simpl; [reflexivity |].
  now rewrite IH, orb_assoc.
Qed.

(** Two strings cut at the first occurrence of a byte agree piecewise. *)
Lemma split_at_byte (c : ascii) (u v x y : string) :
  occurs c u = false -> occurs c v = false ->
  u ++ String c x = v ++ String c y -> u = v /\ x = y.
Proof.
  revert v. induction u as [|a u IH]; intros [|b v] Hu Hv E; simpl in *.
  - injection E as E. now split.
  - injection E as -> E. now rewrite Ascii.eqb_refl in Hv.
  - injection E as <- E. now rewrite Ascii.eqb_refl in Hu.
  - injection E as -> E.
    apply orb_false_iff in Hu as [_ Hu]. apply orb_false_iff in Hv as [_ Hv].
    destruct (IH v Hu Hv E) as [-> ->]. now split.
Qed.

(** [Join] with a separator that starts with a byte no element contains is
    injective on lists of one length. *)
Lemma Join_inj (c : ascii) (tail : string) (m1 m2 : list string) :
  List.length m1 = List.length m2 ->
  Forall (fun x => occurs c x = false) m1 ->
  Forall (fun x => occurs c x = false) m2 ->
  Join m1 (String c tail) = Join m2 (String c tail) -> m1 = m2.
Proof.
  revert m2. induction m1 as [|a r1 IH]; intros [|b r2] L F1 F2 E;
    try discriminate; [reflexivity |].
  inversion F1 as [|? ? Ha F1']; subst. inversion F2 as [|? ? Hb F2']; subst.
  injection L as L.
  destruct r1 as [|a' r1]; destruct r2 as [|b' r2]; try discriminate.
  - simpl in E. now subst.
  - cbn [Join append] in E.
    destruct (split_at_byte _ _ _ _ _ Ha Hb E) as [-> E'].
    apply append_inv_head in E'.
    f_equal. apply IH; assumption.
Qed.

Lemma smap_Join (f : ascii -> ascii) (sep : string) (m : list string) :
  smap f (Join m sep) = Join (List.map (smap f) m) (smap f sep).
Proof.
  induction m as [|a r IH]; [reflexivity |].
  destruct r as [|a' r]; [reflexivity |].
  cbn [Join List.map] in *. now rewrite !smap_append, IH.
Qed.

Lemma occurs_Join (c : ascii) (sep : string) (m : list string) :
  occurs c sep = false -> Forall (fun x => occurs c x = false) m ->
  occurs c (Join m sep) = false.
Proof.
  intros Hs F. induction F as [|a r Ha F IH]; [reflexivity |].
  destruct r as [|a' r]; [exact Ha |].
  cbn [Join] in *. now rewrite !occurs_append, Ha, Hs, IH.
Qed.

End StringFacts.

(** ** Locations: identifier, route expression, options *)

Section LocationFacts.
Import Vulcan.

Lemma convertPath_smap (path : string) :
  convertPath path = smap braceToAngle path.
Proof.
  unfold convertPath.
  change "{" with (String "{"%char EmptyString).
  change "<" with (String "<"%char EmptyString).
  change "}" with (String "}"%char EmptyString).
  change ">" with (String ">"%char EmptyString).
  rewrite !Replace_byte, smap_smap.
  apply smap_ext. intros c. unfold braceToAngle.
  destruct (Ascii.eqb c "{") eqn:E; [reflexivity |].
  reflexivity.
Qed.

(** What [makeLocationID] computes: the slashes of the whole concatenation
    become dots, then the letters are lowered. *)
Lemma makeLocationID_smap (methods : list string) (path : string) :
  makeLocationID methods path
  = ToLower (smap slashToDot (Join methods "." ++ path)).
Proof.
  unfold makeLocationID. cbn [Sprintf]. rewrite append_nil_r.
  change "/" with (String "/"%char EmptyString).
  change "." with (String "."%char EmptyString) at 2.
  now rewrite Replace_byte.
Qed.

Lemma makeLocationPath_append (methods : list string) (path : string) :
  makeLocationPath methods path
  = "TrieRoute(" ++ q ++ Join methods (q ++ ", " ++ q)
      ++ q ++ ", " ++ q ++ path ++ q ++ ")".
Proof. reflexivity. Qed.

Lemma slashToDot_no_slash (s : string) :
  occurs "/" s = false -> smap slashToDot s = s.
Proof.
  induction s as [|c s IH]; cbn [occurs smap]; intros E; [reflexivity |].
  apply orb_false_iff in E as [E1 E2]. unfold slashToDot at 1.
  rewrite Ascii.eqb_sym in E1. now rewrite E1, IH.
Qed.

Lemma Join_quoted (m : string) (methods : list string) (path : string) :
  Join (List.map quoted ((m :: methods) ++ [path])%list) ", "
  = q ++ Join (m :: methods) (q ++ ", " ++ q) ++ q ++ ", " ++ q ++ path ++ q.
Proof.
  revert m. induction methods as [|m' rest IH]; intros m.
  - cbn [List.app List.map Join]. unfold quoted. now rewrite !append_assoc.
  - change (Join (List.map quoted ((m :: m' :: rest) ++ [path])%list) ", ")
      with (quoted m ++ ", " ++ Join (List.map quoted ((m' :: rest) ++ [path])%list) ", ").
    rewrite IH. unfold quoted. cbn [Join]. now rewrite !append_assoc.
Qed.

(** The lowering of a byte of a safe method name is never a dot, and the
    slashes-to-dots step leaves the byte alone. *)
Lemma idSafeByte_lower (c : ascii) :
  idSafeByte c = true ->
  toLowerByte (slashToDot c) = toLowerByte c
  /\ Ascii.eqb "." (toLowerByte (slashToDot c)) = false.
Proof.
  destruct c as [[] [] [] [] [] [] [] []]; vm_compute; intros E;
    first [discriminate E | split; reflexivity].
Qed.

Lemma idSafe_lower (a : string) :
  idSafe a = true ->
  smap (fun c => toLowerByte (slashToDot c)) a = ToLower a
  /\ occurs "." (smap (fun c => toLowerByte (slashToDot c)) a) = false.
Proof.
  unfold idSafe, ToLower.
  induction a as [|x a IH]; intros Pa; [now split |].
  cbn [sforall smap occurs] in *.
  apply andb_true_iff in Pa as [Px Pa].
  destruct (idSafeByte_lower x Px) as [E D].
  destruct (IH Pa) as [E' D']. rewrite D, D', E'. split; [now rewrite E | reflexivity].
Qed.

(** What the identifier keeps of a list of safe method names of a given
    length: the lowered names, and no more. *)
Lemma makeLocationID_lowered_inj (m1 m2 : list string) (path : string) :
  List.length m1 = List.length m2 ->
  Forall (fun m => idSafe m = true) m1 ->
  Forall (fun m => idSafe m = true) m2 ->
  (makeLocationID m1 path = makeLocationID m2 path
   <-> List.map ToLower m1 = List.map ToLower m2).
Proof.
  intros L F1 F2. rewrite !makeLocationID_smap.
  unfold ToLower at 1 2. rewrite !smap_smap, !smap_append, !smap_Join.
  change (smap (fun c => toLowerByte (slashToDot c)) ".")
    with (String "."%char EmptyString).
  assert (M : forall m, Forall (fun x => idSafe x = true) m ->
                        List.map (smap (fun c => toLowerByte (slashToDot c))) m
                        = List.map ToLower m).
  { intros m F. apply map_ext_in. intros x I.
    rewrite Forall_forall in F. now destruct (idSafe_lower x (F x I)). }
  assert (N : forall m, Forall (fun x => idSafe x = true) m ->
                        Forall (fun x => occurs "." x = false)
                               (List.map (smap (fun c => toLowerByte (slashToDot c))) m)).
  { intros m F. apply Forall_map. eapply Forall_impl; [| exact F].
    intros x Px. now destruct (idSafe_lower x Px). }
  split.
  - intros E. apply append_inv_tail in E.
    apply Join_inj in E; [| now rewrite !length_map | now apply N | now apply N].
    now rewrite <- (M m1 F1), <- (M m2 F2).
  - intros E. now rewrite (M m1 F1), (M m2 F2), E.
Qed.

(** The route expression keeps a list of method names without double quote,
    of a given length. *)
Lemma makeLocationPath_inj (m1 m2 : list string) (path : string) :
  List.length m1 = List.length m2 ->
  Forall (fun m => occurs dquote m = false) m1 ->
  Forall (fun m => occurs dquote m = false) m2 ->
  makeLocationPath m1 path = makeLocationPath m2 path -> m1 = m2.
Proof.
  intros L F1 F2 E. rewrite !makeLocationPath_append in E.
  apply (append_inv_head "TrieRoute(") in E.
  apply (append_inv_head q) in E.
  apply append_inv_tail in E.
  change (q ++ ", " ++ q) with (String dquote (", " ++ q)) in E.
  now apply Join_inj in E.
Qed.

End LocationFacts.

Section LocationClaims.
Import Vulcan.

(** C4, amended.  The identifier of a location is the lower-cased
    concatenation of the methods joined by dots and the path with braces
    rewritten to angle brackets, in which every slash has become a dot; the
    slashes of the method names are replaced too.  When no method contains
    a slash this is [lowercase(join(methods, ".") + path-with-dots)], and
    for the methods GET, POST and the path [/resources/{id}] it is
    [get.post.resources.<id>]. *)
Theorem NewLocation_ID_spec :
  (forall host methods path upstream middlewares,
      Vulcan.ID (NewLocation host methods path upstream middlewares)
      = ToLower (smap slashToDot (Join methods "." ++ smap braceToAngle path)))
  /\ (forall host methods path upstream middlewares,
         Forall (fun m => occurs "/" m = false) methods ->
         Vulcan.ID (NewLocation host methods path upstream middlewares)
         = specLocationID methods path)
  /\ (forall host upstream middlewares,
         Vulcan.ID (NewLocation host ["GET"; "POST"] "/resources/{id}"
                                upstream middlewares)
         = "get.post.resources.<id>").
Proof.
  split; [| split].
  - intros. cbn [NewLocation Vulcan.ID].
    now rewrite makeLocationID_smap, convertPath_smap.
  - intros host methods path upstream middlewares F.
    cbn [NewLocation Vulcan.ID].
    rewrite makeLocationID_smap, convertPath_smap, smap_append.
    unfold specLocationID, specPathWithDots. do 2 f_equal.
    apply slashToDot_no_slash, occurs_Join; [reflexivity | exact F].
  - intros. reflexivity.
Qed.

Lemma NewLocation_ID_spec_witness :
  Forall (fun m => occurs "/" m = false) ["GET"; "POST"]
  /\ Vulcan.ID (NewLocation "api.example.com" ["GET"; "POST"] "/resources/{id}"
                            "app" [])
     = specLocationID ["GET"; "POST"] "/resources/{id}".
Proof.
  split.
  - repeat constructor.
  - apply (proj1 (proj2 NewLocation_ID_spec)). repeat constructor.
Defined.

(** C4 as stated fails when a method name contains a slash: the code
    replaces it, the stated formula keeps it. *)
Lemma NewLocation_ID_slash_in_method :
  Vulcan.ID (NewLocation "api.example.com" ["A/B"] "/x" "app" []) = "a.b.x"
  /\ specLocationID ["A/B"] "/x" = "a/b.x"
  /\ Vulcan.ID (NewLocation "api.example.com" ["A/B"] "/x" "app" [])
     <> specLocationID ["A/B"] "/x".
Proof.
  split; [reflexivity | split; [reflexivity |]].
  vm_compute. discriminate.
Qed.

(** C5, amended.  The route-match expression of a frontend is
    [TrieRoute(], a double quote, the methods in the order given joined by
    quote-comma-space-quote, then quote-comma-space-quote, the converted
    path, a double quote and [)].  With at least one method, that is
    [TrieRoute(] followed by the double-quoted methods and the double-quoted
    converted path, separated by a comma and a space, and [)]; for the
    method GET and the path [/hello] it is the text TrieRoute, an opening
    parenthesis, GET and [/hello] each in double quotes and separated by a
    comma and a space, and a closing parenthesis.  Without any method, the
    expression still has a first argument, the empty one in double
    quotes. *)
Theorem NewLocation_Path_spec :
  (forall host methods path upstream middlewares,
      Vulcan.Path (NewLocation host methods path upstream middlewares)
      = "TrieRoute(" ++ q ++ Join methods (q ++ ", " ++ q)
          ++ q ++ ", " ++ q ++ smap braceToAngle path ++ q ++ ")")
  /\ (forall host methods path upstream middlewares,
         methods <> [] ->
         Vulcan.Path (NewLocation host methods path upstream middlewares)
         = specRouteExpr methods path)
  /\ (forall host upstream middlewares,
         Vulcan.Path (NewLocation host ["GET"] "/hello" upstream middlewares)
         = "TrieRoute(" ++ q ++ "GET" ++ q ++ ", " ++ q ++ "/hello" ++ q ++ ")")
  /\ (forall host path upstream middlewares,
         Vulcan.Path (NewLocation host [] path upstream middlewares)
         = "TrieRoute(" ++ quoted EmptyString ++ ", "
             ++ quoted (smap braceToAngle path) ++ ")").
Proof.
  split; [| split; [| split]].
  - intros. cbn [NewLocation Vulcan.Path].
    now rewrite makeLocationPath_append, convertPath_smap.
  - intros host methods path upstream middlewares Hne.
    destruct methods as [|m methods]; [contradiction |].
    cbn [NewLocation Vulcan.Path].
    rewrite makeLocationPath_append, convertPath_smap.
    unfold specRouteExpr. rewrite Join_quoted.
    now rewrite !append_assoc.
  - intros. reflexivity.
  - intros. cbn [NewLocation Vulcan.Path].
    rewrite makeLocationPath_append, convertPath_smap.
    unfold quoted. cbn [Join]. now rewrite !append_assoc.
Qed.

Lemma NewLocation_Path_spec_witness :
  Vulcan.Path (NewLocation "api.example.com" ["GET"; "POST"] "/resources/{id}"
                           "app" [])
  = specRouteExpr ["GET"; "POST"] "/resources/{id}".
Proof.
  apply (proj1 (proj2 NewLocation_Path_spec)). discriminate.
Defined.

(** C5 as stated fails for a frontend without method: the stated form has
    the path as its only argument, the code puts an empty first argument
    before it. *)
Lemma NewLocation_Path_no_method :
  Vulcan.Path (NewLocation "api.example.com" [] "/hello" "app" [])
  = "TrieRoute(" ++ q ++ q ++ ", " ++ q ++ "/hello" ++ q ++ ")"
  /\ specRouteExpr [] "/hello" = "TrieRoute(" ++ q ++ "/hello" ++ q ++ ")"
  /\ Vulcan.Path (NewLocation "api.example.com" [] "/hello" "app" [])
     <> specRouteExpr [] "/hello".
Proof.
  split; [reflexivity | split; [reflexivity |]].
  vm_compute. discriminate.
Qed.

(** C6.  [MarshalJSON] copies the failover predicate byte for byte: the
    document has as many ['<'], ['>'] and ['&'] as the predicate and is 25
    bytes longer, so none of them is replaced by an escape.  For the
    predicate [A() && B() <3] the document contains [&&] and [<3] and
    neither of the escapes [\u0026] and [\u003c]. *)
Theorem MarshalJSON_keeps_html_bytes :
  (forall o,
      countByte "<" (fst (MarshalJSON o)) = countByte "<" (FailoverPredicate o)
      /\ countByte ">" (fst (MarshalJSON o)) = countByte ">" (FailoverPredicate o)
      /\ countByte "&" (fst (MarshalJSON o)) = countByte "&" (FailoverPredicate o)
      /\ String.length (fst (MarshalJSON o))
         = (String.length (FailoverPredicate o) + 25)%nat)
  /\ (let doc := fst (MarshalJSON {| FailoverPredicate := "A() && B() <3" |}) in
      Contains doc "&&" = true /\ Contains doc "<3" = true
      /\ Contains doc "\u0026" = false /\ Contains doc "\u003c" = false).
Proof.
  split.
  - intros [p]. cbn [MarshalJSON fst FailoverPredicate].
    change (Sprintf optionsFmt [p])
      with (("{" ++ q ++ "FailoverPredicate" ++ q ++ ": " ++ q) ++ p ++ q ++ "}").
    rewrite !countByte_append, !length_append.
    repeat split; cbn; lia.
  - vm_compute. repeat split.
Qed.

(** C7, amended.  The identifier and the route expression embed the
    methods in the order given.  Of two registrations with one path whose
    method lists differ only in order, the route expressions differ whenever
    no method name holds a double quote.  The identifiers, which are
    lower-cased and joined by dots, differ exactly when the lists still
    differ once each name is lower-cased, for method names made of ASCII
    bytes other than ['.'] and ['/'] (the case mapping is modelled on
    ASCII). *)
Theorem method_order_distinguishes :
  forall host m1 m2 path upstream middlewares,
    Permutation m1 m2 ->
    (Forall (fun m => occurs dquote m = false) m1 ->
     m1 <> m2 ->
     Vulcan.Path (NewLocation host m1 path upstream middlewares)
     <> Vulcan.Path (NewLocation host m2 path upstream middlewares))
    /\ (Forall (fun m => idSafe m = true) m1 ->
        (Vulcan.ID (NewLocation host m1 path upstream middlewares)
         = Vulcan.ID (NewLocation host m2 path upstream middlewares)
         <-> List.map ToLower m1 = List.map ToLower m2)).
Proof.
  intros host m1 m2 path upstream middlewares P.
  pose proof (Permutation_length P) as L.
  cbn [NewLocation Vulcan.ID Vulcan.Path].
  split.
  - intros F1 Hne E. apply Hne.
    assert (F2 : Forall (fun m => occurs dquote m = false) m2)
      by (eapply Permutation_Forall; eassumption).
    eapply makeLocationPath_inj; eassumption.
  - intros F1.
    assert (F2 : Forall (fun m => idSafe m = true) m2)
      by (eapply Permutation_Forall; eassumption).
    now apply makeLocationID_lowered_inj.
Qed.

Lemma method_order_distinguishes_witness :
  Vulcan.Path (NewLocation "api.example.com" ["GET"; "POST"] "/resources/{id}" "app" [])
  <> Vulcan.Path (NewLocation "api.example.com" ["POST"; "GET"] "/resources/{id}" "app" [])
  /\ Vulcan.ID (NewLocation "api.example.com" ["get"; "post"] "/resources/{id}" "app" [])
     <> Vulcan.ID (NewLocation "api.example.com" ["post"; "get"] "/resources/{id}" "app" []).
Proof.
  split.
  - apply (proj1 (method_order_distinguishes
                    "api.example.com" ["GET"; "POST"] ["POST"; "GET"]
                    "/resources/{id}" "app" [] (perm_swap _ _ _))).
    + repeat constructor.
    + discriminate.
  - intros E.
    apply (proj2 (method_order_distinguishes
                    "api.example.com" ["get"; "post"] ["post"; "get"]
                    "/resources/{id}" "app" [] (perm_swap _ _ _))) in E.
    + discriminate E.
    + repeat constructor.
Defined.

(** C7 as stated fails: the two orders of the methods [GET] and [get]
    differ, and the identifiers derived for them are the same.  So are the
    identifiers of two orders of method names one of which holds a dot or a
    slash, and the route expressions of two orders of method names one of
    which holds a double quote. *)
Lemma method_order_collisions :
  (Permutation ["GET"; "get"] ["get"; "GET"]
   /\ ["GET"; "get"] <> ["get"; "GET"]
   /\ Vulcan.ID (NewLocation "api.example.com" ["GET"; "get"] "/x" "app" [])
      = Vulcan.ID (NewLocation "api.example.com" ["get"; "GET"] "/x" "app" []))
  /\ (["A"; "A.A"] <> ["A.A"; "A"]
      /\ Vulcan.ID (NewLocation "api.example.com" ["A"; "A.A"] "/x" "app" [])
         = Vulcan.ID (NewLocation "api.example.com" ["A.A"; "A"] "/x" "app" []))
  /\ (["A"; "A/A"] <> ["A/A"; "A"]
      /\ Vulcan.ID (NewLocation "api.example.com" ["A"; "A/A"] "/x" "app" [])
         = Vulcan.ID (NewLocation "api.example.com" ["A/A"; "A"] "/x" "app" []))
  /\ (["A"; "A" ++ q ++ ", " ++ q ++ "A"] <> ["A" ++ q ++ ", " ++ q ++ "A"; "A"]
      /\ Vulcan.Path (NewLocation "api.example.com"
                                  ["A"; "A" ++ q ++ ", " ++ q ++ "A"] "/x" "app" [])
         = Vulcan.Path (NewLocation "api.example.com"
                                    ["A" ++ q ++ ", " ++ q ++ "A"; "A"] "/x" "app" [])).
Proof.
  split; [split; [apply perm_swap | split; [discriminate | reflexivity]] |].
  split; [split; [discriminate | reflexivity] |].
  split; [split; [discriminate | reflexivity] |].
  split; [discriminate | reflexivity].
Qed.

(** C10.  [MarshalJSON] returns, for every failover predicate, the bytes
    [{"FailoverPredicate": "<predicate>"}] and a nil error. *)
Theorem MarshalJSON_total :
  forall o,
    MarshalJSON o
    = ("{" ++ q ++ "FailoverPredicate" ++ q ++ ": " ++ q
           ++ FailoverPredicate o ++ q ++ "}", None).
Proof. intros [p]. reflexivity. Qed.

End LocationClaims.

(** ** The registry: the seconds of the lease, and what [Start] does to the
    runtime *)

Section DurationFacts.
Import Vulcand.
Local Open Scope Z_scope.

Lemma roundEven_lower (n d K : Z) :
  0 < d -> K * d <= n -> K <= roundEven n d.
Proof.
  intros Hd H. unfold roundEven.
  assert (Q : K <= n / d) by (apply Z.div_le_lower_bound; lia).
  destruct (2 * (n mod d) ?= d); [destruct (Z.even (n / d)) | |]; lia.
Qed.

Lemma roundEven_upper (n d K : Z) :
  0 < d -> n <= K * d -> roundEven n d <= K.
Proof.
  intros Hd H. unfold roundEven.
  pose proof (Z.div_mod n d ltac:(lia)) as E.
  pose proof (Z.mod_pos_bound n d Hd) as B.
  assert (Q : n / d <= K).
  { apply Z.lt_succ_r. apply (Z.mul_lt_mono_pos_l d); [exact Hd |]. nia. }
  assert (Q' : 0 < n mod d -> n / d + 1 <= K).
  { intros R. apply Z.lt_succ_r. apply (Z.mul_lt_mono_pos_l d); [exact Hd |]. nia. }
  destruct (2 * (n mod d) ?= d) eqn:C; [destruct (Z.even (n / d)) | |];
    try exact Q.
  - apply Z.compare_eq in C. apply Q'. lia.
  - apply Z.compare_gt_iff in C. apply Q'. lia.
Qed.

Lemma unity_pos : 0 < unity.
Proof. reflexivity. Qed.

Lemma round64_nonneg (n d : Z) : 0 <= n -> 0 < d -> 0 <= round64 n d.
Proof.
  intros Hn Hd. unfold round64.
  set (s := Z.max _ 0).
  assert (Hs : 0 < 2 ^ s) by (apply Z.pow_pos_nonneg; lia).
  apply Z.mul_nonneg_nonneg; [| lia].
  apply roundEven_lower; [nia |]. pose proof unity_pos. nia.
Qed.

Lemma wholeSeconds_nonneg (d : Z) : 0 < d -> 0 <= wholeSeconds d.
Proof.
  intros H. unfold wholeSeconds.
  rewrite Z.sgn_pos, Z.abs_eq, Z.mul_1_l by lia.
  apply Z.div_pos; [| exact unity_pos].
  unfold Seconds. apply round64_nonneg; [| exact unity_pos].
  apply Z.add_nonneg_nonneg.
  - apply Z.mul_nonneg_nonneg; [| discriminate].
    apply Z.div_pos; [lia | reflexivity].
  - apply round64_nonneg; [| reflexivity].
    apply Z.mod_pos_bound. reflexivity.
Qed.

Lemma roundEven_upper_half (n d K : Z) :
  0 < d -> 2 * n < (2 * K + 1) * d -> roundEven n d <= K.
Proof.
  intros Hd H. unfold roundEven.
  pose proof (Z.div_mod n d ltac:(lia)) as E.
  pose proof (Z.mod_pos_bound n d Hd) as B.
  assert (Q : n / d <= K).
  { apply Z.lt_succ_r. apply (Z.mul_lt_mono_pos_l d); [exact Hd |]. nia. }
  assert (Q' : d <= 2 * (n mod d) -> n / d + 1 <= K).
  { intros R. apply Z.lt_succ_r. apply (Z.mul_lt_mono_pos_l d); [exact Hd |]. nia. }
  destruct (2 * (n mod d) ?= d) eqn:C; [destruct (Z.even (n / d)) | |];
    try exact Q.
  - apply Z.compare_eq in C. apply Q'. lia.
  - apply Z.compare_gt_iff in C. apply Q'. lia.
Qed.

Lemma round64_zero (d : Z) : 0 < d -> round64 0 d = 0.
Proof.
  intros Hd. unfold round64. rewrite Z.mul_0_l, Z.div_0_l by lia.
  cbn [Z.log2 Z.sub Z.max Z.opp Z.add Z.compare]. 
  change (Z.max (0 - 52) 0) with 0. rewrite Z.pow_0_r, !Z.mul_1_r.
  unfold roundEven. rewrite Z.div_0_l, Z.mod_0_l by lia.
  destruct (2 * 0 ?= d) eqn:C; try reflexivity.
  apply Z.compare_gt_iff in C. lia.
Qed.

(** What the nanoseconds of a duration give is at most the [float64]
    [(2^53 - 9007199) / 2^53], the least one above 0.999999999. *)
Lemma round64_fraction (n : Z) :
  0 <= n < Second ->
  0 <= round64 n Second
  /\ round64 n Second * 2 ^ 53 <= unity * (2 ^ 53 - 9007199).
Proof.
  intros [H0 H1].
  destruct (Z.eq_dec n 0) as [-> | Hn].
  - rewrite round64_zero by reflexivity. split; [lia | discriminate].
  - split; [apply round64_nonneg; [lia | reflexivity] |].
    unfold round64.
    set (x := n * unity) in *.
    set (V := x / Second).
    assert (Hnorm : 2 ^ 52 * Second <= x).
    { assert (E : 2 ^ 52 * Second <= 1 * unity) by discriminate.
      unfold x. pose proof unity_pos. nia. }
    assert (HV : 2 ^ 52 <= V) by (apply Z.div_le_lower_bound; [reflexivity | lia]).
    assert (HV0 : 0 < V) by (assert (0 < 2 ^ 52) by reflexivity; lia).
    assert (HL : 52 <= Z.log2 V).
    { change 52 with (Z.log2 (2 ^ 52)). now apply Z.log2_le_mono. }
    destruct (Z.log2_spec V HV0) as [L1 L2].
    set (L := Z.log2 V) in *.
    rewrite Z.max_l by lia.
    set (s := L - 52).
    assert (Hs : 0 <= s) by (unfold s; lia).
    assert (P2 : 0 < 2 ^ s) by (apply Z.pow_pos_nonneg; lia).
    assert (EL : 2 ^ L = 2 ^ 52 * 2 ^ s).
    { rewrite <- Z.pow_add_r by lia. f_equal. unfold s. lia. }
    assert (EL1 : 2 ^ Z.succ L = 2 ^ 53 * 2 ^ s).
    { rewrite <- Z.pow_add_r by lia. f_equal. unfold s. lia. }
    assert (Sp : 0 < Second) by reflexivity.
    pose proof (Z.mul_div_le x Second Sp) as D1.
    pose proof (Z.mul_succ_div_gt x Second Sp) as D2. fold V in D1, D2.
    assert (Lo : 2 ^ 52 * (Second * 2 ^ s) <= x).
    { apply Z.le_trans with (Second * V); [| exact D1].
      replace (2 ^ 52 * (Second * 2 ^ s)) with (Second * 2 ^ L) by (rewrite EL; ring).
      apply Z.mul_le_mono_nonneg_l; [lia | exact L1]. }
    assert (Hi : x <= 2 ^ 53 * (Second * 2 ^ s)).
    { apply Z.lt_le_incl. apply Z.lt_le_trans with (Second * Z.succ V); [exact D2 |].
      replace (2 ^ 53 * (Second * 2 ^ s)) with (Second * 2 ^ Z.succ L)
        by (rewrite EL1; ring).
      apply Z.mul_le_mono_nonneg_l; lia. }
    assert (Dpos : 0 < Second * 2 ^ s) by nia.
    pose proof (roundEven_upper x (Second * 2 ^ s) (2 ^ 53) Dpos Hi) as M2.
    assert (M0 : 0 <= roundEven x (Second * 2 ^ s)).
    { apply roundEven_lower; [exact Dpos |]. unfold x. pose proof unity_pos. nia. }
    set (m := roundEven x (Second * 2 ^ s)) in *.
    assert (U : unity = 2 ^ 53 * 2 ^ 1021) by reflexivity.
    assert (S1 : s <= 1021).
    { assert (Hx : x < Second * unity) by (unfold x; pose proof unity_pos; nia).
      assert (P : 2 ^ 52 * 2 ^ s < 2 ^ 52 * 2 ^ 1022).
      { change (2 ^ 52 * 2 ^ 1022) with unity. nia. }
      assert (P' : 2 ^ s < 2 ^ 1022) by (assert (0 < 2 ^ 52) by reflexivity; nia).
      apply Z.pow_lt_mono_r_iff in P'; lia. }
    assert (P1021 : 0 < 2 ^ 1021) by (apply Z.pow_pos_nonneg; lia).
    destruct (Z.eq_dec s 1021) as [-> | Hne].
    + assert (M3 : m <= 2 ^ 53 - 9007199).
      { apply roundEven_upper; [exact Dpos |].
        unfold x. rewrite U.
        assert (B : n * 2 ^ 53 <= (2 ^ 53 - 9007199) * Second).
        { unfold Second in *.
          assert (E53 : 2 ^ 53 = 9007199254740992) by reflexivity.
          rewrite E53. lia. }
        nia. }
      rewrite U. assert (0 < 2 ^ 53) by reflexivity. nia.
    + assert (S2 : 2 ^ s <= 2 ^ 1020) by (apply Z.pow_le_mono_r; lia).
      assert (T : m * 2 ^ s <= 2 ^ 53 * 2 ^ 1020) by (apply Z.mul_le_mono_nonneg; lia).
      assert (U' : 2 ^ 53 * 2 ^ 1020 * 2 ^ 53 <= unity * (2 ^ 53 - 9007199)).
      { rewrite U. change (2 ^ 1021) with (2 * 2 ^ 1020).
        assert (0 < 2 ^ 1020) by (apply Z.pow_pos_nonneg; lia).
        assert (E53 : 2 ^ 53 = 9007199254740992) by reflexivity.
        rewrite E53. nia. }
      assert (0 < 2 ^ 53) by reflexivity. nia.
Qed.

(** Below 2^24 seconds the conversion gives the whole seconds of the
    duration. *)
Lemma wholeSeconds_exact (d : Z) :
  0 <= d < 2 ^ 24 * Second -> wholeSeconds d = d / Second.
Proof.
  intros [H0 H1].
  destruct (Z.eq_dec d 0) as [-> | Hd0]; [reflexivity |].
  unfold wholeSeconds.
  rewrite Z.sgn_pos, Z.abs_eq, Z.mul_1_l by lia.
  unfold Seconds.
  assert (Sp : 0 < Second) by reflexivity.
  pose proof (Z.mod_pos_bound d Second Sp) as Hn.
  destruct (round64_fraction (d mod Second) Hn) as [F0 F1].
  set (F := round64 (d mod Second) Second) in *.
  assert (Hsec0 : 0 <= d / Second) by (apply Z.div_pos; lia).
  assert (Hsec1 : d / Second < 2 ^ 24) by (apply Z.div_lt_upper_bound; lia).
  set (sec := d / Second) in *.
  pose proof unity_pos as Q0.
  assert (FQ : 2 * F + 2 ^ 1045 < 2 * unity).
  { assert (U : unity = 2 ^ 52 * 2 ^ 1022) by reflexivity.
    assert (U2 : 2 ^ 1045 = 2 ^ 23 * 2 ^ 1022) by reflexivity.
    assert (P : 0 < 2 ^ 1022) by (apply Z.pow_pos_nonneg; lia).
    rewrite U in F1 |- *. rewrite U2.
    assert (E53 : 2 ^ 53 = 9007199254740992) by reflexivity.
    assert (E52 : 2 ^ 52 = 4503599627370496) by reflexivity.
    assert (E23 : 2 ^ 23 = 8388608) by reflexivity.
    rewrite E53, E52 in F1. rewrite E52, E23.
    set (p := 2 ^ 1022) in *. nia. }
  set (N := sec * unity + F) in *.
  assert (N0 : 0 <= N) by (unfold N; nia).
  destruct (Z.eq_dec N 0) as [EN | HN].
  - rewrite EN, round64_zero by exact Q0.
    assert (sec = 0) by (unfold N in EN; nia). now subst sec.
  - unfold round64. rewrite Z.div_mul by lia.
    assert (NU : N < 2 ^ 1098).
    { change (2 ^ 1098) with (2 ^ 24 * unity). unfold N.
      assert (2 ^ 1045 > 0) by reflexivity. nia. }
    assert (LN : Z.log2 N < 1098) by (apply Z.log2_lt_pow2; lia).
    pose proof (Z.log2_nonneg N) as LN0.
    set (s := Z.max (Z.log2 N - 52) 0).
    assert (Hs : 0 <= s <= 1045) by (unfold s; lia).
    set (p := 2 ^ s).
    set (c := 2 ^ (1074 - s)).
    assert (Pp : 0 < p) by (apply Z.pow_pos_nonneg; lia).
    assert (Pc : 0 < c) by (apply Z.pow_pos_nonneg; lia).
    assert (Q : unity = c * p).
    { unfold c, p. rewrite <- Z.pow_add_r by lia.
      replace (1074 - s + s) with 1074 by lia. reflexivity. }
    assert (Pmax : p <= 2 ^ 1045) by (apply Z.pow_le_mono_r; lia).
    assert (Dpos : 0 < unity * p) by nia.
    assert (Lo : sec * c <= roundEven (N * unity) (unity * p)).
    { apply roundEven_lower; [exact Dpos |].
      replace (sec * c * (unity * p)) with (sec * unity * unity)
        by (rewrite Q; ring).
      unfold N. nia. }
    assert (Hi : roundEven (N * unity) (unity * p) <= (sec + 1) * c - 1).
    { apply roundEven_upper_half; [exact Dpos |].
      replace ((2 * ((sec + 1) * c - 1) + 1) * (unity * p))
        with ((2 * (sec + 1) * unity - p) * unity) by (rewrite Q; ring).
      replace (2 * (N * unity)) with (2 * N * unity) by ring.
      apply Z.mul_lt_mono_pos_r; [exact Q0 |]. unfold N. lia. }
    set (m := roundEven (N * unity) (unity * p)) in *.
    symmetry. apply (Z.div_unique _ _ _ (m * p - sec * unity)); [| ring].
    left. rewrite Q. split; nia.
Qed.


Lemma wholeSeconds_under_a_second (d : Z) :
  0 < d < Second -> wholeSeconds d = 0.
Proof.
  intros [H1 H2]. rewrite wholeSeconds_exact.
  - apply Z.div_small. lia.
  - assert (Second <= 2 ^ 24 * Second) by discriminate. lia.
Qed.

Lemma wholeSeconds_default : wholeSeconds defaultRegistrationTTL = 30.
Proof. rewrite wholeSeconds_exact; [reflexivity | split; [discriminate | reflexivity]]. Qed.

(** From 2^24 seconds on, the sum is rounded to a whole number of seconds
    when the nanoseconds are near enough to the next second. *)
Lemma wholeSeconds_rounds_up :
  wholeSeconds 16777215999999999 = 16777215
  /\ wholeSeconds 16777216999999999 = 16777217.
Proof. split; vm_compute; reflexivity. Qed.

End DurationFacts.

Section RegistryFacts.
Import Vulcand.
Context {client : EtcdClient} {codec : SpecCodec}.

Lemma after_id (w : Runtime) : after w [] false [] = w.
Proof.
  destruct w; unfold after; cbn.
  now rewrite !app_nil_r, orb_false_r.
Qed.

Lemma after_after (w : Runtime) n1 c1 s1 n2 c2 s2 :
  after (after w n1 c1 s1) n2 c2 s2
  = after w (n1 ++ n2)%list (c1 || c2) (s1 ++ s2)%list.
Proof.
  unfold after; cbn. now rewrite <- !app_assoc, orb_assoc.
Qed.

Lemma newPuts_after (w : Runtime) new c s : newPuts w (after w new c s) = new.
Proof.
  unfold newPuts, after; cbn.
  rewrite skipn_app, skipn_all, Nat.sub_diag. reflexivity.
Qed.

Lemma Put_run (key val : string) (opts : list OpOption) (w : Runtime) :
  Put key val opts w
  = match etcdPut (List.length (trace w)) (mkPut key val opts) with
    | Returns err =>
        (Returns err, after w [(mkPut key val opts, err)] false [])
    | Panics => (Panics, w)
    end.
Proof.
  unfold Put, after. destruct (etcdPut _ _); [| reflexivity].
  now rewrite app_nil_r, orb_false_r.
Qed.

(** A [Put] returns nil, returns an error, or panics, and only a [Put] that
    returns is on the trace. *)
Lemma Put_cases (key val : string) (opts : list OpOption) (w : Runtime) :
  Put key val opts w = (Returns None, after w (ok [mkPut key val opts]) false [])
  \/ (exists e,
         Put key val opts w
         = (Returns (Some e),
            after w (ok [] ++ [(mkPut key val opts, Some e)]) false []))
  \/ Put key val opts w = (Panics, after w (ok []) false []).
Proof.
  rewrite Put_run.
  destruct (etcdPut (List.length (trace w)) (mkPut key val opts)) as [[e |] |].
  - right; left. now exists e.
  - now left.
  - right; right. cbn [ok List.map]. now rewrite after_id.
Qed.

Lemma cancelFunc_run (w : Runtime) : cancelFunc w = (Returns tt, after w [] true []).
Proof.
  unfold cancelFunc, after. now rewrite !app_nil_r, orb_true_r.
Qed.

Lemma goWatcher_run (lease : LeaseID) (w : Runtime) :
  goWatcher lease w = (Returns tt, after w [] false [blocked lease]).
Proof.
  unfold goWatcher, after. now rewrite app_nil_r, orb_false_r.
Qed.

Lemma In_ok (req : PutReq) (e : error) (reqs : list PutReq) :
  ~ In (req, Some e) (ok reqs).
Proof.
  unfold ok. intros I. apply in_map_iff in I as (x & E & _). discriminate.
Qed.

Lemma In_ok_failed (req req' : PutReq) (e e' : error) (pre : list PutReq) :
  In (req, Some e) (ok pre ++ [(req', Some e')]) -> req = req' /\ e = e'.
Proof.
  intros I. apply in_app_or in I as [I | [I | []]].
  - now apply In_ok in I.
  - injection I as -> ->. now split.
Qed.

Lemma mwsWritten_nth (r : Registry) (fes : frontendSpec) :
  forall mws i reqs,
    mwsWritten r fes i mws reqs ->
    List.length reqs = List.length mws
    /\ forall k mw, nth_error mws k = Some mw ->
                    exists req, nth_error reqs k = Some req
                                /\ mwWritten r fes (i + k) mw req.
Proof.
  induction mws as [|mw mws IH]; intros i [|req reqs] W; cbn in W; try contradiction.
  - split; [reflexivity |]. intros [|k] mw' E; discriminate.
  - destruct W as [W1 W2]. destruct (IH _ _ W2) as [L N].
    split; [cbn; now rewrite L |].
    intros [|k] mw' E; cbn in E.
    + injection E as <-. exists req. rewrite Nat.add_0_r. now split.
    + destruct (N k mw' E) as (req' & E' & W').
      exists req'. rewrite Nat.add_succ_r. now split.
Qed.

(** The loop over the middlewares of a frontend either writes them all, or
    stops at a middleware that cannot be marshalled, or stops at the first
    [Put] that fails, or ends in the panic of a [Put]. *)
Lemma registerMiddlewares_outcome (r : Registry) (fes : frontendSpec) :
  forall mws i w,
  exists res new,
    registerMiddlewares r fes i mws w = (res, after w new false [])
    /\ ((exists reqs, res = Returns None /\ new = ok reqs
                      /\ mwsWritten r fes i mws reqs)
        \/ (exists pre err, res = Returns (Some err) /\ new = ok pre)
        \/ (exists pre req e k mw,
               res = Returns
                       (Some (withMessage e
                                (Sprintf "failed to set middleware, %s" [putKey req])))
               /\ new = (ok pre ++ [(req, Some e)])%list
               /\ nth_error mws k = Some mw
               /\ mwWritten r fes (i + k) mw req)
        \/ (exists pre, res = Panics /\ new = ok pre)).
Proof.
  induction mws as [|mw rest IH]; intros i w.
  - exists (Returns None), []. split; [cbn; unfold ret; now rewrite after_id |].
    left. exists []. now repeat split.
  - cbn [registerMiddlewares].
    destruct (jsonMarshal (withPriority mw i)) as [err | mwVal] eqn:J.
    + eexists; exists []. split; [unfold ret; now rewrite after_id |].
      right; left. exists []. eexists. now split.
    + unfold bind. rewrite Put_run.
      set (req := mkPut _ mwVal []).
      assert (Wreq : mwWritten r fes i mw req) by (now repeat split).
      destruct (etcdPut (List.length (trace w)) req) as [[e |] |] eqn:P.
      * eexists; exists [(req, Some e)]. split; [reflexivity |].
        right; right; left. exists [], req, e, 0, mw.
        rewrite Nat.add_0_r. now repeat split.
      * destruct (IH (S i) (after w [(req, None)] false []))
          as (res & new & E & Cases).
        exists res, ((req, None) :: new). split.
        { rewrite E, after_after. reflexivity. }
        destruct Cases as [(reqs & -> & -> & W)
                          | [(pre & err & -> & ->)
                            | [(pre & req' & e & k & mw' & -> & -> & N & W)
                              | (pre & -> & ->)]]].
        -- left. exists (req :: reqs). now repeat split.
        -- right; left. exists (req :: pre), err. now split.
        -- right; right; left. exists (req :: pre), req', e, (S k), mw'.
           rewrite Nat.add_succ_r.
           split; [reflexivity | split; [reflexivity | split; [exact N | exact W]]].
        -- do 3 right. exists (req :: pre). now split.
      * exists Panics, []. split; [now rewrite after_id |].
        do 3 right. exists []. now split.
Qed.

Lemma registerFrontend_outcome (r : Registry) (fes : frontendSpec) (w : Runtime) :
  exists res new,
    registerFrontend r fes w = (res, after w new false [])
    /\ ((exists reqs, res = Returns None /\ new = ok (frontendPut r fes :: reqs)
                      /\ mwsWritten r fes 0 (Vulcan.Middlewares fes) reqs)
        \/ (exists pre err, res = Returns (Some err) /\ new = ok pre)
        \/ (exists pre req e msg,
               res = Returns (Some (withMessage e msg))
               /\ new = (ok pre ++ [(req, Some e)])%list
               /\ frontendWrite r fes req msg)
        \/ (exists pre, res = Panics /\ new = ok pre)).
Proof.
  unfold registerFrontend, bind. rewrite Put_run.
  fold (frontendPut r fes).
  destruct (etcdPut (List.length (trace w)) (frontendPut r fes)) as [[e |] |] eqn:P.
  - eexists; exists [(frontendPut r fes, Some e)]. split; [reflexivity |].
    right; right; left. exists [], (frontendPut r fes), e. eexists.
    split; [reflexivity | split; [reflexivity |]]. left. now split.
  - destruct (registerMiddlewares_outcome r fes (Vulcan.Middlewares fes) 0
                (after w [(frontendPut r fes, None)] false []))
      as (res & new & E & Cases).
    exists res, ((frontendPut r fes, None) :: new). split.
    { rewrite E, after_after. reflexivity. }
    destruct Cases as [(reqs & -> & -> & W)
                      | [(pre & err & -> & ->)
                        | [(pre & req & e & k & mw & -> & -> & N & W)
                          | (pre & -> & ->)]]].
    + left. exists reqs. now repeat split.
    + right; left. exists (frontendPut r fes :: pre), err. now split.
    + right; right; left. exists (frontendPut r fes :: pre), req, e. eexists.
      split; [reflexivity | split; [reflexivity |]].
      right. exists k, mw.
      split; [exact N | split; [exact W | reflexivity]].
    + do 3 right. exists (frontendPut r fes :: pre). now split.
  - exists Panics, []. split; [now rewrite after_id |].
    do 3 right. exists []. now split.
Qed.

Lemma ok_app (a b : list PutReq) : ok (a ++ b) = (ok a ++ ok b)%list.
Proof. apply map_app. Qed.

(** The loop over the frontends: all registered, or stopped (and the
    context cancelled) at the first frontend whose registration fails, or
    ended by a panic. *)
Lemma registerFrontends_outcome (r : Registry) :
  forall fess w,
  exists res new c,
    registerFrontends r fess w = (res, after w new c [])
    /\ ((exists reqss, res = Returns None /\ c = false /\ new = ok (concat reqss)
                       /\ Forall2 (frontendWritten r) fess reqss)
        \/ (exists pre err, res = Returns (Some err) /\ c = true /\ new = ok pre)
        \/ (exists pre req e msg fes,
               In fes fess
               /\ res = Returns
                          (Some (withMessage (withMessage e msg)
                                   (Sprintf "failed to register frontend, %s"
                                            [Vulcan.ID fes])))
               /\ c = true
               /\ new = (ok pre ++ [(req, Some e)])%list
               /\ frontendWrite r fes req msg)
        \/ (exists pre, res = Panics /\ c = false /\ new = ok pre)).
Proof.
  induction fess as [|fes rest IH]; intros w.
  - exists (Returns None), [], false.
    split; [cbn; unfold ret; now rewrite after_id |].
    left. exists []. repeat split. constructor.
  - cbn [registerFrontends]. unfold bind.
    destruct (registerFrontend_outcome r fes w) as (res & new & E & Cases).
    rewrite E.
    destruct Cases as [(reqs & -> & -> & W)
                      | [(pre & err & -> & ->)
                        | [(pre & req & e & msg & -> & -> & FW)
                          | (pre & -> & ->)]]].
    + destruct (IH (after w (ok (frontendPut r fes :: reqs)) false []))
        as (res' & new' & c' & E' & Cases').
      exists res', (ok (frontendPut r fes :: reqs) ++ new')%list, c'.
      split; [rewrite E', after_after; reflexivity |].
      destruct Cases' as [(reqss & -> & -> & -> & F)
                         | [(pre & err & -> & -> & ->)
                           | [(pre & req & e & msg & fes' & I & -> & -> & -> & FW)
                             | (pre & -> & -> & ->)]]].
      * left. exists ((frontendPut r fes :: reqs) :: reqss).
        repeat split; [cbn [concat]; now rewrite ok_app |].
        constructor; [| exact F]. exists reqs. now split.
      * right; left. exists ((frontendPut r fes :: reqs) ++ pre)%list, err.
        repeat split. now rewrite ok_app.
      * right; right; left.
        exists ((frontendPut r fes :: reqs) ++ pre)%list, req, e, msg, fes'.
        split; [now right |]. repeat split; [| exact FW].
        now rewrite ok_app, <- app_assoc.
      * do 3 right. exists ((frontendPut r fes :: reqs) ++ pre)%list.
        repeat split. now rewrite ok_app.
    + rewrite cancelFunc_run. unfold ret. rewrite after_after.
      eexists; exists (ok pre ++ [])%list, true. split; [reflexivity |].
      right; left. exists pre. eexists. repeat split. now rewrite app_nil_r.
    + rewrite cancelFunc_run. unfold ret. rewrite after_after.
      eexists; exists ((ok pre ++ [(req, Some e)]) ++ [])%list, true.
      split; [reflexivity |].
      right; right; left. exists pre, req, e, msg, fes.
      split; [now left |]. repeat split; [now rewrite app_nil_r | exact FW].
    + exists Panics, (ok pre), false. split; [reflexivity |].
      do 3 right. exists pre. now repeat split.
Qed.

(** The outcomes of [Start]: a failure of one of the three writes of the
    backend, with nothing started or cancelled; all written; a failed
    registration of a frontend, with the goroutine started and the context
    cancelled; or the panic of a [Put], every earlier one having
    succeeded, with nothing cancelled. *)
Lemma Start_outcome (r : Registry) (w : Runtime) :
  exists res new c st,
    Start r w = (res, after w new c st)
    /\ ((exists e,
            res = Returns
                    (Some (withMessage
                             (withMessage e (Sprintf "failed to set backend type, %s"
                                                     [putKey (backendTypePut r)]))
                             (Sprintf "failed to register backend, %s"
                                      [ID (backendSpecOf r)])))
            /\ new = (ok [] ++ [(backendTypePut r, Some e)])%list
            /\ c = false /\ st = [])
        \/ (exists e,
               res = Returns
                       (Some (withMessage
                                (withMessage e (Sprintf "failed to set backend spec, %s"
                                                        [putKey (serverPut r)]))
                                (Sprintf "failed to register backend, %s"
                                         [ID (backendSpecOf r)])))
               /\ new = (ok [backendTypePut r] ++ [(serverPut r, Some e)])%list
               /\ c = false /\ st = [])
        \/ (exists e,
               res = Returns (Some (withMessage e "failed to write backend spec"))
               /\ new = (ok [backendTypePut r; serverPut r]
                            ++ [(serverPut r, Some e)])%list
               /\ c = false /\ st = [])
        \/ (exists reqss,
               res = Returns None
               /\ new = ok ([backendTypePut r; serverPut r; serverPut r]
                              ++ concat reqss)
               /\ c = false /\ st = [blocked (leaseID r)]
               /\ Forall2 (frontendWritten r) (frontendSpecs r) reqss)
        \/ (exists mid err,
               res = Returns (Some err)
               /\ new = ok ([backendTypePut r; serverPut r; serverPut r] ++ mid)
               /\ c = true /\ st = [blocked (leaseID r)])
        \/ (exists mid req e msg fes,
               In fes (frontendSpecs r)
               /\ res = Returns
                          (Some (withMessage (withMessage e msg)
                                   (Sprintf "failed to register frontend, %s"
                                            [Vulcan.ID fes])))
               /\ new = (ok ([backendTypePut r; serverPut r; serverPut r] ++ mid)
                            ++ [(req, Some e)])%list
               /\ c = true /\ st = [blocked (leaseID r)]
               /\ frontendWrite r fes req msg)
        \/ (exists pre,
               res = Panics /\ new = ok pre /\ c = false
               /\ (st = [] \/ st = [blocked (leaseID r)]))).
Proof.
  unfold Start, registerBackend, bind.
  destruct (Put_cases (putKey (backendTypePut r)) (putVal (backendTypePut r)) [] w)
    as [E1 | [[e E1] | E1]]; cbn [backendTypePut putKey putVal] in E1; rewrite E1;
    fold (backendTypePut r).
  2:{ cbn [Wrapf ret]. do 4 eexists. split; [reflexivity |].
      left. exists e. now repeat split. }
  2:{ do 4 eexists. split; [reflexivity |].
      do 6 right. exists []. repeat split. now left. }
  match goal with
  | |- context [Put ?k ?v ?o ?w0] =>
      destruct (Put_cases k v o w0) as [E2 | [[e E2] | E2]]; rewrite E2
  end; fold (serverPut r).
  2:{ cbn [Wrapf ret]. rewrite after_after. do 4 eexists. split; [reflexivity |].
      right; left. exists e. now repeat split. }
  2:{ rewrite after_after. do 4 eexists. split; [reflexivity |].
      do 6 right. exists [backendTypePut r]. repeat split. now left. }
  cbn [Wrapf ret].
  match goal with
  | |- context [Put ?k ?v ?o ?w0] =>
      destruct (Put_cases k v o w0) as [E3 | [[e E3] | E3]]; rewrite E3
  end; fold (serverPut r).
  2:{ cbn [Wrap ret]. rewrite !after_after. do 4 eexists. split; [reflexivity |].
      right; right; left. exists e. now repeat split. }
  2:{ rewrite !after_after. do 4 eexists. split; [reflexivity |].
      do 6 right. exists [backendTypePut r; serverPut r]. repeat split. now left. }
  rewrite goWatcher_run, !after_after.
  match goal with
  | |- context [registerFrontends r (frontendSpecs r) ?w0] =>
      destruct (registerFrontends_outcome r (frontendSpecs r) w0)
        as (res & new & c & E & Cases)
  end.
  rewrite E, after_after. do 4 eexists. split; [reflexivity |].
  destruct Cases as [(reqss & -> & -> & -> & F)
                    | [(pre & err & -> & -> & ->)
                      | [(pre & req & e & msg & fes & I & -> & -> & -> & FW)
                        | (pre & -> & -> & ->)]]].
  - do 3 right; left. exists reqss.
    repeat split; try assumption; now rewrite ?ok_app.
  - do 4 right; left. exists pre, err.
    repeat split; now rewrite ?ok_app.
  - do 5 right; left. exists pre, req, e, msg, fes.
    split; [exact I |].
    repeat split; try assumption; now rewrite ?ok_app, <- ?app_assoc.
  - do 6 right. exists ([backendTypePut r; serverPut r; serverPut r] ++ pre)%list.
    split; [reflexivity |]. split; [now rewrite ?ok_app |].
    split; [reflexivity | now right].
Qed.

(** [Start] never touches the wait group. *)
Lemma Start_wg (r : Registry) (w : Runtime) : wg (snd (Start r w)) = wg w.
Proof.
  destruct (Start_outcome r w) as (res & new & c & st & E & _).
  now rewrite E.
Qed.

(** With the client of [etcd.New], the registration of a frontend ends in
    the panic of its first statement that calls the client: the [Put] with
    the nil option.  Nothing is written. *)
Lemma registerFrontend_panics (r : Registry) (fes : frontendSpec) (w : Runtime) :
  callsOptions client -> registerFrontend r fes w = (Panics, w).
Proof.
  intros H. unfold registerFrontend, bind. rewrite Put_run, H; [reflexivity |].
  now left.
Qed.

(** What [Start] comes to with the client of [etcd.New]: the error of one
    of the three writes of the backend; a panic, which is the panic of the
    first frontend's [Put] when the three writes succeeded; or nil, on a
    registry without frontend.  The context is not cancelled. *)
Lemma Start_outcome_clientv3 (r : Registry) (w : Runtime) :
  callsOptions client ->
  exists res new st,
    Start r w = (res, after w new false st)
    /\ ((exists err e pre req,
            res = Returns (Some err) /\ st = []
            /\ new = (ok pre ++ [(req, Some e)])%list
            /\ ((pre = [] /\ req = backendTypePut r)
                \/ (pre = [backendTypePut r] /\ req = serverPut r)
                \/ (pre = [backendTypePut r; serverPut r] /\ req = serverPut r)))
        \/ (res = Panics /\ st = []
            /\ (new = ok [] \/ new = ok [backendTypePut r]
                \/ new = ok [backendTypePut r; serverPut r]))
        \/ (res = Panics /\ st = [blocked (leaseID r)]
            /\ new = ok [backendTypePut r; serverPut r; serverPut r]
            /\ frontendSpecs r <> [])
        \/ (res = Returns None /\ st = [blocked (leaseID r)]
            /\ new = ok [backendTypePut r; serverPut r; serverPut r]
            /\ frontendSpecs r = [])).
Proof.
  intros H. unfold Start, registerBackend, bind.
  destruct (Put_cases (putKey (backendTypePut r)) (putVal (backendTypePut r)) [] w)
    as [E1 | [[e E1] | E1]]; cbn [backendTypePut putKey putVal] in E1; rewrite E1;
    fold (backendTypePut r).
  2:{ cbn [Wrapf ret]. do 3 eexists. split; [reflexivity |].
      left. eexists; exists e, [], (backendTypePut r). auto 10. }
  2:{ do 3 eexists. split; [reflexivity |]. right; left. auto. }
  match goal with
  | |- context [Put ?k ?v ?o ?w0] =>
      destruct (Put_cases k v o w0) as [E2 | [[e E2] | E2]]; rewrite E2
  end; fold (serverPut r).
  2:{ cbn [Wrapf ret]. rewrite after_after. do 3 eexists. split; [reflexivity |].
      left. eexists; exists e, [backendTypePut r], (serverPut r). auto 10. }
  2:{ rewrite after_after. do 3 eexists. split; [reflexivity |].
      right; left. auto. }
  cbn [Wrapf ret].
  match goal with
  | |- context [Put ?k ?v ?o ?w0] =>
      destruct (Put_cases k v o w0) as [E3 | [[e E3] | E3]]; rewrite E3
  end; fold (serverPut r).
  2:{ cbn [Wrap ret]. rewrite !after_after. do 3 eexists. split; [reflexivity |].
      left. eexists; exists e, [backendTypePut r; serverPut r], (serverPut r).
      auto 10. }
  2:{ rewrite !after_after. do 3 eexists. split; [reflexivity |].
      right; left. auto. }
  rewrite goWatcher_run, !after_after.
  destruct (frontendSpecs r) as [|fes rest].
  - cbn [registerFrontends ret]. do 3 eexists. split; [reflexivity |].
    do 3 right. auto.
  - cbn [registerFrontends]. unfold bind.
    rewrite (registerFrontend_panics r fes _ H).
    do 3 eexists. split; [reflexivity |]. right; right; left.
    repeat split. discriminate.
Qed.

(** On a store that accepts every write, [Start] with that client ends in
    the panic of the first frontend's [Put], after the three writes of the
    backend and the start of the goroutine. *)
Lemma Start_panics_when_accepted (r : Registry) (w : Runtime)
      (fes : frontendSpec) (rest : list frontendSpec) :
  callsOptions client ->
  (forall n req, ~ In nilOption (putOpts req) -> etcdPut n req = Returns None) ->
  frontendSpecs r = fes :: rest ->
  Start r w
  = (Panics, after w (ok [backendTypePut r; serverPut r; serverPut r])
                   false [blocked (leaseID r)]).
Proof.
  intros H Hok Hf. unfold Start, registerBackend, bind.
  rewrite Put_run, Hok by (cbn; tauto). cbn [Wrapf ret].
  rewrite Put_run, Hok by (cbn; intros [D | []]; discriminate D).
  cbn [Wrapf ret].
  rewrite Put_run, Hok by (cbn; intros [D | []]; discriminate D).
  rewrite goWatcher_run, !after_after, Hf.
  cbn [registerFrontends]. unfold bind.
  now rewrite (registerFrontend_panics r fes _ H).
Qed.

(** The writes of such a [Start] are writes of the backend. *)
Lemma Start_writes_clientv3 (r : Registry) (w : Runtime) (req : PutReq)
      (o : option error) :
  callsOptions client ->
  In (req, o) (newPuts w (snd (Start r w))) ->
  req = backendTypePut r \/ req = serverPut r.
Proof.
  intros H I.
  destruct (Start_outcome_clientv3 r w H) as (res & new & st & E & Cases).
  rewrite E in I. cbn [snd] in I. rewrite newPuts_after in I.
  destruct Cases as [(err & e & pre & req' & _ & _ & -> & P)
                    | [(_ & _ & P) | [(_ & _ & -> & _) | (_ & _ & -> & _)]]].
  - destruct P as [[-> ->] | [[-> ->] | [-> ->]]]; cbn in I;
      repeat (destruct I as [I | I]; [injection I as <- _; auto |]);
      contradiction.
  - destruct P as [-> | [-> | ->]]; cbn in I;
      repeat (destruct I as [I | I]; [injection I as <- _; auto |]);
      contradiction.
  - cbn in I. repeat (destruct I as [I | I]; [injection I as <- _; auto |]).
    contradiction.
  - cbn in I. repeat (destruct I as [I | I]; [injection I as <- _; auto |]).
    contradiction.
Qed.

End RegistryFacts.

Section RegistryClaims.
Import Vulcand.
Context {client : EtcdClient} {codec : SpecCodec}.

(** C2, amended.  When a [Put] issued by [Start] fails, it is the last call
    [Start] issues, every earlier one having succeeded, and [Start] returns
    the error wrapped.  If it is the backend-type write or the server write
    of [registerBackend], the error is wrapped with the failing key and with
    the backend's ID, and the context is left as it was; if it is the server
    write of [Start] itself, the error is wrapped with "failed to write
    backend spec" and the context is left as it was; no goroutine has been
    started in these cases.  If it is a frontend or middleware write, the
    error is wrapped with the failing key and with the frontend's ID, and
    the context is cancelled. *)
Theorem Start_failed_put :
  forall (r : Registry) (w : Runtime) (req : PutReq) (e : error),
    In (req, Some e) (newPuts w (snd (Start r w))) ->
    exists pre err w',
      Start r w = (Returns (Some err), w')
      /\ newPuts w w' = (ok pre ++ [(req, Some e)])%list
      /\ Cause err = Cause e
      /\ ((pre = [] /\ req = backendTypePut r
           /\ err = withMessage
                      (withMessage e (Sprintf "failed to set backend type, %s"
                                              [putKey req]))
                      (Sprintf "failed to register backend, %s"
                               [ID (backendSpecOf r)])
           /\ ctxDone w' = ctxDone w /\ watchers w' = watchers w)
          \/ (pre = [backendTypePut r] /\ req = serverPut r
              /\ err = withMessage
                         (withMessage e (Sprintf "failed to set backend spec, %s"
                                                 [putKey req]))
                         (Sprintf "failed to register backend, %s"
                                  [ID (backendSpecOf r)])
              /\ ctxDone w' = ctxDone w /\ watchers w' = watchers w)
          \/ (pre = [backendTypePut r; serverPut r] /\ req = serverPut r
              /\ err = withMessage e "failed to write backend spec"
              /\ ctxDone w' = ctxDone w /\ watchers w' = watchers w)
          \/ (exists mid fes msg,
                 pre = backendTypePut r :: serverPut r :: serverPut r :: mid
                 /\ In fes (frontendSpecs r)
                 /\ frontendWrite r fes req msg
                 /\ err = withMessage (withMessage e msg)
                            (Sprintf "failed to register frontend, %s"
                                     [Vulcan.ID fes])
                 /\ ctxDone w' = true
                 /\ watchers w' = (watchers w ++ [blocked (leaseID r)])%list)).
Proof.
  intros r w req e I.
  destruct (Start_outcome r w) as (res & new & c & st & E & Cases).
  rewrite E in I |- *. cbn [snd] in I. rewrite newPuts_after in I.
  destruct Cases as [(e' & -> & -> & -> & ->)
                    | [(e' & -> & -> & -> & ->)
                      | [(e' & -> & -> & -> & ->)
                        | [(reqss & -> & -> & -> & -> & F)
                          | [(mid & err & -> & -> & -> & ->)
                            | [(mid & req' & e' & msg & fes & If & -> & -> & -> & -> & FW)
                              | (pre & -> & -> & -> & St)]]]]]].
  - apply In_ok_failed in I as [-> ->].
    do 3 eexists. split; [reflexivity |]. rewrite newPuts_after.
    split; [reflexivity | split; [reflexivity |]]. left.
    cbn [after ctxDone watchers]. now rewrite orb_false_r, app_nil_r.
  - apply In_ok_failed in I as [-> ->].
    do 3 eexists. split; [reflexivity |]. rewrite newPuts_after.
    split; [reflexivity | split; [reflexivity |]]. right; left.
    cbn [after ctxDone watchers]. now rewrite orb_false_r, app_nil_r.
  - apply In_ok_failed in I as [-> ->].
    do 3 eexists. split; [reflexivity |]. rewrite newPuts_after.
    split; [reflexivity | split; [reflexivity |]]. right; right; left.
    cbn [after ctxDone watchers]. now rewrite orb_false_r, app_nil_r.
  - now apply In_ok in I.
  - now apply In_ok in I.
  - apply In_ok_failed in I as [-> ->].
    do 3 eexists. split; [reflexivity |]. rewrite newPuts_after.
    split; [reflexivity | split; [reflexivity |]]. do 3 right.
    exists mid, fes, msg. cbn [after ctxDone watchers].
    rewrite orb_true_r. now repeat split.
  - now apply In_ok in I.
Qed.

(** C3: what the code does.  [registerFrontend] passes the literal [nil]
    as an option of its [Put], and the client of [etcd.New] calls every
    option: on a registry with one backend and two frontends [Start] never
    returns nil.  It writes no frontend key and no middleware key: every
    write it issues is the backend-type write or the server write.  When
    the store accepts every write, [Start] issues the three writes of the
    backend (the server key twice under the lease), starts the goroutine
    and ends in the panic of the [Put] of the first frontend, the context
    not cancelled. *)
Theorem Start_panics_on_frontend :
  forall (r : Registry) (w : Runtime) (f1 f2 : frontendSpec),
    callsOptions client ->
    frontendSpecs r = [f1; f2] ->
    fst (Start r w) <> Returns None
    /\ (forall req o, In (req, o) (newPuts w (snd (Start r w))) ->
                      req = backendTypePut r \/ req = serverPut r)
    /\ ((forall n req, ~ In nilOption (putOpts req) ->
                        etcdPut n req = Returns None) ->
        Start r w
        = (Panics, after w (ok [backendTypePut r; serverPut r; serverPut r])
                         false [blocked (leaseID r)])).
Proof.
  intros r w f1 f2 H Hf.
  split; [| split; [intros req o; now apply Start_writes_clientv3 |]].
  - destruct (Start_outcome_clientv3 r w H) as (res & new & st & E & Cases).
    rewrite E. cbn [fst].
    destruct Cases as [(err & e & pre & req & -> & _)
                      | [(-> & _) | [(-> & _) | (_ & _ & _ & F)]]];
      try discriminate.
    rewrite Hf in F. discriminate F.
  - intros Hok. now apply (Start_panics_when_accepted r w f1 [f2]).
Qed.

(** C1: what the code does.  After a successful [Start], with the wait
    group at its zero value, the caller of [Stop] can run both statements
    of [Stop] before the goroutine is scheduled: [Stop] has returned, the
    context is cancelled, no [Revoke] has been issued and the goroutine is
    still blocked.  [Start] starts the goroutine without [r.wg.Add], so
    [r.wg.Wait] has nothing to wait for. *)
Theorem Stop_returns_before_revoke :
  forall (r : Registry) (w : Runtime),
    wg w = 0 ->
    fst (Start r w) = Returns None ->
    exists s,
      run [evStop; evStop] (callStop (snd (Start r w))) = Some s
      /\ stopPc s = stopReturned
      /\ ctxDone (rt s) = true
      /\ revokes (rt s) = revokes w
      /\ In (blocked (leaseID r)) (watchers (rt s)).
Proof.
  intros r w Hwg Hok.
  pose proof (Start_wg r w) as Wg.
  destruct (Start_outcome r w) as (res & new & c & st & E & Cases).
  rewrite E in Hok, Wg |- *. cbn [fst snd] in *.
  assert (St : st = [blocked (leaseID r)]).
  { destruct Cases as [(e' & D & _)
                      | [(e' & D & _)
                        | [(e' & D & _)
                          | [(reqss & _ & _ & _ & D & _)
                            | [(mid & err & D & _)
                              | [(mid & req' & e' & msg & fes & If & D & _)
                                | (pre & D & _)]]]]]];
      congruence. }
  subst st.
  cbn [run step stepStop callStop stopPc rt cancelFunc snd].
  rewrite Wg, Hwg. cbn [Nat.eqb].
  eexists. split; [reflexivity |]. cbn [stopPc rt ctxDone revokes watchers after].
  repeat split. apply in_or_app. right. now left.
Qed.

(** C8, amended.  A registry that [NewRegistry] returns has the
    configuration it was given with the defaults filled in: a TTL that is
    not positive has become 30 seconds, and an etcd configuration that is
    absent (a nil pointer) has become the one with the single endpoint
    127.0.0.1:2379.  A positive TTL, an etcd configuration that was
    supplied, whatever its endpoints, and the chroot are unchanged.  The
    client was opened on that configuration and the lease granted for the
    seconds [int64(TTL.Seconds())] of that TTL. *)
Theorem NewRegistry_defaults :
  forall (c : Config) (appName ip : string) (port : Z) (r : Registry),
    NewRegistry c appName ip port = inr r ->
    ((TTL c <= 0)%Z -> TTL (cfg r) = (30 * Second)%Z)
    /\ ((0 < TTL c)%Z -> TTL (cfg r) = TTL c)
    /\ (Etcd c = None ->
        Etcd (cfg r) = Some {| Endpoints := ["127.0.0.1:2379"];
                               Username := EmptyString;
                               Password := EmptyString |})
    /\ (forall e, Etcd c = Some e -> Etcd (cfg r) = Some e)
    /\ Chroot (cfg r) = Chroot c
    /\ (exists e, Etcd (cfg r) = Some e /\ etcdNew e = None)
    /\ etcdGrant (wholeSeconds (TTL (cfg r))) = inr (leaseID r).
Proof.
  intros c appName ip port r E. unfold NewRegistry in E.
  destruct (newBackendSpec appName ip port) as [err | bes]; [discriminate |].
  destruct (etcdNew _) as [err |] eqn:N; [discriminate |].
  destruct (etcdGrant _) as [err | respID] eqn:G; [discriminate |].
  destruct (etcdKeepAlive respID) as [err |]; [discriminate |].
  injection E as <-. cbn [cfg TTL Etcd Chroot leaseID] in *.
  repeat split.
  - intros Hle. apply Z.leb_le in Hle. now rewrite Hle.
  - intros Hlt. apply Z.leb_gt in Hlt. now rewrite Hlt.
  - intros ->. reflexivity.
  - intros e ->. reflexivity.
  - eexists. split; [reflexivity | exact N].
  - exact G.
Qed.

End RegistryClaims.

(** ** The registry on the example environments *)

Section RegistryExamples.
Import Vulcand Examples.

Lemma okClient_callsOptions : callsOptions okClient.
Proof.
  intros n req I. cbn.
  replace (nilOptionIn (putOpts req)) with true; [reflexivity |].
  symmetry. apply existsb_exists. exists nilOption. now split.
Qed.

Lemma Start_failed_put_witness :
  In (@serverPut exampleCodec exampleRegistry, Some requestTimedOut)
     (newPuts freshRuntime
              (snd (@Start (failingClient 2) exampleCodec exampleRegistry freshRuntime)))
  /\ exists pre err w',
      @Start (failingClient 2) exampleCodec exampleRegistry freshRuntime
      = (Returns (Some err), w')
      /\ newPuts freshRuntime w'
         = (ok pre ++ [(@serverPut exampleCodec exampleRegistry,
                        Some requestTimedOut)])%list
      /\ Cause err = requestTimedOut.
Proof.
  assert (I : In (@serverPut exampleCodec exampleRegistry, Some requestTimedOut)
                 (newPuts freshRuntime
                          (snd (@Start (failingClient 2) exampleCodec
                                       exampleRegistry freshRuntime)))).
  { vm_compute. do 2 right. left. reflexivity. }
  split; [exact I |].
  destruct (@Start_failed_put (failingClient 2) exampleCodec _ _ _ _ I)
    as (pre & err & w' & E & N & C & _).
  exists pre, err, w'. repeat split; assumption.
Defined.

(** C2 as stated fails for the writes of the backend: the backend-type
    write fails, [Start] returns the wrapped error, and the context is not
    cancelled. *)
Lemma Start_backend_failure_not_cancelled :
  @Start (failingClient 0) exampleCodec exampleRegistry freshRuntime
  = (Returns
       (Some (withMessage
                (withMessage requestTimedOut
                   "failed to set backend type, /vulcand/backends/app/backend")
                "failed to register backend, 10.0.0.1_8080")),
     {| trace := [(mkPut "/vulcand/backends/app/backend" "{Type: http}" [],
                   Some requestTimedOut)];
        ctxDone := false; wg := 0; watchers := []; revokes := [] |})
  /\ ctxDone (snd (@Start (failingClient 0) exampleCodec exampleRegistry freshRuntime))
     <> true.
Proof.
  split; [reflexivity | vm_compute; discriminate].
Qed.

(** The last case of C2 takes a client whose [Put] returns on the nil
    option, such as a test double for the client's KV interface that does
    not look at the options: when its sixth [Put], the second middleware of
    the first frontend, fails, [Start] cancels the context and returns the
    error wrapped with the key and with the frontend's ID. *)
Lemma Start_failed_middleware_put_on_stub :
  @Start (stubClient 5) exampleCodec exampleRegistry freshRuntime
  = (Returns
       (Some (withMessage
                (withMessage requestTimedOut
                   ("failed to set middleware, " ++ putKey sixthPut))
                "failed to register frontend, get.post.resources.<id>")),
     snd (@Start (stubClient 5) exampleCodec exampleRegistry freshRuntime))
  /\ nth_error (trace (snd (@Start (stubClient 5) exampleCodec exampleRegistry
                                   freshRuntime))) 5
     = Some (sixthPut, Some requestTimedOut)
  /\ ctxDone (snd (@Start (stubClient 5) exampleCodec exampleRegistry freshRuntime))
     = true.
Proof.
  split; [vm_compute; reflexivity | split; vm_compute; reflexivity].
Qed.

Lemma Start_panics_on_frontend_witness :
  callsOptions okClient
  /\ List.length (frontendSpecs exampleRegistry) = 2
  /\ @Start okClient exampleCodec exampleRegistry freshRuntime
     = (Panics,
        {| trace := [(mkPut "/vulcand/backends/app/backend" "{Type: http}" [], None);
                     (mkPut "/vulcand/backends/app/servers/10.0.0.1_8080"
                            "{URL: http://10.0.0.1:8080}" [WithLease 7%Z], None);
                     (mkPut "/vulcand/backends/app/servers/10.0.0.1_8080"
                            "{URL: http://10.0.0.1:8080}" [WithLease 7%Z], None)];
           ctxDone := false; wg := 0; watchers := [blocked 7%Z]; revokes := [] |}).
Proof.
  split; [exact okClient_callsOptions | split; [reflexivity |]].
  apply (proj2 (proj2 (@Start_panics_on_frontend okClient exampleCodec exampleRegistry
                         freshRuntime _ _ okClient_callsOptions eq_refl))).
  intros n req N. cbn.
  destruct (nilOptionIn (putOpts req)) eqn:E; [| reflexivity].
  apply existsb_exists in E as ([id |] & I & D); [discriminate D | contradiction].
Defined.

Lemma Stop_returns_before_revoke_witness :
  exists s,
    run [evStop; evStop]
        (callStop (snd (@Start okClient exampleCodec bareRegistry freshRuntime)))
    = Some s
    /\ stopPc s = stopReturned
    /\ revokes (rt s) = []
    /\ In (blocked 7%Z) (watchers (rt s)).
Proof.
  destruct (@Stop_returns_before_revoke okClient exampleCodec bareRegistry
              freshRuntime eq_refl eq_refl)
    as (s & R & P & _ & Rv & I).
  exists s. repeat split; assumption.
Defined.

(** Once [Stop] has returned, the goroutine can still take its step: the
    [Revoke] is issued after the return of [Stop]. *)
Lemma revoke_after_Stop_returned :
  exists s1 s2,
    run [evStop; evStop]
        (callStop (snd (@Start okClient exampleCodec bareRegistry freshRuntime)))
    = Some s1
    /\ stopPc s1 = stopReturned /\ revokes (rt s1) = []
    /\ run [evWatcher 0] s1 = Some s2
    /\ revokes (rt s2) = [7%Z] /\ watchers (rt s2) = [exited].
Proof.
  do 2 eexists. repeat split.
Qed.

Lemma NewRegistry_defaults_witness :
  exists r,
    @NewRegistry okClient exampleCodec unsetConfig "app" "10.0.0.1" 8080 = inr r
    /\ TTL (cfg r) = (30 * Second)%Z
    /\ Etcd (cfg r) = Some {| Endpoints := ["127.0.0.1:2379"];
                              Username := EmptyString;
                              Password := EmptyString |}.
Proof.
  eexists. split; [reflexivity |].
  destruct (@NewRegistry_defaults okClient exampleCodec unsetConfig
              "app" "10.0.0.1" 8080%Z _ eq_refl)
    as (T & _ & Et & _).
  split; [apply T; cbn; lia | apply Et; reflexivity].
Defined.

(** C8 as stated fails for a configuration that supplies an etcd
    configuration without endpoint: the endpoint is not defaulted.  The
    registry of a client that opens on it keeps the empty list, and with a
    client that wants an endpoint the construction fails. *)
Lemma NewRegistry_keeps_empty_endpoints :
  Etcd noEndpointConfig
  = Some {| Endpoints := []; Username := EmptyString; Password := EmptyString |}
  /\ (exists r,
         @NewRegistry okClient exampleCodec noEndpointConfig "app" "10.0.0.1" 8080
         = inr r
         /\ Etcd (cfg r)
            = Some {| Endpoints := []; Username := EmptyString;
                      Password := EmptyString |})
  /\ @NewRegistry strictClient exampleCodec noEndpointConfig "app" "10.0.0.1" 8080
     = inl (withMessage noEndpoint "failed to create Etcd client, cfg=").
Proof.
  split; [reflexivity | split; [eexists; split; reflexivity | reflexivity]].
Qed.

End RegistryExamples.

(** ** The single-master registry *)

Section SingleMasterClaims.
Import SingleMaster.
Context {client : Client} {codec : EndpointCodec}.

(** C9.  When the endpoint cannot be built, [RegisterApp] returns nil and
    issues no call to the store; when the server spec cannot be built,
    [assumeMasterRole] and [maintainMasterRole] return nil, issue no call
    and leave [IsMaster] as it was. *)
Theorem RegisterApp_swallows_errors :
  (forall (registration : AppRegistration) (s : SingleMasterRegistry) (e : error),
      NewEndpointWithID masterNodeID (Name registration) (Host registration)
                        (Port registration) = inl e ->
      RegisterApp registration s = (None, s))
  /\ (forall (endpoint : Endpoint) (s : SingleMasterRegistry) (e : error),
         ServerSpec endpoint = inl e ->
         assumeMasterRole endpoint s = (None, s)
         /\ maintainMasterRole endpoint s = (None, s)).
Proof.
  split.
  - intros registration s e E. unfold RegisterApp. now rewrite E.
  - intros endpoint s e E. unfold assumeMasterRole, maintainMasterRole.
    now rewrite E.
Qed.

(** The sibling of the loop of [registerFrontend]: when
    [registerMiddleware] succeeds it has issued one [Set] per middleware,
    in order, each marshalled with [Priority] set to its index. *)
Lemma registerMiddlewareFrom_priorities (location : Vulcan.Location) :
  forall ms i s s',
    registerMiddlewareFrom location i ms s = (None, s') ->
    exists calls,
      issued s' = (issued s ++ List.map (fun c => (c, None)) calls)%list
      /\ Key s' = Key s
      /\ middlewaresSet (Key s) location i ms calls.
Proof.
  induction ms as [|m rest IH]; intros i s s' E; cbn [registerMiddlewareFrom] in E.
  - injection E as <-. exists []. cbn. now rewrite app_nil_r.
  - destruct (marshalMiddleware (Vulcand.withPriority m i)) as [err | v] eqn:J;
      [discriminate |].
    unfold call in E.
    destruct (clientCall (List.length (issued s)) _) as [e |] eqn:C;
      [discriminate |].
    apply IH in E as (calls & I & K & W). cbn [issued Key] in I, K, W.
    eexists (_ :: calls). split; [| split; [exact K |]].
    + rewrite I, <- app_assoc. reflexivity.
    + cbn [middlewaresSet]. split; [| exact W].
      exists v. now split.
Qed.

End SingleMasterClaims.

Section SingleMasterExamples.
Import SingleMaster Examples.

Lemma RegisterApp_swallows_errors_witness :
  @RegisterApp okV2Client failingEndpointCodec exampleApp exampleSingleMaster
  = (None, exampleSingleMaster)
  /\ @assumeMasterRole okV2Client failingEndpointCodec exampleEndpoint exampleSingleMaster
     = (None, exampleSingleMaster)
  /\ @maintainMasterRole okV2Client failingEndpointCodec exampleEndpoint
                         exampleSingleMaster
     = (None, exampleSingleMaster).
Proof.
  split.
  - apply (proj1 (@RegisterApp_swallows_errors okV2Client failingEndpointCodec)
             exampleApp exampleSingleMaster invalidEndpoint).
    reflexivity.
  - apply (proj2 (@RegisterApp_swallows_errors okV2Client failingEndpointCodec)
             exampleEndpoint exampleSingleMaster invalidEndpoint).
    reflexivity.
Defined.

End SingleMasterExamples.

(** * Further properties of the code *)

(** ** [vulcan/location.go] *)

Section LocationExtras.
Import Vulcan.

Lemma In_allBytes (c : ascii) : In c allBytes.
Proof.
  unfold allBytes. apply in_map_iff. exists (nat_of_ascii c).
  split; [apply ascii_nat_embedding |].
  apply in_seq. pose proof (nat_ascii_bounded c). lia.
Qed.

(** A fact checked on every byte holds of every byte. *)
Lemma byte_check (p : ascii -> bool) :
  forallb p allBytes = true -> forall c, p c = true.
Proof.
  intros H c. rewrite forallb_forall in H. apply H, In_allBytes.
Qed.

Lemma byte_check2 (p : ascii -> ascii -> bool) :
  forallb (fun c => forallb (p c) allBytes) allBytes = true ->
  forall c d, p c d = true.
Proof.
  intros H c d. rewrite forallb_forall in H.
  specialize (H c (In_allBytes c)). rewrite forallb_forall in H.
  apply H, In_allBytes.
Qed.

Lemma length_smap (f : ascii -> ascii) (s : string) :
  String.length (smap f s) = String.length s.
Proof. induction s as [|c s IH]; cbn; [reflexivity | now rewrite IH]. Qed.

Lemma occurs_smap_none (f : ascii -> ascii) (c : ascii) (s : string) :
  (forall x, Ascii.eqb c (f x) = false) -> occurs c (smap f s) = false.
Proof.
  intros H. induction s as [|x s IH]; cbn [smap occurs]; [reflexivity |].
  now rewrite H, IH.
Qed.

Lemma sforall_smap (p : ascii -> bool) (f : ascii -> ascii) (s : string) :
  (forall x, p (f x) = true) -> sforall p (smap f s) = true.
Proof.
  intros H. induction s as [|x s IH]; cbn [smap sforall]; [reflexivity |].
  now rewrite H, IH.
Qed.

(** X1.  The converted path has the length of the path and contains no curly
    brace; converting it again changes nothing; and a path without curly
    braces is its own conversion. *)
Theorem convertPath_normalises :
  forall path,
    String.length (convertPath path) = String.length path
    /\ occurs "{" (convertPath path) = false
    /\ occurs "}" (convertPath path) = false
    /\ convertPath (convertPath path) = convertPath path
    /\ (occurs "{" path = false -> occurs "}" path = false ->
        convertPath path = path).
Proof.
  intros path. rewrite !convertPath_smap.
  split; [apply length_smap |].
  split; [apply occurs_smap_none; intros x; apply negb_true_iff; revert x;
          apply byte_check; vm_compute; reflexivity |].
  split; [apply occurs_smap_none; intros x; apply negb_true_iff; revert x;
          apply byte_check; vm_compute; reflexivity |].
  split.
  - rewrite smap_smap. apply smap_ext.
    intros c. apply Ascii.eqb_eq. revert c. apply byte_check.
    vm_compute. reflexivity.
  - induction path as [|c p IH]; cbn [occurs smap]; intros O1 O2; [reflexivity |].
    apply orb_false_iff in O1 as [C1 O1]. apply orb_false_iff in O2 as [C2 O2].
    rewrite (IH O1 O2). f_equal. unfold braceToAngle.
    rewrite Ascii.eqb_sym in C1. rewrite Ascii.eqb_sym in C2.
    now rewrite C1, C2.
Qed.

Lemma convertPath_normalises_witness :
  occurs "{" "/hello" = false /\ occurs "}" "/hello" = false
  /\ convertPath "/hello" = "/hello".
Proof.
  split; [reflexivity | split; [reflexivity |]].
  apply (proj2 (proj2 (proj2 (proj2 (convertPath_normalises "/hello")))));
    reflexivity.
Defined.

(** X2.  The identifier derived for a location contains no slash and no
    upper-case ASCII letter, whatever the methods and the path. *)
Theorem makeLocationID_no_slash_no_upper :
  forall methods path,
    occurs "/" (makeLocationID methods path) = false
    /\ sforall (fun c => negb (isUpper c)) (makeLocationID methods path) = true.
Proof.
  intros methods path. rewrite makeLocationID_smap. unfold ToLower.
  rewrite smap_smap. split.
  - apply occurs_smap_none. intros x. apply negb_true_iff. revert x.
    apply byte_check. vm_compute. reflexivity.
  - apply sforall_smap. apply byte_check. vm_compute. reflexivity.
Qed.

(** The identifier reads its input through the lowering of letters. *)
Lemma makeLocationID_lowered (methods : list string) (path : string) :
  makeLocationID methods (smap braceToAngle path)
  = makeLocationID (List.map ToLower methods) (smap braceToAngle (ToLower path)).
Proof.
  rewrite !makeLocationID_smap. unfold ToLower.
  rewrite !smap_smap, !smap_append, !smap_smap.
  f_equal.
  - replace (Join (List.map (fun s => smap toLowerByte s) methods) ".")
      with (smap toLowerByte (Join methods "."))
      by (rewrite smap_Join; reflexivity).
    rewrite smap_smap.
    apply smap_ext. intros c. apply Ascii.eqb_eq. revert c. apply byte_check.
    vm_compute. reflexivity.
  - apply smap_ext. intros c. apply Ascii.eqb_eq. revert c. apply byte_check.
    vm_compute. reflexivity.
Qed.

(** X3.  The identifier does not see the case of ASCII letters: a location
    and the location with methods and path in lower case have one
    identifier. *)
Theorem NewLocation_ID_case_insensitive :
  forall host methods path upstream middlewares,
    Vulcan.ID (NewLocation host methods path upstream middlewares)
    = Vulcan.ID (NewLocation host (List.map ToLower methods) (ToLower path)
                             upstream middlewares).
Proof.
  intros. cbn [NewLocation Vulcan.ID]. rewrite !convertPath_smap.
  apply makeLocationID_lowered.
Qed.

Lemma makeLocationPath_path_inj (methods : list string) (p1 p2 : string) :
  makeLocationPath methods p1 = makeLocationPath methods p2 -> p1 = p2.
Proof.
  rewrite !makeLocationPath_append. intros E.
  apply (append_inv_head "TrieRoute(") in E.
  apply (append_inv_head q) in E.
  apply append_inv_head in E.
  apply (append_inv_head q) in E.
  apply (append_inv_head ", ") in E.
  apply (append_inv_head q) in E.
  now apply append_inv_tail in E.
Qed.

(** Two bytes with one conversion and one lowering are one byte. *)
Lemma braceToAngle_toLower_inj (p1 p2 : string) :
  smap braceToAngle p1 = smap braceToAngle p2 ->
  ToLower p1 = ToLower p2 -> p1 = p2.
Proof.
  unfold ToLower. revert p2.
  induction p1 as [|c p1 IH]; intros [|d p2] E1 E2; try discriminate;
    [reflexivity |].
  cbn [smap] in E1, E2. injection E1 as C1 E1. injection E2 as C2 E2.
  f_equal; [| now apply IH].
  pose proof (byte_check2
                (fun c d => implb (Ascii.eqb (braceToAngle c) (braceToAngle d)
                                   && Ascii.eqb (toLowerByte c) (toLowerByte d))
                                  (Ascii.eqb c d))) as B.
  specialize (B ltac:(vm_compute; reflexivity) c d). cbn beta in B.
  rewrite C1, C2, !Ascii.eqb_refl in B. now apply Ascii.eqb_eq.
Qed.

(** X4.  Two paths that differ only in the case of ASCII letters give, with
    one host and one method list, locations with one identifier (so one
    key in the store) and different route expressions. *)
Theorem case_variant_paths_collide :
  forall host methods p1 p2 upstream middlewares,
    ToLower p1 = ToLower p2 -> p1 <> p2 ->
    Vulcan.ID (NewLocation host methods p1 upstream middlewares)
    = Vulcan.ID (NewLocation host methods p2 upstream middlewares)
    /\ Vulcan.Path (NewLocation host methods p1 upstream middlewares)
       <> Vulcan.Path (NewLocation host methods p2 upstream middlewares).
Proof.
  intros host methods p1 p2 upstream middlewares L Hne.
  cbn [NewLocation Vulcan.ID Vulcan.Path]. rewrite !convertPath_smap. split.
  - rewrite (makeLocationID_lowered methods p1), (makeLocationID_lowered methods p2).
    now rewrite L.
  - intros E. apply makeLocationPath_path_inj in E.
    apply Hne. now apply braceToAngle_toLower_inj.
Qed.

Lemma case_variant_paths_collide_witness :
  Vulcan.ID (NewLocation "api.example.com" ["GET"] "/Hello" "app" [])
  = Vulcan.ID (NewLocation "api.example.com" ["GET"] "/hello" "app" [])
  /\ Vulcan.Path (NewLocation "api.example.com" ["GET"] "/Hello" "app" [])
     <> Vulcan.Path (NewLocation "api.example.com" ["GET"] "/hello" "app" []).
Proof.
  apply case_variant_paths_collide; [reflexivity | discriminate].
Defined.

Lemma MarshalJSON_append (o : LocationOptions) :
  fst (MarshalJSON o)
  = ("{" ++ q ++ "FailoverPredicate" ++ q ++ ": " ++ q)
      ++ FailoverPredicate o ++ q ++ "}".
Proof. destruct o as [p]. reflexivity. Qed.

(** X5.  Options with different failover predicates are serialised to
    different documents. *)
Theorem MarshalJSON_injective :
  forall o1 o2, fst (MarshalJSON o1) = fst (MarshalJSON o2) -> o1 = o2.
Proof.
  intros [p1] [p2] E. rewrite !MarshalJSON_append in E.
  cbn [FailoverPredicate] in E.
  apply append_inv_head in E. apply append_inv_tail in E. now subst.
Qed.

Lemma MarshalJSON_injective_witness :
  {| FailoverPredicate := defaultFailoverPredicate |}
  = {| FailoverPredicate := defaultFailoverPredicate |}.
Proof.
  apply MarshalJSON_injective. reflexivity.
Defined.

(** X6.  [MarshalJSON] escapes nothing, double quotes and backslashes
    included: the document has the four double quotes of its frame more than
    the predicate, and as many backslashes as the predicate. *)
Theorem MarshalJSON_escapes_nothing :
  forall o,
    countByte dquote (fst (MarshalJSON o))
    = (countByte dquote (FailoverPredicate o) + 4)%nat
    /\ countByte "\" (fst (MarshalJSON o)) = countByte "\" (FailoverPredicate o).
Proof.
  intros o. rewrite MarshalJSON_append, !countByte_append.
  split; cbn; lia.
Qed.

End LocationExtras.

(** ** [vulcand/registry.go]: [Start] and [AddFrontend] *)

Section StartExtras.
Import Vulcand.
Context {client : EtcdClient} {codec : SpecCodec}.

Lemma confined_ret {A : Type} (P : PutReq -> Prop) (a : A) : confined P (ret a).
Proof.
  intros w. exists [], false, []. split; [cbn; now rewrite after_id | constructor].
Qed.

Lemma confined_bind {A B : Type} (P : PutReq -> Prop) (m : M A) (k : A -> M B) :
  confined P m -> (forall a, confined P (k a)) -> confined P (bind m k).
Proof.
  intros Hm Hk w. unfold bind.
  destruct (Hm w) as (n1 & c1 & s1 & E1 & F1).
  destruct (m w) as [[a |] w1]; cbn [snd] in E1; subst w1.
  - destruct (Hk a (after w n1 c1 s1)) as (n2 & c2 & s2 & E2 & F2).
    exists (n1 ++ n2)%list, (c1 || c2), (s1 ++ s2)%list.
    rewrite E2, after_after. split; [reflexivity | now apply Forall_app].
  - exists n1, c1, s1. now split.
Qed.

Lemma confined_Put (P : PutReq -> Prop) (key val : string) (opts : list OpOption) :
  P (mkPut key val opts) -> confined P (Put key val opts).
Proof.
  intros H w. rewrite Put_run. destruct (etcdPut _ _) as [err |].
  - do 3 eexists. split; [reflexivity |]. constructor; [exact H | constructor].
  - exists [], false, []. split; [cbn; now rewrite after_id | constructor].
Qed.

Lemma confined_cancelFunc (P : PutReq -> Prop) : confined P cancelFunc.
Proof.
  intros w. rewrite cancelFunc_run. do 3 eexists. split; [reflexivity | constructor].
Qed.

Lemma confined_goWatcher (P : PutReq -> Prop) (lease : LeaseID) :
  confined P (goWatcher lease).
Proof.
  intros w. rewrite goWatcher_run. do 3 eexists. split; [reflexivity | constructor].
Qed.

Section Confined.
Variable P : PutReq -> Prop.
Variable r : Registry.
Hypothesis P_backend : P (backendTypePut r).
Hypothesis P_server : P (serverPut r).
Hypothesis P_frontend : forall fes, P (frontendPut r fes).
Hypothesis P_middleware :
  forall fes mwid val,
    P (mkPut (Sprintf middlewareFmt
                      [Chroot (cfg r); Vulcan.Host fes; Vulcan.ID fes; mwid])
             val []).

Lemma confined_registerMiddlewares (fes : frontendSpec) :
  forall mws i, confined P (registerMiddlewares r fes i mws).
Proof.
  induction mws as [|mw rest IH]; intros i; cbn [registerMiddlewares].
  - apply confined_ret.
  - destruct (jsonMarshal (withPriority mw i)) as [err | mwVal].
    + apply confined_ret.
    + apply confined_bind; [apply confined_Put, P_middleware |].
      intros [e |]; [apply confined_ret | apply IH].
Qed.

Lemma confined_registerFrontend (fes : frontendSpec) :
  confined P (registerFrontend r fes).
Proof.
  unfold registerFrontend.
  apply confined_bind; [apply confined_Put, P_frontend |].
  intros [e |]; [apply confined_ret | apply confined_registerMiddlewares].
Qed.

Lemma confined_registerFrontends :
  forall fess, confined P (registerFrontends r fess).
Proof.
  induction fess as [|fes rest IH]; cbn [registerFrontends].
  - apply confined_ret.
  - apply confined_bind; [apply confined_registerFrontend |].
    intros [e |]; [| apply IH].
    apply confined_bind; [apply confined_cancelFunc | intros; apply confined_ret].
Qed.

(** Every request [Start] issues is one of the four it builds. *)
Lemma confined_Start : confined P (Start r).
Proof.
  unfold Start, registerBackend.
  apply confined_bind.
  - apply confined_bind; [apply confined_Put, P_backend |].
    intros [e |]; [apply confined_ret |].
    apply confined_bind; [apply confined_Put, P_server | intros; apply confined_ret].
  - intros [e |]; [apply confined_ret |].
    apply confined_bind; [apply confined_Put, P_server |].
    intros [e |]; [apply confined_ret |].
    apply confined_bind; [apply confined_goWatcher |].
    intros _. apply confined_registerFrontends.
Qed.

End Confined.

Lemma confined_In (P : PutReq -> Prop) (r : Registry) (w : Runtime) req o :
  confined P (Start r) ->
  In (req, o) (newPuts w (snd (Start r w))) -> P req.
Proof.
  intros C I. destruct (C w) as (new & c & st & E & F).
  rewrite E, newPuts_after in I. rewrite Forall_forall in F.
  exact (F _ I).
Qed.

(** X7.  Whatever its outcome, [Start] writes under the lease nothing but
    the server record: the backend-type record, the frontends and the
    middlewares are written without lease. *)
Theorem Start_leases_only_server :
  forall (r : Registry) (w : Runtime) (req : PutReq) (o : option error),
    In (req, o) (newPuts w (snd (Start r w))) ->
    leased req = true -> req = serverPut r.
Proof.
  intros r w req o I. revert I.
  apply (confined_In (fun req => leased req = true -> req = serverPut r));
    apply confined_Start; try reflexivity; intros; discriminate.
Qed.

Lemma prefix_append (a b : string) : prefix a (a ++ b) = true.
Proof.
  induction a as [|c a IH]; cbn [append prefix]; [now destruct b |].
  destruct (ascii_dec c c) as [_ | N]; [exact IH | contradiction].
Qed.

(** X8.  Whatever its outcome, every key [Start] writes begins with the
    chroot of the configuration. *)
Theorem Start_keys_under_chroot :
  forall (r : Registry) (w : Runtime) (req : PutReq) (o : option error),
    In (req, o) (newPuts w (snd (Start r w))) ->
    prefix (Chroot (cfg r)) (putKey req) = true.
Proof.
  intros r w req o.
  apply (confined_In (fun req => prefix (Chroot (cfg r)) (putKey req) = true)).
  apply confined_Start; intros; cbn; apply prefix_append.
Qed.

(** X9.  What [Start] leaves alone, whatever its outcome: it issues no
    [Revoke], does not touch the wait group, only adds to the calls issued,
    does not revive a cancelled context, and starts at most one goroutine,
    which holds the lease of the registry. *)
Theorem Start_frame :
  forall (r : Registry) (w : Runtime),
    revokes (snd (Start r w)) = revokes w
    /\ wg (snd (Start r w)) = wg w
    /\ (exists new, trace (snd (Start r w)) = (trace w ++ new)%list)
    /\ (ctxDone w = true -> ctxDone (snd (Start r w)) = true)
    /\ (watchers (snd (Start r w)) = watchers w
        \/ watchers (snd (Start r w)) = (watchers w ++ [blocked (leaseID r)])%list).
Proof.
  intros r w.
  destruct (Start_outcome r w) as (res & new & c & st & E & Cases).
  rewrite E. cbn [snd after revokes wg trace ctxDone watchers].
  split; [reflexivity | split; [reflexivity | split; [now exists new | split]]].
  - intros ->. reflexivity.
  - destruct Cases as [(e' & _ & _ & _ & ->)
                      | [(e' & _ & _ & _ & ->)
                        | [(e' & _ & _ & _ & ->)
                          | [(reqss & _ & _ & _ & -> & _)
                            | [(mid & err & _ & _ & _ & ->)
                              | [(mid & req' & e' & msg & fes & _ & _ & _ & _ & -> & _)
                                | (pre & _ & _ & _ & [-> | ->])]]]]]];
      rewrite ?app_nil_r; auto.
Qed.

(** X30.  With the client of [etcd.New], [Start] returns nil only on a
    registry without frontend.  Whatever the registry, every write it
    issues is the backend-type write or the server write, no frontend and
    no middleware being written, and it leaves the context as it was: the
    [r.cancelFunc()] of its loop is not reached. *)
Theorem Start_registers_no_frontend :
  forall (r : Registry) (w : Runtime),
    callsOptions client ->
    (fst (Start r w) = Returns None -> frontendSpecs r = [])
    /\ (forall req o, In (req, o) (newPuts w (snd (Start r w))) ->
                      req = backendTypePut r \/ req = serverPut r)
    /\ ctxDone (snd (Start r w)) = ctxDone w.
Proof.
  intros r w H.
  split; [| split; [intros req o; now apply Start_writes_clientv3 |]].
  - destruct (Start_outcome_clientv3 r w H) as (res & new & st & E & Cases).
    rewrite E. cbn [fst].
    destruct Cases as [(err & e & pre & req & -> & _)
                      | [(-> & _) | [(-> & _) | (_ & _ & _ & F)]]];
      try discriminate.
    intros _. exact F.
  - destruct (Start_outcome_clientv3 r w H) as (res & new & st & E & _).
    rewrite E. cbn [snd after ctxDone]. apply orb_false_r.
Qed.

End StartExtras.

Section StartExtrasExamples.
Import Vulcand Examples.

Lemma Start_leases_only_server_witness :
  mkPut "/vulcand/backends/app/servers/10.0.0.1_8080"
        "{URL: http://10.0.0.1:8080}" [WithLease 7%Z]
  = @serverPut exampleCodec exampleRegistry.
Proof.
  apply (@Start_leases_only_server okClient exampleCodec exampleRegistry
           freshRuntime _ None).
  - vm_compute. right; left. reflexivity.
  - reflexivity.
Defined.

Lemma Start_keys_under_chroot_witness :
  prefix "/vulcand" (putKey (@serverPut exampleCodec exampleRegistry)) = true.
Proof.
  apply (@Start_keys_under_chroot okClient exampleCodec exampleRegistry
           freshRuntime (@serverPut exampleCodec exampleRegistry) None).
  vm_compute. right; left. reflexivity.
Defined.

Lemma Start_registers_no_frontend_witness :
  callsOptions okClient
  /\ ctxDone (snd (@Start okClient exampleCodec exampleRegistry freshRuntime))
     = false.
Proof.
  split; [exact okClient_callsOptions |].
  apply (proj2 (proj2 (@Start_registers_no_frontend okClient exampleCodec
                         exampleRegistry freshRuntime okClient_callsOptions))).
Defined.

End StartExtrasExamples.

(** ** [vulcand/registry.go]: [Stop] and the goroutines *)

Section StopExtras.
Import Vulcand.

Lemma nth_error_middle {A : Type} (pre : list A) (x : A) (post : list A) :
  nth_error (pre ++ x :: post) (List.length pre) = Some x.
Proof. induction pre as [|a pre IH]; [reflexivity | exact IH]. Qed.

Lemma setNth_middle {A : Type} (pre : list A) (x y : A) (post : list A) :
  setNth (List.length pre) y (pre ++ x :: post) = (pre ++ y :: post)%list.
Proof.
  induction pre as [|a pre IH]; [reflexivity |]. cbn. now rewrite IH.
Qed.

(** Once the context is cancelled, the blocked goroutines can all take their
    step, one after the other: each issues the [Revoke] of its lease. *)
Lemma wakeAll_run :
  forall ws pre tr n rv pc,
    run (wakeAll (List.length pre) ws)
        {| rt := {| trace := tr; ctxDone := true; wg := n;
                    watchers := (pre ++ ws)%list; revokes := rv |};
           stopPc := pc |}
    = Some {| rt := {| trace := tr; ctxDone := true; wg := n;
                       watchers := (pre ++ List.map (fun _ => exited) ws)%list;
                       revokes := (rv ++ blockedLeases ws)%list |};
              stopPc := pc |}.
Proof.
  induction ws as [|[lease |] ws IH]; intros pre tr n rv pc.
  - cbn. now rewrite !app_nil_r.
  - cbn [wakeAll run step]. unfold stepWatcher.
    cbn [rt stopPc watchers ctxDone trace wg revokes].
    rewrite nth_error_middle, setNth_middle.
    replace (pre ++ exited :: ws)%list with ((pre ++ [exited]) ++ ws)%list
      by (now rewrite <- app_assoc).
    replace (S (List.length pre)) with (List.length (pre ++ [exited])%list)
      by (rewrite length_app; cbn; lia).
    rewrite IH. cbn [List.map blockedLeases]. now rewrite <- !app_assoc.
  - cbn [wakeAll].
    replace (pre ++ exited :: ws)%list with ((pre ++ [exited]) ++ ws)%list
      by (now rewrite <- app_assoc).
    replace (S (List.length pre)) with (List.length (pre ++ [exited])%list)
      by (rewrite length_app; cbn; lia).
    rewrite IH. cbn [List.map blockedLeases]. now rewrite <- !app_assoc.
Qed.

(** [Stop] to its return, then every blocked goroutine. *)
Lemma Stop_then_wakeAll (w : Runtime) :
  wg w = 0 ->
  run (evStop :: evStop :: wakeAll 0 (watchers w)) (callStop w)
  = Some {| rt := {| trace := trace w; ctxDone := true; wg := wg w;
                     watchers := List.map (fun _ => exited) (watchers w);
                     revokes := (revokes w ++ blockedLeases (watchers w))%list |};
            stopPc := stopReturned |}.
Proof.
  intros Hwg.
  cbn [run step]. unfold stepStop, callStop, cancelFunc.
  cbn [stopPc rt snd wg]. rewrite Hwg. cbn [Nat.eqb].
  apply (wakeAll_run (watchers w) [] (trace w) 0 (revokes w) stopReturned).
Qed.

(** X13.  When [Stop] is called with the wait group at zero and every
    blocked goroutine is then scheduled once, [Stop] has returned, every
    goroutine has returned, and one [Revoke] has been issued per blocked
    goroutine, for its lease and in the order the goroutines were started;
    no write is issued. *)
Theorem Stop_revokes_every_lease :
  forall (w : Runtime),
    wg w = 0 ->
    exists s,
      run (evStop :: evStop :: wakeAll 0 (watchers w)) (callStop w) = Some s
      /\ stopPc s = stopReturned
      /\ revokes (rt s) = (revokes w ++ blockedLeases (watchers w))%list
      /\ Forall (fun g => g = exited) (watchers (rt s))
      /\ trace (rt s) = trace w.
Proof.
  intros w Hwg. eexists. split; [apply (Stop_then_wakeAll w Hwg) |].
  cbn [stopPc rt revokes watchers trace]. repeat split.
  apply Forall_map, Forall_forall. reflexivity.
Qed.

Lemma step_ctxDone (e : Event) (s s' : Sys) :
  step e s = Some s' -> ctxDone (rt s) = true -> ctxDone (rt s') = true.
Proof.
  destruct e as [|n]; cbn [step]; unfold stepStop, stepWatcher.
  - destruct (stopPc s); [| destruct (Nat.eqb _ _) |]; intros E; inversion E; subst;
      cbn; auto.
  - destruct (nth_error _ _) as [[lease |] |]; try discriminate.
    destruct (ctxDone (rt s)); [| discriminate].
    intros E; inversion E; subst; cbn; auto.
Qed.

Lemma run_ctxDone (sched : list Event) :
  forall s s', run sched s = Some s' ->
               ctxDone (rt s) = true -> ctxDone (rt s') = true.
Proof.
  induction sched as [|e rest IH]; intros s s' E D; cbn [run] in E.
  - now injection E as <-.
  - destruct (step e s) as [s1 |] eqn:St; [| discriminate].
    apply (IH _ _ E). exact (step_ctxDone _ _ _ St D).
Qed.

Lemma step_live (e : Event) (s s' : Sys) :
  step e s = Some s' -> ctxDone (rt s') = false -> rt s' = rt s.
Proof.
  destruct e as [|n]; cbn [step]; unfold stepStop, stepWatcher.
  - destruct (stopPc s); [| destruct (Nat.eqb _ _) |]; intros E; inversion E; subst;
      cbn; try reflexivity. discriminate.
  - destruct (nth_error _ _) as [[lease |] |]; try discriminate.
    destruct (ctxDone (rt s)) eqn:D; [| discriminate].
    intros E; inversion E; subst; cbn. congruence.
Qed.

(** X14.  No [Revoke] is issued while the context is live: in every
    schedule of the caller of [Stop] and the goroutines, a state whose
    context is not cancelled has the runtime the schedule started from. *)
Theorem no_revoke_before_cancel :
  forall (sched : list Event) (s s' : Sys),
    run sched s = Some s' ->
    ctxDone (rt s') = false ->
    rt s' = rt s.
Proof.
  induction sched as [|e rest IH]; intros s s' E D; cbn [run] in E.
  - now injection E as <-.
  - destruct (step e s) as [s1 |] eqn:St; [| discriminate].
    rewrite (IH _ _ E D). apply (step_live _ _ _ St).
    destruct (ctxDone (rt s1)) eqn:D1; [| reflexivity].
    rewrite (run_ctxDone _ _ _ E D1) in D. discriminate.
Qed.

Lemma blockedLeases_setNth (ws : list watcher) :
  forall n lease,
    nth_error ws n = Some (blocked lease) ->
    Permutation (blockedLeases ws) (lease :: blockedLeases (setNth n exited ws)).
Proof.
  induction ws as [|g ws IH]; intros [|n] lease N; cbn in N; try discriminate.
  - injection N as ->. reflexivity.
  - destruct g as [l |]; cbn [setNth blockedLeases].
    + rewrite (IH _ _ N). apply perm_swap.
    + now apply IH.
Qed.

Lemma step_conserves (e : Event) (s s' : Sys) :
  step e s = Some s' ->
  Permutation (revokes (rt s') ++ blockedLeases (watchers (rt s')))
              (revokes (rt s) ++ blockedLeases (watchers (rt s)))
  /\ trace (rt s') = trace (rt s) /\ wg (rt s') = wg (rt s).
Proof.
  destruct e as [|n]; cbn [step]; unfold stepStop, stepWatcher.
  - destruct (stopPc s); [| destruct (Nat.eqb _ _) |]; intros E; inversion E; subst;
      cbn; auto.
  - destruct (nth_error _ _) as [[lease |] |] eqn:N; try discriminate.
    destruct (ctxDone (rt s)); [| discriminate].
    intros E; inversion E; subst; cbn. repeat split.
    rewrite <- app_assoc. apply Permutation_app_head. cbn.
    symmetry. now apply blockedLeases_setNth.
Qed.

(** X15.  In every schedule the [Revoke] calls issued and the leases of the
    goroutines still blocked are, together, what they were at the start:
    each goroutine revokes its lease at most once and nothing else is
    revoked.  Neither [Stop] nor a goroutine issues a write or touches the
    wait group. *)
Theorem revokes_conserved :
  forall (sched : list Event) (s s' : Sys),
    run sched s = Some s' ->
    Permutation (revokes (rt s') ++ blockedLeases (watchers (rt s')))
                (revokes (rt s) ++ blockedLeases (watchers (rt s)))
    /\ trace (rt s') = trace (rt s) /\ wg (rt s') = wg (rt s).
Proof.
  induction sched as [|e rest IH]; intros s s' E; cbn [run] in E.
  - injection E as <-. auto.
  - destruct (step e s) as [s1 |] eqn:St; [| discriminate].
    destruct (IH _ _ E) as (P1 & T1 & W1).
    destruct (step_conserves _ _ _ St) as (P2 & T2 & W2).
    repeat split; [now rewrite P1 | congruence | congruence].
Qed.

(** X16.  A second [Stop] changes nothing: with the wait group at zero,
    [Stop] returns in its two steps, and calling it again on the runtime it
    left returns in two steps with the runtime unchanged. *)
Theorem Stop_twice :
  forall (w : Runtime),
    wg w = 0 ->
    exists s1 s2,
      run [evStop; evStop] (callStop w) = Some s1
      /\ stopPc s1 = stopReturned
      /\ run [evStop; evStop] (callStop (rt s1)) = Some s2
      /\ stopPc s2 = stopReturned
      /\ rt s2 = rt s1.
Proof.
  intros w Hwg. do 2 eexists.
  cbn [run step]. unfold stepStop, callStop, cancelFunc.
  cbn [stopPc rt snd wg]. rewrite Hwg. cbn [Nat.eqb]. repeat split.
Qed.

End StopExtras.

(** ** [vulcand/registry.go]: how [NewRegistry], [AddFrontend], [Start] and
    [Stop] compose *)

Section CompositionExtras.
Import Vulcand.
Context {client : EtcdClient} {codec : SpecCodec}.

(** The registration of frontends reads nothing of the registry but its
    configuration. *)
Lemma registerMiddlewares_cfg (r r' : Registry) (fes : frontendSpec) :
  cfg r' = cfg r ->
  forall mws i w,
    registerMiddlewares r' fes i mws w = registerMiddlewares r fes i mws w.
Proof.
  intros C. induction mws as [|mw rest IH]; intros i w; [reflexivity |].
  cbn [registerMiddlewares]. rewrite C.
  destruct (jsonMarshal (withPriority mw i)) as [err | v]; [reflexivity |].
  unfold bind.
  destruct (Put _ _ _ w) as [[[e |] |] w1]; [reflexivity | apply IH | reflexivity].
Qed.

Lemma registerFrontends_cfg (r r' : Registry) :
  cfg r' = cfg r ->
  forall fess w, registerFrontends r' fess w = registerFrontends r fess w.
Proof.
  intros C. induction fess as [|fes rest IH]; intros w; [reflexivity |].
  cbn [registerFrontends]. unfold bind, registerFrontend, bind. rewrite C.
  destruct (Put _ _ _ w) as [[[e |] |] w1]; [reflexivity | | reflexivity].
  rewrite (registerMiddlewares_cfg r r' fes C).
  destruct (registerMiddlewares r fes 0 _ w1) as [[[e |] |] w2];
    [reflexivity | apply IH | reflexivity].
Qed.

Lemma registerFrontends_app (r : Registry) :
  forall a b w,
    registerFrontends r (a ++ b) w
    = (let (res, w1) := registerFrontends r a w in
       match res with
       | Returns None => registerFrontends r b w1
       | _ => (res, w1)
       end).
Proof.
  induction a as [|fes a IH]; intros b w; [reflexivity |].
  cbn [List.app registerFrontends]. unfold bind.
  destruct (registerFrontend r fes w) as [[[e |] |] w1].
  - rewrite cancelFunc_run. reflexivity.
  - apply IH.
  - reflexivity.
Qed.

(** X17.  Adding a frontend only appends to what [Start] does: [Start] on
    the registry with one more frontend is [Start] on the registry as it
    was, with the same error (or panic) and the same runtime when that
    fails, followed when it succeeds by the registration of the new frontend
    alone. *)
Theorem Start_after_AddFrontend :
  forall (r : Registry) (host path : string) (methods : list string)
         (middlewares : list Middleware) (w : Runtime),
    Start (AddFrontend r host path methods middlewares) w
    = (let (res, w1) := Start r w in
       match res with
       | Returns None =>
           registerFrontends r
             [newFrontendSpec (AppName (backendSpecOf r)) host path methods
                              middlewares] w1
       | _ => (res, w1)
       end).
Proof.
  intros r host path methods middlewares w. unfold Start, bind.
  change (registerBackend (AddFrontend r host path methods middlewares)
                          (backendSpecOf (AddFrontend r host path methods middlewares)))
    with (registerBackend r (backendSpecOf r)).
  destruct (registerBackend r (backendSpecOf r) w) as [[[e |] |] w1];
    [reflexivity | | reflexivity].
  cbn [AddFrontend cfg backendSpecOf leaseID frontendSpecs].
  destruct (Put _ _ _ w1) as [[[e |] |] w2]; [reflexivity | | reflexivity].
  rewrite goWatcher_run.
  match goal with
  | |- context [registerFrontends ?r' (_ ++ _)%list _] =>
      rewrite (registerFrontends_cfg r r' eq_refl)
  end.
  rewrite registerFrontends_app.
  destruct (registerFrontends r (frontendSpecs r) _) as [[[e |] |] w4]; reflexivity.
Qed.

Lemma blockedLeases_app (a b : list watcher) :
  blockedLeases (a ++ b) = (blockedLeases a ++ blockedLeases b)%list.
Proof.
  induction a as [|[l |] a IH]; cbn; [reflexivity | now rewrite IH | exact IH].
Qed.

Lemma Start_success_watcher (r : Registry) (w w' : Runtime) :
  Start r w = (Returns None, w') ->
  watchers w' = (watchers w ++ [blocked (leaseID r)])%list
  /\ revokes w' = revokes w /\ wg w' = wg w.
Proof.
  intros E.
  destruct (Start_outcome r w) as (res & new & c & st & E' & Cases).
  rewrite E in E'. injection E' as <- ->.
  destruct Cases as [(e' & D & _)
                    | [(e' & D & _)
                      | [(e' & D & _)
                        | [(reqss & _ & _ & _ & -> & _)
                          | [(mid & err & D & _)
                            | [(mid & req' & e' & msg & fes & If & D & _)
                              | (pre & D & _)]]]]]];
    try discriminate D.
  now repeat split.
Qed.

(** X18.  [Start] called twice with success starts two goroutines on the
    one lease; when [Stop] is then called and the goroutines are scheduled,
    the lease is revoked twice. *)
Theorem Start_twice_revokes_twice :
  forall (r : Registry) (w w1 w2 : Runtime),
    wg w = 0 ->
    Start r w = (Returns None, w1) ->
    Start r w1 = (Returns None, w2) ->
    watchers w2
    = (watchers w ++ [blocked (leaseID r); blocked (leaseID r)])%list
    /\ exists s,
        run (evStop :: evStop :: wakeAll 0 (watchers w2)) (callStop w2) = Some s
        /\ stopPc s = stopReturned
        /\ revokes (rt s)
           = (revokes w ++ blockedLeases (watchers w)
                ++ [leaseID r; leaseID r])%list.
Proof.
  intros r w w1 w2 Hwg E1 E2.
  destruct (Start_success_watcher _ _ _ E1) as (W1 & R1 & G1).
  destruct (Start_success_watcher _ _ _ E2) as (W2 & R2 & G2).
  assert (W : watchers w2
              = (watchers w ++ [blocked (leaseID r); blocked (leaseID r)])%list)
    by (rewrite W2, W1, <- app_assoc; reflexivity).
  split; [exact W |].
  eexists. split; [apply Stop_then_wakeAll; congruence |].
  cbn [stopPc rt revokes]. split; [reflexivity |].
  rewrite W, blockedLeases_app, R2, R1. reflexivity.
Qed.

(** X19.  The lease of a registry is requested for the whole seconds of the
    effective TTL, which is positive: 30 seconds when the configured TTL is
    not positive, and 0 seconds when it is positive and under one second. *)
Theorem NewRegistry_lease_seconds :
  forall (c : Config) (appName ip : string) (port : Z) (r : Registry),
    NewRegistry c appName ip port = inr r ->
    (0 < TTL (cfg r))%Z
    /\ (0 <= wholeSeconds (TTL (cfg r)))%Z
    /\ ((TTL c <= 0)%Z -> etcdGrant 30%Z = inr (leaseID r))
    /\ ((0 < TTL c < Second)%Z -> etcdGrant 0%Z = inr (leaseID r)).
Proof.
  intros c appName ip port r E. unfold NewRegistry in E.
  destruct (newBackendSpec appName ip port) as [err | bes]; [discriminate |].
  destruct (etcdNew _) as [err |]; [discriminate |].
  destruct (etcdGrant _) as [err | respID] eqn:G; [discriminate |].
  destruct (etcdKeepAlive respID) as [err |]; [discriminate |].
  injection E as <-. cbn [cfg TTL leaseID] in *.
  pose proof wholeSeconds_default as S30.
  assert (Dpos : (0 < defaultRegistrationTTL)%Z) by reflexivity.
  destruct (Z.leb_spec (TTL c) 0) as [Hle | Hgt].
  - rewrite S30 in *. split; [exact Dpos |]. split; [discriminate |].
    split; [intros _; exact G |]. intros [H _].
    exfalso. apply (Z.lt_irrefl 0). now apply (Z.lt_le_trans _ (TTL c)).
  - split; [exact Hgt |]. split; [now apply wholeSeconds_nonneg |].
    split.
    + intros H. exfalso. apply (Z.lt_irrefl 0).
      now apply (Z.lt_le_trans _ (TTL c)).
    + intros H. now rewrite (wholeSeconds_under_a_second _ H) in G.
Qed.

(** X31.  For a positive TTL under 2^24 seconds (some 194 days) the lease
    is requested for the whole seconds of the TTL, the fraction being
    dropped.  Beyond, the [float64] that [Seconds] returns may be the next
    whole number: for the TTL of 16777216.999999999 seconds the lease is
    requested for 16777217 seconds. *)
Theorem NewRegistry_lease_whole_seconds :
  forall (c : Config) (appName ip : string) (port : Z) (r : Registry),
    NewRegistry c appName ip port = inr r ->
    ((0 < TTL c < 2 ^ 24 * Second)%Z ->
     etcdGrant (TTL c / Second)%Z = inr (leaseID r))
    /\ (TTL c = 16777216999999999%Z ->
        etcdGrant 16777217%Z = inr (leaseID r)).
Proof.
  intros c appName ip port r E. unfold NewRegistry in E.
  destruct (newBackendSpec appName ip port) as [err | bes]; [discriminate |].
  destruct (etcdNew _) as [err |]; [discriminate |].
  destruct (etcdGrant _) as [err | respID] eqn:G; [discriminate |].
  destruct (etcdKeepAlive respID) as [err |]; [discriminate |].
  injection E as <-. cbn [cfg TTL leaseID] in *.
  split.
  - intros [H1 H2].
    assert (L : (TTL c <=? 0)%Z = false) by (now apply Z.leb_gt).
    rewrite L in G. rewrite wholeSeconds_exact in G; [exact G |].
    split; [now apply Z.lt_le_incl | exact H2].
  - intros H. rewrite H in G. cbn [Z.leb Z.compare] in G.
    now rewrite (proj2 wholeSeconds_rounds_up) in G.
Qed.

(** X20.  On a registry as [NewRegistry] returns it, without frontend, a
    successful [Start] issues three writes and no other: the backend-type
    key without lease, then the server key under the lease twice. *)
Theorem Start_on_new_registry :
  forall (c : Config) (appName ip : string) (port : Z) (r : Registry)
         (w w' : Runtime),
    NewRegistry c appName ip port = inr r ->
    Start r w = (Returns None, w') ->
    newPuts w w' = ok [backendTypePut r; serverPut r; serverPut r].
Proof.
  intros c appName ip port r w w' N E.
  assert (F0 : frontendSpecs r = []).
  { unfold NewRegistry in N.
    destruct (newBackendSpec appName ip port) as [err | bes]; [discriminate |].
    destruct (etcdNew _) as [err |]; [discriminate |].
    destruct (etcdGrant _) as [err | respID]; [discriminate |].
    destruct (etcdKeepAlive respID) as [err |]; [discriminate |].
    now injection N as <-. }
  destruct (Start_outcome r w) as (res & new & c0 & st & E' & Cases).
  rewrite E in E'. injection E' as <- ->.
  destruct Cases as [(e' & D & _)
                    | [(e' & D & _)
                      | [(e' & D & _)
                        | [(reqss & _ & -> & _ & _ & F)
                          | [(mid & err & D & _)
                            | [(mid & req' & e' & msg & fes & If & D & _)
                              | (pre & D & _)]]]]]];
    try discriminate D.
  rewrite F0 in F. inversion F; subst. now rewrite newPuts_after.
Qed.

End CompositionExtras.

Section CompositionExamples.
Import Vulcand Examples.

Lemma Stop_revokes_every_lease_witness :
  exists s,
    run [evStop; evStop; evWatcher 0]
        (callStop (snd (@Start okClient exampleCodec bareRegistry freshRuntime)))
    = Some s
    /\ stopPc s = stopReturned
    /\ revokes (rt s) = [7%Z]
    /\ watchers (rt s) = [exited].
Proof.
  destruct (Stop_revokes_every_lease
              (snd (@Start okClient exampleCodec bareRegistry freshRuntime))
              eq_refl)
    as (s & R & P & Rv & _ & _).
  exists s. split; [exact R | split; [exact P | split; [exact Rv |]]].
  apply (f_equal (fun x => match x with Some s => watchers (rt s) | None => [] end))
    in R.
  symmetry. exact R.
Defined.

Lemma no_revoke_before_cancel_witness :
  rt {| rt := snd (@Start okClient exampleCodec bareRegistry freshRuntime);
        stopPc := stopReturned |}
  = rt {| rt := snd (@Start okClient exampleCodec bareRegistry freshRuntime);
          stopPc := atWait |}.
Proof.
  apply (no_revoke_before_cancel [evStop]); reflexivity.
Defined.

Lemma revokes_conserved_witness :
  exists s,
    run [evStop; evWatcher 0; evStop]
        (callStop (snd (@Start okClient exampleCodec bareRegistry freshRuntime)))
    = Some s
    /\ Permutation (revokes (rt s) ++ blockedLeases (watchers (rt s))) [7%Z].
Proof.
  eexists. split; [reflexivity |].
  refine (proj1 (revokes_conserved [evStop; evWatcher 0; evStop]
                   (callStop (snd (@Start okClient exampleCodec bareRegistry
                                          freshRuntime))) _ eq_refl)).
Defined.

Lemma Stop_twice_witness :
  exists s1 s2,
    run [evStop; evStop] (callStop freshRuntime) = Some s1
    /\ run [evStop; evStop] (callStop (rt s1)) = Some s2
    /\ rt s2 = rt s1.
Proof.
  destruct (Stop_twice freshRuntime eq_refl) as (s1 & s2 & R1 & _ & R2 & _ & E).
  exists s1, s2. repeat split; assumption.
Defined.

Lemma Start_twice_revokes_twice_witness :
  exists s,
    run [evStop; evStop; evWatcher 0; evWatcher 1]
        (callStop
           (snd (@Start okClient exampleCodec bareRegistry
                        (snd (@Start okClient exampleCodec bareRegistry
                                     freshRuntime)))))
    = Some s
    /\ revokes (rt s) = [7%Z; 7%Z].
Proof.
  assert (H1 : @Start okClient exampleCodec bareRegistry freshRuntime
               = (Returns None, snd (@Start okClient exampleCodec bareRegistry
                                            freshRuntime)))
    by (vm_compute; reflexivity).
  assert (H2 : @Start okClient exampleCodec bareRegistry
                      (snd (@Start okClient exampleCodec bareRegistry freshRuntime))
               = (Returns None,
                  snd (@Start okClient exampleCodec bareRegistry
                              (snd (@Start okClient exampleCodec bareRegistry
                                           freshRuntime)))))
    by (vm_compute; reflexivity).
  destruct (@Start_twice_revokes_twice okClient exampleCodec bareRegistry
              freshRuntime _ _ eq_refl H1 H2)
    as (W & s & R & _ & Rv).
  exists s. split; [| exact Rv].
  rewrite <- R. vm_compute. reflexivity.
Defined.

Lemma NewRegistry_lease_seconds_witness :
  exists r,
    @NewRegistry okClient exampleCodec halfSecondConfig "app" "10.0.0.1" 8080 = inr r
    /\ TTL (cfg r) = 500000000%Z
    /\ @etcdGrant okClient 0%Z = inr (leaseID r).
Proof.
  eexists. split; [reflexivity |]. split; [reflexivity |].
  refine (proj2 (proj2 (proj2 (@NewRegistry_lease_seconds okClient exampleCodec
                                 halfSecondConfig "app" "10.0.0.1" 8080%Z _
                                 eq_refl))) _).
  split; reflexivity.
Defined.

Lemma NewRegistry_lease_whole_seconds_witness :
  exists r,
    @NewRegistry echoClient exampleCodec ninetySecondsConfig "app" "10.0.0.1" 8080
    = inr r
    /\ @etcdGrant echoClient 90%Z = inr (leaseID r).
Proof.
  assert (W : wholeSeconds 90500000000 = 90%Z).
  { rewrite wholeSeconds_exact; [reflexivity | split; [discriminate | reflexivity]]. }
  exists {| cfg := {| Etcd := Some {| Endpoints := [localEtcdProxy];
                                      Username := EmptyString;
                                      Password := EmptyString |};
                      Chroot := "/vulcand"; TTL := 90500000000%Z |};
            backendSpecOf := exampleBackend; frontendSpecs := []; leaseID := 90%Z |}.
  assert (E : @NewRegistry echoClient exampleCodec ninetySecondsConfig
                           "app" "10.0.0.1" 8080
              = inr {| cfg := {| Etcd := Some {| Endpoints := [localEtcdProxy];
                                                 Username := EmptyString;
                                                 Password := EmptyString |};
                                 Chroot := "/vulcand"; TTL := 90500000000%Z |};
                       backendSpecOf := exampleBackend; frontendSpecs := [];
                       leaseID := 90%Z |}).
  { unfold NewRegistry, ninetySecondsConfig.
    cbn [newBackendSpec exampleCodec TTL Etcd Chroot Z.leb Z.compare etcdNew
         etcdGrant etcdKeepAlive echoClient cfg].
    rewrite W. reflexivity. }
  split; [exact E |].
  exact (proj1 (@NewRegistry_lease_whole_seconds echoClient exampleCodec
                  ninetySecondsConfig "app" "10.0.0.1" 8080%Z _ E)
               (conj eq_refl eq_refl)).
Defined.

Lemma Start_on_new_registry_witness :
  exists r,
    @NewRegistry okClient exampleCodec unsetConfig "app" "10.0.0.1" 8080 = inr r
    /\ newPuts freshRuntime (snd (@Start okClient exampleCodec r freshRuntime))
       = ok [@backendTypePut exampleCodec r; @serverPut exampleCodec r;
             @serverPut exampleCodec r].
Proof.
  eexists. split; [reflexivity |].
  apply (@Start_on_new_registry okClient exampleCodec unsetConfig
           "app" "10.0.0.1" 8080%Z _ freshRuntime _ eq_refl).
  reflexivity.
Defined.

End CompositionExamples.

(** ** The single-master registry: roles and handlers *)

Section SingleMasterExtras.
Import SingleMaster.
Context {client : Client} {codec : EndpointCodec} {lcodec : LocationCodec}.

Lemma call_run (c : ClientCall) (s : SingleMasterRegistry) :
  call c s = (clientCall (List.length (issued s)) c,
              withCalls s [(c, clientCall (List.length (issued s)) c)]).
Proof. reflexivity. Qed.

Lemma withCalls_nil (s : SingleMasterRegistry) : withCalls s [] = s.
Proof. destruct s; unfold withCalls; cbn. now rewrite app_nil_r. Qed.

Lemma withCalls_withCalls (s : SingleMasterRegistry) a b :
  withCalls (withCalls s a) b = withCalls s (a ++ b)%list.
Proof. unfold withCalls; cbn. now rewrite <- app_assoc. Qed.

Lemma registerServer_step (endpoint : Endpoint) (s : SingleMasterRegistry)
      (server : string) :
  ServerSpec endpoint = inr server ->
  let c := serverCall (IsMaster s)
                      (Sprintf serverKey [Key s; epName endpoint; epID endpoint])
                      server (TTL s) in
  let o := clientCall (List.length (issued s)) c in
  registerServer endpoint s
  = (o, inRole (withCalls s [(c, o)]) (match o with Some _ => false | None => true end)).
Proof.
  intros Sp. unfold registerServer, maintainMasterRole, assumeMasterRole.
  rewrite Sp. destruct s as [k t [] i]; cbn [IsMaster serverCall];
    rewrite call_run; destruct (clientCall _ _) as [e |]; reflexivity.
Qed.

Lemma RegisterApp_step (registration : AppRegistration) (s : SingleMasterRegistry)
      (endpoint : Endpoint) (backend : string) :
  NewEndpointWithID masterNodeID (Name registration) (Host registration)
                    (Port registration) = inr endpoint ->
  BackendSpec endpoint = inr backend ->
  let set := clientSet (Sprintf backendKey [Key s; epName endpoint]) backend 0 in
  match clientCall (List.length (issued s)) set with
  | Some e => RegisterApp registration s = (Some e, withCalls s [(set, Some e)])
  | None =>
      RegisterApp registration s
      = registerServer endpoint (withCalls s [(set, None)])
  end.
Proof.
  intros En Bs set.
  unfold RegisterApp, registerBackend. rewrite En, Bs, call_run. fold set.
  destruct (clientCall _ set) as [e |]; [reflexivity |].
  destruct (registerServer endpoint _) as [[e |] s2]; reflexivity.
Qed.

(** X21.  When the server spec can be built, [registerServer] issues exactly
    one call, a [CompareAndSwap] of the server key against its own value if
    the registry is master and a [Create] if it is not, with the TTL of the
    registry; it returns the error of that call, and afterwards the registry
    is master exactly when the call succeeded. *)
Theorem registerServer_role :
  forall (endpoint : Endpoint) (s s' : SingleMasterRegistry)
         (server : string) (res : option error),
    ServerSpec endpoint = inr server ->
    registerServer endpoint s = (res, s') ->
    issued s'
    = (issued s
         ++ [(serverCall (IsMaster s)
                         (Sprintf serverKey [Key s; epName endpoint; epID endpoint])
                         server (TTL s), res)])%list
    /\ (IsMaster s' = true <-> res = None)
    /\ Key s' = Key s /\ TTL s' = TTL s.
Proof.
  intros endpoint s s' server res Sp E.
  rewrite (registerServer_step endpoint s server Sp) in E.
  injection E as <- <-. cbn [issued inRole withCalls IsMaster Key TTL].
  split; [reflexivity |]. split; [| now split].
  destruct (clientCall _ _); split; intros; congruence.
Qed.

(** X22.  When the endpoint and the backend spec can be built,
    [RegisterApp] issues at most two calls, the first of which sets the
    backend key without expiry.  If that call fails, [RegisterApp] returns
    its error, issues nothing else and leaves the role as it was.  A second
    call, if there is one, is the server call of the role the registry was
    in, with the TTL of the registry, and its outcome is what [RegisterApp]
    returns. *)
Theorem RegisterApp_calls :
  forall (registration : AppRegistration) (s s' : SingleMasterRegistry)
         (endpoint : Endpoint) (backend : string) (res : option error),
    NewEndpointWithID masterNodeID (Name registration) (Host registration)
                      (Port registration) = inr endpoint ->
    BackendSpec endpoint = inr backend ->
    RegisterApp registration s = (res, s') ->
    exists o rest,
      issued s'
      = (issued s
           ++ (clientSet (Sprintf backendKey [Key s; epName endpoint]) backend 0, o)
           :: rest)%list
      /\ List.length rest <= 1
      /\ (forall e, o = Some e ->
                    rest = [] /\ res = Some e /\ IsMaster s' = IsMaster s)
      /\ (forall c o', In (c, o') rest ->
                       exists server,
                         ServerSpec endpoint = inr server
                         /\ c = serverCall (IsMaster s)
                                           (Sprintf serverKey
                                                    [Key s; epName endpoint;
                                                     epID endpoint])
                                           server (TTL s)
                         /\ res = o').
Proof.
  intros registration s s' endpoint backend res En Bs E.
  pose proof (RegisterApp_step registration s endpoint backend En Bs) as R.
  cbn zeta in R.
  destruct (clientCall (List.length (issued s)) _) as [e |].
  - rewrite R in E. injection E as <- <-. exists (Some e), [].
    cbn [withCalls issued IsMaster List.length].
    split; [reflexivity | split; [lia | split]].
    + intros e' [= <-]. now repeat split.
    + intros c o' [].
  - rewrite R in E. destruct (ServerSpec endpoint) as [err | server] eqn:Sp.
    + unfold registerServer, maintainMasterRole, assumeMasterRole in E.
      rewrite Sp in E.
      assert (E' : (None, withCalls s
                            [(clientSet (Sprintf backendKey [Key s; epName endpoint])
                                        backend 0, None)]) = (res, s'))
        by (destruct (IsMaster (withCalls s _)); exact E).
      injection E' as <- <-. exists None, [].
      cbn [withCalls issued List.length].
      split; [reflexivity | split; [lia | split]].
      * intros e [=].
      * intros c o' [].
    + rewrite (registerServer_step endpoint _ server Sp) in E.
      injection E as <- <-. eexists None, [_].
      cbn [inRole withCalls issued IsMaster Key TTL List.length].
      split; [now rewrite <- app_assoc | split; [lia | split]].
      * intros e [=].
      * intros c o' [[= <- <-] | []]. exists server. now repeat split.
Qed.

(** X23.  Two registrations in a row.  When the [RegisterApp] of a registry
    that is not master succeeds, it has set the backend key and created the
    server key, and the registry is master.  The next [RegisterApp] sets the
    backend key again and, unless that fails, issues a [CompareAndSwap] of
    the server key and no [Create]; the registry stays master unless the
    [CompareAndSwap] fails. *)
Theorem RegisterApp_heartbeat :
  forall (registration : AppRegistration) (s s1 s2 : SingleMasterRegistry)
         (endpoint : Endpoint) (backend server : string) (res : option error),
    NewEndpointWithID masterNodeID (Name registration) (Host registration)
                      (Port registration) = inr endpoint ->
    BackendSpec endpoint = inr backend ->
    ServerSpec endpoint = inr server ->
    IsMaster s = false ->
    RegisterApp registration s = (None, s1) ->
    RegisterApp registration s1 = (res, s2) ->
    let set := clientSet (Sprintf backendKey [Key s; epName endpoint]) backend 0 in
    let skey := Sprintf serverKey [Key s; epName endpoint; epID endpoint] in
    issued s1
    = (issued s ++ [(set, None); (clientCreate skey server (TTL s), None)])%list
    /\ IsMaster s1 = true
    /\ ((exists e, res = Some e
                   /\ issued s2 = (issued s1 ++ [(set, Some e)])%list
                   /\ IsMaster s2 = true)
        \/ (issued s2
            = (issued s1
                 ++ [(set, None);
                     (clientCompareAndSwap skey server (TTL s) server 0, res)])%list
            /\ (IsMaster s2 = true <-> res = None))).
Proof.
  intros registration s s1 s2 endpoint backend server res En Bs Sp M E1 E2 set skey.
  pose proof (RegisterApp_step registration s endpoint backend En Bs) as R1.
  cbn zeta in R1. fold set in R1.
  destruct (clientCall (List.length (issued s)) set) as [e |];
    [rewrite R1 in E1; discriminate |].
  rewrite R1, (registerServer_step endpoint _ server Sp) in E1.
  cbn [withCalls Key TTL IsMaster issued] in E1. rewrite M in E1.
  cbn [serverCall] in E1. fold skey in E1.
  destruct (clientCall _ (clientCreate skey server (TTL s))) as [e |];
    [discriminate |].
  injection E1 as <-. cbn [inRole withCalls issued IsMaster].
  split; [now rewrite <- app_assoc |]. split; [reflexivity |].
  pose proof (RegisterApp_step registration
                (inRole (withCalls (withCalls s [(set, None)])
                                   [(clientCreate skey server (TTL s), None)]) true)
                endpoint backend En Bs) as R2.
  cbn zeta in R2. cbn [inRole withCalls Key issued] in R2. fold set in R2.
  destruct (clientCall _ set) as [e |].
  - rewrite R2 in E2. injection E2 as <- <-. left. exists e. repeat split.
  - rewrite R2, (registerServer_step endpoint _ server Sp) in E2.
    cbn [inRole withCalls Key TTL IsMaster issued serverCall] in E2.
    fold skey in E2.
    injection E2 as <- <-. right. cbn [inRole withCalls issued IsMaster].
    split; [now rewrite <- !app_assoc |].
    destruct (clientCall _ _); split; intros; congruence.
Qed.

Lemma registerMiddlewareFrom_calls (location : Vulcan.Location) :
  forall ms i s,
  exists new,
    snd (registerMiddlewareFrom location i ms s) = withCalls s new
    /\ Forall (fun p => isPermanentSet (fst p)) new.
Proof.
  induction ms as [|m rest IH]; intros i s; cbn [registerMiddlewareFrom].
  - exists []. now rewrite withCalls_nil.
  - destruct (marshalMiddleware (Vulcand.withPriority m i)) as [err | v].
    + exists []. now rewrite withCalls_nil.
    + rewrite call_run. destruct (clientCall _ _) as [e |].
      * eexists. split; [reflexivity |]. repeat constructor. now do 2 eexists.
      * destruct (IH (S i) (withCalls s [(clientSet
                      (Sprintf middlewareKey
                               [Key s; Vulcan.Host location; Vulcan.ID location;
                                Vulcan.mwID (Vulcand.withPriority m i)]) v 0, None)]))
          as (new & E & F).
        eexists. rewrite E, withCalls_withCalls. split; [reflexivity |].
        constructor; [now do 2 eexists | exact F].
Qed.

(** X24.  Whatever its outcome, [RegisterHandler] issues nothing but [Set]
    calls with TTL 0, so the frontend and middleware records it writes do
    not expire, and it leaves the key, the TTL and the role of the registry
    as they were. *)
Theorem RegisterHandler_permanent_sets :
  forall (registration : HandlerRegistration) (s : SingleMasterRegistry),
  exists new,
    snd (RegisterHandler registration s) = withCalls s new
    /\ Forall (fun p => isPermanentSet (fst p)) new.
Proof.
  intros registration s. unfold RegisterHandler, registerFrontend.
  destruct (LocationSpec _) as [err | fv].
  - exists []. now rewrite withCalls_nil.
  - rewrite call_run. destruct (clientCall _ _) as [e |].
    + eexists. split; [reflexivity |]. repeat constructor. now do 2 eexists.
    + unfold registerMiddleware.
      match goal with
      | |- context [registerMiddlewareFrom ?l 0 ?ms ?s1] =>
          destruct (registerMiddlewareFrom_calls l ms 0 s1) as (new & E & F);
          destruct (registerMiddlewareFrom l 0 ms s1) as [[e |] s2]
      end; cbn [snd] in E |- *; subst s2; rewrite withCalls_withCalls;
        (eexists; split; [reflexivity |]);
        (constructor; [now do 2 eexists | exact F]).
Qed.

Lemma registerMiddlewareFrom_success (location : Vulcan.Location) :
  forall ms i s s',
    registerMiddlewareFrom location i ms s = (None, s') ->
    exists calls,
      s' = withCalls s (List.map (fun c => (c, None)) calls)
      /\ middlewaresSet (Key s) location i ms calls.
Proof.
  induction ms as [|m rest IH]; intros i s s' E; cbn [registerMiddlewareFrom] in E.
  - injection E as <-. exists []. cbn. now rewrite withCalls_nil.
  - destruct (marshalMiddleware (Vulcand.withPriority m i)) as [err | v] eqn:J;
      [discriminate |].
    rewrite call_run in E.
    destruct (clientCall (List.length (issued s)) _) as [e |] eqn:C;
      [discriminate |].
    apply IH in E as (calls & -> & W). cbn [withCalls Key] in W.
    eexists (_ :: calls). rewrite withCalls_withCalls. split; [reflexivity |].
    cbn [middlewaresSet]. split; [| exact W]. exists v. now split.
Qed.

(** X25.  A [RegisterHandler] that returns nil has issued, all with
    success, the [Set] of the frontend key of the location it builds, then
    one [Set] per middleware, in order, each middleware marshalled with
    [Priority] set to its index in the list. *)
Theorem RegisterHandler_success :
  forall (registration : HandlerRegistration) (s s' : SingleMasterRegistry),
    RegisterHandler registration s = (None, s') ->
    let location :=
      Vulcan.NewLocation (hrHost registration) (hrMethods registration)
                         (hrPath registration) (hrName registration)
                         (hrMiddlewares registration) in
    exists frontend calls,
      LocationSpec location = inr frontend
      /\ issued s'
         = (issued s
              ++ (clientSet (Sprintf frontendKey
                                     [Key s; Vulcan.Host location; Vulcan.ID location])
                            frontend 0, None)
              :: List.map (fun c => (c, None)) calls)%list
      /\ List.length calls = List.length (hrMiddlewares registration)
      /\ middlewaresSet (Key s) location 0 (hrMiddlewares registration) calls.
Proof.
  intros registration s s' E location.
  unfold RegisterHandler in E. fold location in E. unfold registerFrontend in E.
  destruct (LocationSpec location) as [err | fv]; [discriminate |].
  rewrite call_run in E. destruct (clientCall _ _) as [e |]; [discriminate |].
  unfold registerMiddleware in E.
  match type of E with
  | context [registerMiddlewareFrom ?l 0 ?ms ?s1] =>
      destruct (registerMiddlewareFrom l 0 ms s1) as [[e |] s2] eqn:R;
      [discriminate |]
  end.
  injection E as <-.
  apply registerMiddlewareFrom_success in R as (calls & -> & W).
  cbn [withCalls Key issued] in *.
  exists fv, calls. split; [reflexivity |]. split; [now rewrite <- app_assoc |].
  split; [| exact W].
  clear -W. cbn [Vulcan.Middlewares location Vulcan.NewLocation] in W.
  revert W. generalize 0 as i. generalize (hrMiddlewares registration) as ms.
  clear. intros ms. revert calls.
  induction ms as [|m ms IH]; intros [|c calls] i W; cbn in W; try contradiction;
    [reflexivity |].
  destruct W as [_ W]. cbn. f_equal. exact (IH _ _ W).
Qed.

End SingleMasterExtras.

Section SingleMasterExtrasExamples.
Import SingleMaster Examples.

Lemma registerServer_role_witness :
  IsMaster (snd (@registerServer slaveClient okEndpointCodec exampleEndpoint
                                 exampleSingleMaster)) = true
  <-> fst (@registerServer slaveClient okEndpointCodec exampleEndpoint
                           exampleSingleMaster) = None.
Proof.
  refine (proj1 (proj2 (@registerServer_role slaveClient okEndpointCodec
                          exampleEndpoint exampleSingleMaster _ _ _ eq_refl
                          (surjective_pairing _)))).
Defined.

Lemma RegisterApp_calls_witness :
  exists o rest,
    issued (snd (@RegisterApp slaveClient okEndpointCodec exampleApp
                              exampleSingleMaster))
    = ([] ++ (clientSet "/vulcand/backends/app/backend" "{Type: http}" 0, o)
          :: rest)%list
    /\ List.length rest <= 1.
Proof.
  destruct (@RegisterApp_calls slaveClient okEndpointCodec exampleApp
              exampleSingleMaster _ _ _ _ eq_refl eq_refl (surjective_pairing _))
    as (o & rest & I & L & _).
  exists o, rest. split; [exact I | exact L].
Defined.

Lemma RegisterApp_heartbeat_witness :
  exists s1 s2,
    @RegisterApp okV2Client okEndpointCodec exampleApp exampleSingleMaster
    = (None, s1)
    /\ IsMaster s1 = true
    /\ @RegisterApp okV2Client okEndpointCodec exampleApp s1 = (None, s2)
    /\ List.map fst (issued s2)
       = [clientSet "/vulcand/backends/app/backend" "{Type: http}" 0;
          clientCreate "/vulcand/backends/app/servers/master" "{URL: app}" 15;
          clientSet "/vulcand/backends/app/backend" "{Type: http}" 0;
          clientCompareAndSwap "/vulcand/backends/app/servers/master" "{URL: app}"
                               15 "{URL: app}" 0].
Proof.
  do 2 eexists. split; [reflexivity |].
  destruct (@RegisterApp_heartbeat okV2Client okEndpointCodec exampleApp
              exampleSingleMaster _ _ _ _ _ None eq_refl eq_refl eq_refl eq_refl
              eq_refl eq_refl)
    as (_ & M & _).
  split; [exact M |]. split; reflexivity.
Defined.

Lemma RegisterHandler_success_witness :
  exists (frontend : string) (calls : list ClientCall),
    @LocationSpec okLocationCodec
      (Vulcan.NewLocation "api.example.com" ["GET"; "POST"] "/resources/{id}" "app"
                          [rateLimit; auth])
    = inr frontend
    /\ List.length calls = 2.
Proof.
  destruct (@RegisterHandler_success okV2Client okEndpointCodec okLocationCodec
              exampleHandler exampleSingleMaster _ (surjective_pairing _))
    as (frontend & calls & L & _ & N & _).
  exists frontend, calls. split; [exact L | exact N].
Defined.

End SingleMasterExtrasExamples.

(** ** [handler.go] and the application *)

Section ScrollExtras.
Import Scroll.
Context {env : HttpEnv} {aenv : AppEnv}.

Lemma unescapeQuery_cons (c : ascii) (rest : string) :
  unescapeQuery (String c rest)
  = if Ascii.eqb c "%"
    then match rest with
         | String a (String b r) =>
             String (ascii_of_nat (unhex a * 16 + unhex b)) (unescapeQuery r)
         | _ => String c (unescapeQuery rest)
         end
    else if Ascii.eqb c "+" then String " " (unescapeQuery rest)
         else String c (unescapeQuery rest).
Proof.
  destruct c as [[] [] [] [] [] [] [] []]; destruct rest as [|a [|b r]]; reflexivity.
Qed.

Lemma firstBadEscape_cons (c : ascii) (rest : string) :
  firstBadEscape (String c rest)
  = if Ascii.eqb c "%"
    then match rest with
         | String a (String b r) =>
             if ishex a && ishex b then firstBadEscape r
             else Some (String "%" (String a (String b EmptyString)))
         | _ => Some (String c rest)
         end
    else firstBadEscape rest.
Proof.
  destruct c as [[] [] [] [] [] [] [] []]; destruct rest as [|a [|b r]]; reflexivity.
Qed.

Lemma unescapeQuery_length_le :
  forall n s, String.length s <= n ->
              String.length (unescapeQuery s) <= String.length s.
Proof.
  induction n as [|n IH]; intros [|c rest] L; cbn [String.length] in L;
    try (cbn; lia).
  rewrite unescapeQuery_cons.
  destruct (Ascii.eqb c "%").
  - destruct rest as [|a [|b r]]; cbn [String.length] in *.
    + cbn. lia.
    + specialize (IH (String a EmptyString)). cbn [String.length] in IH.
      rewrite unescapeQuery_cons in *.
      assert (H := IH ltac:(lia)). lia.
    + specialize (IH r ltac:(lia)). lia.
  - destruct (Ascii.eqb c "+"); cbn [String.length];
      specialize (IH rest ltac:(lia)); lia.
Qed.

Lemma plain_param_unchanged (s : string) :
  occurs "%" s = false -> occurs "+" s = false ->
  firstBadEscape s = None /\ unescapeQuery s = s.
Proof.
  induction s as [|c rest IH]; [now split |].
  cbn [occurs]. intros O1 O2.
  apply orb_false_iff in O1 as [C1 O1]. apply orb_false_iff in O2 as [C2 O2].
  rewrite Ascii.eqb_sym in C1. rewrite Ascii.eqb_sym in C2.
  rewrite firstBadEscape_cons, unescapeQuery_cons, C1, C2.
  destruct (IH O1 O2) as [-> ->]. now split.
Qed.

Lemma mapGet_DecodeParams (src : GoMap) (key : string) :
  mapGet key (DecodeParams src)
  = option_map (fun param => match QueryUnescape param with
                             | inr encoded => encoded
                             | inl _ => param
                             end)
               (mapGet key src).
Proof.
  induction src as [|[k v] rest IH]; [reflexivity |].
  cbn [DecodeParams List.map mapGet fst snd].
  destruct (String.eqb key k); [reflexivity | exact IH].
Qed.

(** X26.  [DecodeParams] keeps every key and adds none.  The value under a
    key is never longer than the one it comes from, and it is that very
    value when one of its ['%'] is not followed by two hex digits, and also
    when it holds neither ['%'] nor ['+']. *)
Theorem DecodeParams_lookup :
  forall (src : GoMap) (key : string),
    match mapGet key src with
    | None => mapGet key (DecodeParams src) = None
    | Some param =>
        exists value,
          mapGet key (DecodeParams src) = Some value
          /\ String.length value <= String.length param
          /\ (firstBadEscape param <> None -> value = param)
          /\ (occurs "%" param = false -> occurs "+" param = false ->
              value = param)
    end.
Proof.
  intros src key. rewrite mapGet_DecodeParams.
  destruct (mapGet key src) as [param |]; [| reflexivity].
  cbn [option_map]. eexists. split; [reflexivity |].
  unfold QueryUnescape.
  destruct (firstBadEscape param) as [bad |] eqn:B.
  - repeat split; try lia.
  - split; [now apply (unescapeQuery_length_le (String.length param)) |].
    split; [intros N; now contradiction N |].
    intros O1 O2. now destruct (plain_param_unchanged param O1 O2).
Qed.

Lemma andThen_calls (effects : list Effect) (b : Run) :
  andThen (calls effects) b = ((effects ++ fst b)%list, snd b).
Proof. reflexivity. Qed.

(** [Reply] returns when the function in [LogRequest] does. *)
Lemma Reply_returns (f : LogFunc) (resp : response) (status : Z) :
  LogRequest = Some f ->
  (forall r s e, f r s e = Returns tt) ->
  exists reply, Reply resp status = (reply, Returns tt) /\ replied resp status reply.
Proof.
  intros HL Hf. unfold Reply, replied, callLogRequest. rewrite HL.
  destruct (encodeJSON resp) as [e | body].
  - rewrite Hf. eexists. split; reflexivity.
  - eexists. split; reflexivity.
Qed.

(** So does the end of a handler, after one call of the function in
    [LogRequest] and one of [TrackRequest]. *)
Lemma finish_returns (f : LogFunc) (metricName : string) (r : Request)
      (resp : response) (status : Z) (err : option error) :
  LogRequest = Some f ->
  (forall r s e, f r s e = Returns tt) ->
  exists reply,
    finish metricName r resp status err
    = ((effLogRequest (Some r) status err
          :: effTrackRequest metricName status :: reply)%list, Returns tt)
    /\ replied resp status reply.
Proof.
  intros HL Hf.
  destruct (Reply_returns f resp status HL Hf) as (reply & E & R).
  exists reply. split; [| exact R].
  unfold finish, callLogRequest. rewrite HL, Hf, E. reflexivity.
Qed.

(** X27.  When [LogRequest] holds a function that returns on every call and
    the handler function returns, the handlers made by [MakeHandler] and by
    [MakeHandlerWithBody] return.  After the calls of the handler function,
    they call the function in [LogRequest] once with the request and
    [TrackRequest] once under the metric name, both with one status, which
    is 200 when no error is logged; then comes what [Reply] does with a
    response and that status: the Content-Type header, that status and the
    marshalled response when the response can be marshalled; when it
    cannot, a second call of the function in [LogRequest], the header, the
    status 500 and the body that reports the failure.  When the form is
    parsed and the handler function returns no error, the response is the
    one of the handler function. *)
Theorem MakeHandler_effects :
  forall (f : LogFunc) (metricName : string) (r : Request),
    LogRequest = Some f ->
    (forall r s e, f r s e = Returns tt) ->
    (forall fn : HandlerFunc,
        snd (fn r (DecodeParams (pathVars r))) <> Panics ->
        exists done status err resp reply,
          MakeHandler metricName fn r
          = ((done ++ effLogRequest (Some r) status err
                :: effTrackRequest metricName status :: reply)%list, Returns tt)
          /\ (err = None -> status = 200%Z)
          /\ replied resp status reply
          /\ (forall done0 resp0,
                 parseForm r = None ->
                 fn r (DecodeParams (pathVars r)) = (done0, Returns (resp0, None)) ->
                 done = done0 /\ resp = resp0 /\ err = None))
    /\ (forall fn : HandlerWithBodyFunc,
          (forall body, snd (fn r (pathVars r) body) <> Panics) ->
          exists done status err resp reply,
            MakeHandlerWithBody metricName fn r
            = ((done ++ effLogRequest (Some r) status err
                  :: effTrackRequest metricName status :: reply)%list, Returns tt)
            /\ (err = None -> status = 200%Z)
            /\ replied resp status reply
            /\ (forall done0 resp0 body,
                   parseForm r = None ->
                   ReadAll r = inr body ->
                   fn r (pathVars r) body = (done0, Returns (resp0, None)) ->
                   done = done0 /\ resp = resp0 /\ err = None)).
Proof.
  intros f metricName r HL Hf. split; intros fn Hfn.
  - unfold MakeHandler. destruct (parseForm r) as [e |].
    + destruct (finish_returns f metricName r
                  (messageResponse
                     (Error (errorString
                               (Sprintf "Failed to parse request form: %v" [Error e]))))
                  StatusInternalServerError
                  (Some (errorString
                           (Sprintf "Failed to parse request form: %v" [Error e])))
                  HL Hf) as (reply & E & R).
      exists []. do 4 eexists. split; [exact E |].
      split; [discriminate |]. split; [exact R |]. intros ? ? D. discriminate D.
    + destruct (fn r (DecodeParams (pathVars r))) as [done [[resp [e |]] |]];
        [| | now contradiction Hfn].
      * destruct (responseAndStatusFor e) as [resp' status].
        destruct (finish_returns f metricName r resp' status (Some e) HL Hf)
          as (reply & E & R).
        exists done. do 4 eexists. rewrite E, andThen_calls.
        split; [reflexivity |].
        split; [discriminate |]. split; [exact R |].
        intros ? ? _ D. discriminate D.
      * destruct (finish_returns f metricName r resp StatusOK None HL Hf)
          as (reply & E & R).
        exists done. do 4 eexists. rewrite E, andThen_calls.
        split; [reflexivity |].
        split; [reflexivity |]. split; [exact R |].
        intros ? ? _ D. injection D as <- <-. now repeat split.
  - unfold MakeHandlerWithBody. destruct (parseForm r) as [e |].
    + destruct (finish_returns f metricName r
                  (messageResponse
                     (Error (errorString
                               (Sprintf "Failed to parse request form: %v" [Error e]))))
                  StatusInternalServerError
                  (Some (errorString
                           (Sprintf "Failed to parse request form: %v" [Error e])))
                  HL Hf) as (reply & E & R).
      exists []. do 4 eexists. split; [exact E |].
      split; [discriminate |]. split; [exact R |]. intros ? ? ? D. discriminate D.
    + destruct (ReadAll r) as [e | body].
      * destruct (finish_returns f metricName r
                    (messageResponse
                       (Error (errorString
                                 (Sprintf "Failed to read request body: %v" [Error e]))))
                    StatusInternalServerError
                    (Some (errorString
                             (Sprintf "Failed to read request body: %v" [Error e])))
                    HL Hf) as (reply & E & R).
        exists []. do 4 eexists. split; [exact E |].
        split; [discriminate |]. split; [exact R |]. intros ? ? ? _ D. discriminate D.
      * specialize (Hfn body).
        destruct (fn r (pathVars r) body) as [done [[resp [e |]] |]] eqn:Efn;
          [| | now contradiction Hfn].
        -- destruct (responseAndStatusFor e) as [resp' status].
           destruct (finish_returns f metricName r resp' status (Some e) HL Hf)
             as (reply & E & R).
           exists done. do 4 eexists. rewrite E, andThen_calls.
           split; [reflexivity |].
           split; [discriminate |]. split; [exact R |].
           intros ? ? ? _ B D. injection B as <-. rewrite Efn in D.
           discriminate D.
        -- destruct (finish_returns f metricName r resp StatusOK None HL Hf)
             as (reply & E & R).
           exists done. do 4 eexists. rewrite E, andThen_calls.
           split; [reflexivity |].
           split; [reflexivity |]. split; [exact R |].
           intros ? ? ? _ B D. injection B as <-. rewrite Efn in D.
           injection D as <- <-. now repeat split.
Qed.

(** X28.  When the handler function succeeds and its response cannot be
    marshalled, the request is logged and tracked with status 200, and then
    [Reply] calls the function in [LogRequest] without request.  With
    [logRequest], the function of the file, that call panics: the handler
    ends there, and neither header nor status nor body is written by it.
    With a function that returns on those two calls the handler writes the
    status 500 and the body that reports the failure.  And while
    [LogRequest] is nil the handler panics right after the handler
    function. *)
Theorem MakeHandler_marshal_failure :
  forall (metricName : string) (fn : HandlerFunc) (r : Request)
         (done : list Effect) (resp : response) (e : error),
    parseForm r = None ->
    fn r (DecodeParams (pathVars r)) = (done, Returns (resp, None)) ->
    encodeJSON resp = inl e ->
    (LogRequest = Some logRequest ->
     MakeHandler metricName fn r
     = ((done ++ [effLogRequest (Some r) 200 None;
                  effTrackRequest metricName 200;
                  effLogRequest None 500 (Some e)])%list, Panics))
    /\ (forall f : LogFunc,
          LogRequest = Some f ->
          f (Some r) 200%Z None = Returns tt ->
          f None 500%Z (Some e) = Returns tt ->
          MakeHandler metricName fn r
          = ((done ++ [effLogRequest (Some r) 200 None;
                       effTrackRequest metricName 200;
                       effLogRequest None 500 (Some e);
                       effSetHeader "Content-Type" "application/json; charset=utf-8";
                       effWriteHeader 500;
                       effWrite (Sprintf marshalFailedFmt
                                         [fmtResponse resp; Error e])])%list,
             Returns tt))
    /\ (LogRequest = None -> MakeHandler metricName fn r = (done, Panics)).
Proof.
  intros metricName fn r done resp e P F J.
  unfold MakeHandler, finish, Reply, callLogRequest. rewrite P, F, J.
  split; [| split].
  - intros ->. cbn. reflexivity.
  - intros f -> F1 F2. unfold StatusOK, StatusInternalServerError.
    rewrite F1, F2. reflexivity.
  - intros ->. cbn. now rewrite app_nil_r.
Qed.


End ScrollExtras.

Section ScrollExamples.
Import Scroll Examples.

Lemma DecodeParams_lookup_witness :
  mapGet "resourceID" (DecodeParams (pathVars exampleRequest)) = Some "a b c"
  /\ exists value,
      mapGet "broken" (DecodeParams (pathVars exampleRequest)) = Some value
      /\ value = "100%".
Proof.
  split; [reflexivity |].
  destruct (DecodeParams_lookup (pathVars exampleRequest) "broken")
    as (value & G & _ & B & _).
  exists value. split; [exact G |]. apply B. discriminate.
Defined.

Lemma MakeHandler_effects_witness :
  @MakeHandler (exampleHttpEnv (Some quietLog)) "resources.get" channelHandler
               exampleRequest
  = ([effLogRequest (Some exampleRequest) 200 None;
      effTrackRequest "resources.get" 200;
      effLogRequest None 500 (Some unsupportedValue);
      effSetHeader "Content-Type" "application/json; charset=utf-8";
      effWriteHeader 500;
      effWrite (Sprintf marshalFailedFmt
                        ["channel"; Error unsupportedValue])],
     Returns tt).
Proof.
  destruct (proj1 (@MakeHandler_effects (exampleHttpEnv (Some quietLog)) quietLog
                     "resources.get" exampleRequest eq_refl
                     (fun _ _ _ => eq_refl))
                  channelHandler ltac:(discriminate))
    as (done & status & err & resp & reply & E & S & R & Fn).
  destruct (Fn [] (valueResponse "channel") eq_refl eq_refl) as (-> & -> & ->).
  rewrite (S eq_refl) in E, R. rewrite E. cbn in R. rewrite R. reflexivity.
Defined.

Lemma MakeHandler_marshal_failure_witness :
  @MakeHandler (exampleHttpEnv (Some logRequest)) "resources.get" channelHandler
               exampleRequest
  = ([effLogRequest (Some exampleRequest) 200 None;
      effTrackRequest "resources.get" 200;
      effLogRequest None 500 (Some unsupportedValue)],
     Panics).
Proof.
  apply (proj1 (@MakeHandler_marshal_failure (exampleHttpEnv (Some logRequest))
                  "resources.get" channelHandler exampleRequest []
                  (valueResponse "channel") unsupportedValue
                  eq_refl eq_refl eq_refl)).
  reflexivity.
Defined.

End ScrollExamples.
